(** * Scoop shop storefront: order lifecycle and persistence adapters

    A shallow embedding of the two storefront scripts of the repository:

    - [src/unnamed/part_000]: the spreadsheet-webhook variant (module
      [Sheets]), which also carries the admin dashboard;
    - [src/script.js]: the document-database variant (module [Firestore]),
      which gates the order page behind the identity provider.

    JavaScript values are an inductive type, objects are finite maps from
    property names to values, numbers are IEEE-754 binary64 floats.  The
    browser (DOM, localStorage, alerts, console, clock) is an explicit
    [World] threaded through a state-and-exception monad; the network and
    the document database are oracles that answer each recorded request.
    Built-ins whose definition lives in the JavaScript engine ([JSON.parse],
    string conversion, [parseInt], [toFixed], [Date] parsing and printing,
    and what the HTML parser makes of markup assigned to [innerHTML]) are
    fields of a [Host] record over which every definition and theorem is
    parametric. *)

From Stdlib Require Import ZArith String List Floats.PrimFloat Lia.
From Stdlib Require Import Sorting.Sorted Sorting.Permutation.
From stdpp Require Import base option gmap strings list pretty.

#[local] Set Warnings "-register-all".


(** ** JavaScript values *)

Module JS.

Inductive JsVal : Type :=
| VUndefined
| VNull
| VBool (b : bool)
| VNum (x : float)
| VStr (s : string)
| VArr (l : list JsVal)
| VObj (o : gmap string JsVal)
| VServerTimestamp.  (* firebase.firestore.FieldValue.serverTimestamp() *)

(** Thrown values are [Error] objects; only [message] is ever read. *)
Record JsError : Type := mkError { message : string }.

Definition TypeError (msg : string) : JsError := mkError msg.

(** The outcome of evaluating an expression or of awaiting a promise. *)
Inductive Completion (A : Type) : Type :=
| Normal (a : A)
| Throw (e : JsError).
Arguments Normal {A} a.
Arguments Throw {A} e.

Definition cbind {A B} (c : Completion A) (k : A -> Completion B) : Completion B :=
  match c with
  | Normal a => k a
  | Throw e => Throw e
  end.

(** [ToBoolean]. *)
Definition truthy (v : JsVal) : bool :=
  match v with
  | VUndefined | VNull => false
  | VBool b => b
  | VNum x => negb (PrimFloat.eqb x 0) && PrimFloat.eqb x x
  | VStr s => negb (String.eqb s "")
  | VArr _ | VObj _ | VServerTimestamp => true
  end.

Definition truthy_str (s : string) : bool := negb (String.eqb s "").

(** [v.k] for the property names the scripts read (none of them is
    [length] or an index): own properties of objects, [undefined] on the
    other values, a TypeError on [null] and [undefined].  The texts of
    the engine's errors are V8's, here and below. *)
Definition get_prop (v : JsVal) (k : string) : Completion JsVal :=
  match v with
  | VUndefined =>
      Throw (TypeError ("Cannot read properties of undefined (reading '" +:+ k +:+ "')"))
  | VNull =>
      Throw (TypeError ("Cannot read properties of null (reading '" +:+ k +:+ "')"))
  | VObj o => Normal (default VUndefined (o !! k))
  | _ => Normal VUndefined
  end.

(** [v.k = x] in a non-strict script: sets the property on an object, is
    silently dropped on a primitive; a property set on an array does not
    survive [JSON.stringify], which is the only use made of the result. *)
Definition set_prop (v : JsVal) (k : string) (x : JsVal) : Completion JsVal :=
  match v with
  | VUndefined =>
      Throw (TypeError ("Cannot set properties of undefined (setting '" +:+ k +:+ "')"))
  | VNull =>
      Throw (TypeError ("Cannot set properties of null (setting '" +:+ k +:+ "')"))
  | VObj o => Normal (VObj (<[k := x]> o))
  | _ => Normal v
  end.

(** [{...base, ...src}]: properties of [src] override those of [base]. *)
Definition obj_spread (base src : gmap string JsVal) : gmap string JsVal :=
  src ∪ base.

(** Own enumerable properties copied by [{...v}]: the properties of an
    object, the elements of an array and the characters of a string under
    their indices, nothing for the other values. *)
Definition own_props (v : JsVal) : gmap string JsVal :=
  match v with
  | VObj o => o
  | VArr l => list_to_map (imap (fun i x => (pretty i, x)) l)
  | VStr s =>
      list_to_map (imap (fun i c => (pretty i, VStr (String c EmptyString)))
                     (list_ascii_of_string s))
  | _ => ∅
  end.

(** [v === "s"]. *)
Definition strict_eq_str (v : JsVal) (s : string) : bool :=
  match v with
  | VStr t => String.eqb t s
  | _ => false
  end.

(** [s.includes(needle)]. *)
Fixpoint includes (s needle : string) : bool :=
  String.prefix needle s
  || match s with
     | EmptyString => false
     | String _ s' => includes s' needle
     end.

(** [l.join(sep)]. *)
Definition join (sep : string) (l : list string) : string := String.concat sep l.

(** The double-quote and line-feed characters. *)
Definition dquote : string :=
  String (Ascii.Ascii false true false false false true false false) EmptyString.

Definition newline : string :=
  String (Ascii.Ascii false true false true false false false false) EmptyString.

(** [s] between double quotes, as an attribute value is written. *)
Definition quoted (s : string) : string := dquote +:+ s +:+ dquote.

Fixpoint spaces (n : nat) : string :=
  match n with
  | O => EmptyString
  | S k => String (Ascii.Ascii false false false false false true false false) (spaces k)
  end.

(** A line of a template literal that spans lines: the line feed that
    ends the line before, the indentation, the text. *)
Definition line (indent : nat) (text : string) : string :=
  newline +:+ spaces indent +:+ text.

(** [ToNumber] on the values that need no string parsing; strings and
    arrays go through the host's string-to-number conversion. *)
Definition ToNumber (StringToNumber : JsVal -> float) (v : JsVal) : float :=
  match v with
  | VUndefined => PrimFloat.nan
  | VNull => 0%float
  | VBool true => 1%float
  | VBool false => 0%float
  | VNum x => x
  | VStr _ | VArr _ => StringToNumber v
  | VObj _ | VServerTimestamp => PrimFloat.nan
  end.

(** Engine built-ins the scripts call. *)
Record Host : Type := mkHost {
  JSON_parse : string -> Completion JsVal;      (* JSON.parse(text) *)
  ToString : JsVal -> string;                   (* `${v}` *)
  StringToNumber : JsVal -> float;              (* ToNumber of a string or array *)
  parseInt : string -> float;                   (* parseInt(s) *)
  Date_time : JsVal -> option Z;                (* new Date(v).getTime(); None is NaN *)
  toFixed : float -> string;                    (* x.toFixed(2) *)
  Date_toLocaleString : JsVal -> string;        (* new Date(v).toLocaleString() *)
  (* Markup assigned to [innerHTML]: of the elements of class [c] in the
     tree the HTML parser builds from it, in document order, what
     [getAttribute(a)] returns ([None] is null). *)
  class_attributes : forall (c a markup : string), list (option string);
}.

(** [a * b]. *)
Definition js_mul (host : Host) (a b : JsVal) : float :=
  PrimFloat.mul (ToNumber (StringToNumber host) a) (ToNumber (StringToNumber host) b).

(** [v.toFixed(2)], where [what] is the text of the expression [v]:
    numbers have the method, the other values do not. *)
Definition call_toFixed (host : Host) (what : string) (v : JsVal) : Completion string :=
  match v with
  | VNum x => Normal (toFixed host x)
  | VUndefined => Throw (TypeError "Cannot read properties of undefined (reading 'toFixed')")
  | VNull => Throw (TypeError "Cannot read properties of null (reading 'toFixed')")
  | _ => Throw (TypeError (what +:+ ".toFixed is not a function"))
  end.

End JS.
Export JS.

(** ** The browser *)

Module Browser.

Inductive LogLevel : Type := LLog | LWarn | LError.

(** Requests that leave the page.  A [fetch] body is recorded as the value
    handed to [JSON.stringify]. *)
Inductive Request : Type :=
| Fetch (url : string) (body : option JsVal)
| FsAdd (collection : string) (data : gmap string JsVal)
| FsQuery (collection orderBy direction : string)
| FsDocGet (collection : string) (id : JsVal)
| FsDocUpdate (collection : string) (id : JsVal) (data : gmap string JsVal).

(** What [fetch] settles to: a rejection, or a response whose [json()]
    either yields a value or rejects. *)
Inductive FetchReply : Type :=
| FetchRejected (e : JsError)
| FetchResponse (ok : bool) (status : Z) (json : Completion JsVal).

(** The outside world: every answer may depend on how many requests were
    issued before it. *)
Record Backend : Type := mkBackend {
  fetch_reply : nat -> string -> option JsVal -> FetchReply;
  fs_add_reply : nat -> gmap string JsVal -> Completion string;
  fs_query_reply : nat -> Completion (list (string * gmap string JsVal));
  fs_get_reply : nat -> JsVal -> Completion (string * option (gmap string JsVal));
  fs_update_reply : nat -> JsVal -> gmap string JsVal -> Completion unit;
}.

(** Modelled from the spec: the markup of the order page is not among the
    sources.  Its form has the text inputs the listener reads and a
    delivery-type radio group of which one option is always checked
    (spec, section 4.5), so the checked value is a string. *)
Record FormValues : Type := mkForm {
  f_name : string;
  f_email : string;
  f_phone : string;
  f_address : string;
  f_deliveryType : string;
}.

(** The order summary of the order page: the markup assigned to
    [#order-summary-items] and the text of [#order-total], once set. *)
Inductive SummaryHtml : Type :=
| SummaryUnset
| SummaryShown (items_html total_text : string).

(** An element of class [update-status-btn] on the admin dashboard: its
    [data-order-id] attribute, if it has one, and whether the click
    listener has been added to it. *)
Record StatusButton : Type := mkStatusButton {
  data_order_id : option string;
  sb_listening : bool;
}.

(** A card of the admin dashboard: the order it was built from, the markup
    assigned to its [innerHTML], and the status buttons the parser made of
    that markup. *)
Record OrderCard : Type := mkCard {
  card_order : JsVal;
  card_html : string;
  card_buttons : list StatusButton;
}.

(** [#orders-list]: its markup text and the cards appended to it. *)
Record OrdersListHtml : Type := mkOrdersList {
  ol_html : string;
  ol_cards : list OrderCard;
}.

Record World : Type := mkWorld {
  allProducts : JsVal;
  location_protocol : string;
  location_href : string;
  localStorage : gmap string string;
  auth_currentUser : JsVal;
  Date_now : float;
  Date_iso : string;
  form : FormValues;
  productGrid : option string;      (* innerHTML of #product-grid, if present *)
  modalVisible : bool;              (* "visible" on #confirmation-modal *)
  orderSummary : SummaryHtml;
  submitListener : bool;            (* submit listener on #order-form *)
  closeListener : bool;             (* click listener on #close-modal *)
  ordersList : OrdersListHtml;
  alerts : list string;
  console : list (LogLevel * string);
  requests : list Request;
}.

Definition set_allProducts (v : JsVal) (w : World) : World :=
  mkWorld v (location_protocol w) (location_href w) (localStorage w)
    (auth_currentUser w) (Date_now w) (Date_iso w) (form w) (productGrid w)
    (modalVisible w) (orderSummary w) (submitListener w) (closeListener w)
    (ordersList w) (alerts w) (console w) (requests w).

Definition set_location_href (v : string) (w : World) : World :=
  mkWorld (allProducts w) (location_protocol w) v (localStorage w)
    (auth_currentUser w) (Date_now w) (Date_iso w) (form w) (productGrid w)
    (modalVisible w) (orderSummary w) (submitListener w) (closeListener w)
    (ordersList w) (alerts w) (console w) (requests w).

Definition set_localStorage (v : gmap string string) (w : World) : World :=
  mkWorld (allProducts w) (location_protocol w) (location_href w) v
    (auth_currentUser w) (Date_now w) (Date_iso w) (form w) (productGrid w)
    (modalVisible w) (orderSummary w) (submitListener w) (closeListener w)
    (ordersList w) (alerts w) (console w) (requests w).

Definition set_form (v : FormValues) (w : World) : World :=
  mkWorld (allProducts w) (location_protocol w) (location_href w) (localStorage w)
    (auth_currentUser w) (Date_now w) (Date_iso w) v (productGrid w)
    (modalVisible w) (orderSummary w) (submitListener w) (closeListener w)
    (ordersList w) (alerts w) (console w) (requests w).

Definition set_productGrid (v : option string) (w : World) : World :=
  mkWorld (allProducts w) (location_protocol w) (location_href w) (localStorage w)
    (auth_currentUser w) (Date_now w) (Date_iso w) (form w) v
    (modalVisible w) (orderSummary w) (submitListener w) (closeListener w)
    (ordersList w) (alerts w) (console w) (requests w).

Definition set_modalVisible (v : bool) (w : World) : World :=
  mkWorld (allProducts w) (location_protocol w) (location_href w) (localStorage w)
    (auth_currentUser w) (Date_now w) (Date_iso w) (form w) (productGrid w)
    v (orderSummary w) (submitListener w) (closeListener w)
    (ordersList w) (alerts w) (console w) (requests w).

Definition set_orderSummary (v : SummaryHtml) (w : World) : World :=
  mkWorld (allProducts w) (location_protocol w) (location_href w) (localStorage w)
    (auth_currentUser w) (Date_now w) (Date_iso w) (form w) (productGrid w)
    (modalVisible w) v (submitListener w) (closeListener w)
    (ordersList w) (alerts w) (console w) (requests w).

Definition set_submitListener (v : bool) (w : World) : World :=
  mkWorld (allProducts w) (location_protocol w) (location_href w) (localStorage w)
    (auth_currentUser w) (Date_now w) (Date_iso w) (form w) (productGrid w)
    (modalVisible w) (orderSummary w) v (closeListener w)
    (ordersList w) (alerts w) (console w) (requests w).

Definition set_closeListener (v : bool) (w : World) : World :=
  mkWorld (allProducts w) (location_protocol w) (location_href w) (localStorage w)
    (auth_currentUser w) (Date_now w) (Date_iso w) (form w) (productGrid w)
    (modalVisible w) (orderSummary w) (submitListener w) v
    (ordersList w) (alerts w) (console w) (requests w).

Definition set_ordersList (v : OrdersListHtml) (w : World) : World :=
  mkWorld (allProducts w) (location_protocol w) (location_href w) (localStorage w)
    (auth_currentUser w) (Date_now w) (Date_iso w) (form w) (productGrid w)
    (modalVisible w) (orderSummary w) (submitListener w) (closeListener w)
    v (alerts w) (console w) (requests w).

Definition set_alerts (v : list string) (w : World) : World :=
  mkWorld (allProducts w) (location_protocol w) (location_href w) (localStorage w)
    (auth_currentUser w) (Date_now w) (Date_iso w) (form w) (productGrid w)
    (modalVisible w) (orderSummary w) (submitListener w) (closeListener w)
    (ordersList w) v (console w) (requests w).

Definition set_console (v : list (LogLevel * string)) (w : World) : World :=
  mkWorld (allProducts w) (location_protocol w) (location_href w) (localStorage w)
    (auth_currentUser w) (Date_now w) (Date_iso w) (form w) (productGrid w)
    (modalVisible w) (orderSummary w) (submitListener w) (closeListener w)
    (ordersList w) (alerts w) v (requests w).

Definition set_requests (v : list Request) (w : World) : World :=
  mkWorld (allProducts w) (location_protocol w) (location_href w) (localStorage w)
    (auth_currentUser w) (Date_now w) (Date_iso w) (form w) (productGrid w)
    (modalVisible w) (orderSummary w) (submitListener w) (closeListener w)
    (ordersList w) (alerts w) (console w) v.

(** *** The monad of scripts: state plus exceptions

    An [async] function is a computation in [M]; [await] is sequencing and
    a rejected promise is a [Throw]. *)

Definition M (A : Type) : Type := World -> Completion A * World.

Definition ret {A} (a : A) : M A := fun w => (Normal a, w).

Definition bind {A B} (m : M A) (k : A -> M B) : M B :=
  fun w =>
    match m w with
    | (Normal a, w') => k a w'
    | (Throw e, w') => (Throw e, w')
    end.

Definition throw {A} (e : JsError) : M A := fun w => (Throw e, w).

(** [try { m } catch (error) { h error }], and [p.catch(h)]. *)
Definition try_catch {A} (m : M A) (h : JsError -> M A) : M A :=
  fun w =>
    match m w with
    | (Normal a, w') => (Normal a, w')
    | (Throw e, w') => h e w'
    end.

(** Evaluation of an expression that may throw. *)
Definition lift {A} (c : Completion A) : M A := fun w => (c, w).

(** A call to an [async] function whose promise is dropped: its effects
    happen, its rejection reaches nobody. *)
Definition detached {A} (m : M A) : M unit :=
  fun w => (Normal tt, snd (m w)).

Definition gets {A} (f : World -> A) : M A := fun w => (Normal (f w), w).
Definition modify (f : World -> World) : M unit := fun w => (Normal tt, f w).

End Browser.
Export Browser.

Notation "x <- m ;; k" := (bind m (fun x => k))
  (at level 100, m at next level, right associativity).
Notation "m ;;; k" := (bind m (fun _ => k))
  (at level 100, right associativity).

(** *** Browser primitives *)

Section Primitives.
Context (net : Backend).

Definition alert (msg : string) : M unit :=
  modify (fun w => set_alerts (alerts w ++ [msg]) w).

Definition console_log (msg : string) : M unit :=
  modify (fun w => set_console (console w ++ [(LLog, msg)]) w).

Definition console_warn (msg : string) : M unit :=
  modify (fun w => set_console (console w ++ [(LWarn, msg)]) w).

Definition console_error (msg : string) : M unit :=
  modify (fun w => set_console (console w ++ [(LError, msg)]) w).

Definition localStorage_getItem (key : string) : M (option string) :=
  gets (fun w => localStorage w !! key).

Definition localStorage_setItem (key value : string) : M unit :=
  modify (fun w => set_localStorage (<[key := value]> (localStorage w)) w).

Definition localStorage_removeItem (key : string) : M unit :=
  modify (fun w => set_localStorage (delete key (localStorage w)) w).

(** [await fetch(url, init)]: the request is recorded, the oracle settles
    it. *)
Definition fetch (url : string) (body : option JsVal) : M (bool * Z * Completion JsVal) :=
  fun w =>
    let w' := set_requests (requests w ++ [Fetch url body]) w in
    match fetch_reply net (length (requests w)) url body with
    | FetchRejected e => (Throw e, w')
    | FetchResponse ok status json => (Normal (ok, status, json), w')
    end.

(** [db.collection(c).add(data)]. *)
Definition fs_add (c : string) (data : gmap string JsVal) : M string :=
  fun w =>
    (fs_add_reply net (length (requests w)) data,
     set_requests (requests w ++ [FsAdd c data]) w).

(** [db.collection(c).orderBy(field, dir).get()]: the documents of the
    snapshot, each with its document id and its data. *)
Definition fs_query (c field dir : string) : M (list (string * gmap string JsVal)) :=
  fun w =>
    (fs_query_reply net (length (requests w)),
     set_requests (requests w ++ [FsQuery c field dir]) w).

(** [db.collection(c).doc(id).get()]: the document's id and, when it
    exists, its data. *)
Definition fs_doc_get (c : string) (id : JsVal) : M (string * option (gmap string JsVal)) :=
  fun w =>
    (fs_get_reply net (length (requests w)) id,
     set_requests (requests w ++ [FsDocGet c id]) w).

(** [db.collection(c).doc(id).update(data)]. *)
Definition fs_doc_update (c : string) (id : JsVal) (data : gmap string JsVal) : M unit :=
  fun w =>
    (fs_update_reply net (length (requests w)) id data,
     set_requests (requests w ++ [FsDocUpdate c id data]) w).

End Primitives.

(** ** Code shared by the two scripts

    [loadProducts] and the order form's submit listener are the same text in
    both files; the listener calls whichever [saveOrder] its script
    defines. *)

Module Storefront.
Section Storefront.
Context (host : Host) (net : Backend).

Definition could_not_load_flavors : string :=
  "<p style=" +:+ dquote +:+ "color: var(--primary-color);" +:+ dquote
  +:+ ">Could not load flavors. Please run this page through a web server.</p>".

(** [loadProducts()]. *)
Definition loadProducts : M unit :=
  try_catch
    (response <- fetch net "products.json" None ;;
     let '(ok, status, json) := response in
     if negb ok
     then throw (mkError ("HTTP error! status: " +:+ pretty status))
     else
       products <- lift json ;;
       modify (set_allProducts products) ;;;
       console_log "Products loaded successfully:")
    (fun error =>
       console_error "Could not fetch products:" ;;;
       protocol <- gets location_protocol ;;
       if String.eqb protocol "file:" || includes (message error) "Failed to fetch"
       then
         console_warn "Running in local file environment - products will be loaded when served through a web server." ;;;
         modify (set_allProducts (VArr []))
       else
         modify (fun w =>
                   match productGrid w with
                   | Some _ => set_productGrid (Some could_not_load_flavors) w
                   | None => w
                   end) ;;;
         modify (set_allProducts (VArr []))).

(** The markup of the summary's line.  The two scripts write the same
    template, the document-database script two columns further in
    ([indent] is 0 for the webhook script and 2 for the other). *)
Definition summary_item_html (indent : nat) (image name quantity lineTotal : string)
    : string :=
  line (12 + indent)
    ("<div class=" +:+ quoted "summary-item" +:+ " style="
     +:+ quoted "display: flex; justify-content: space-between; align-items: center;"
     +:+ ">")
  +:+ line (16 + indent)
        ("<img src=" +:+ quoted image +:+ " alt=" +:+ quoted name +:+ " width="
         +:+ quoted "50" +:+ " style="
         +:+ quoted "border-radius: 5px; margin-right: 10px;" +:+ ">")
  +:+ line (16 + indent)
        ("<span style=" +:+ quoted "flex-grow: 1;" +:+ ">" +:+ name +:+ " (x" +:+ quantity
         +:+ ")</span>")
  +:+ line (16 + indent) ("<span>$" +:+ lineTotal +:+ "</span>")
  +:+ line (12 + indent) "</div>"
  +:+ line (8 + indent) "".

(** The order summary drawn when the order page opens. *)
Definition render_summary (indent : nat) : M unit :=
  orderItemData <- localStorage_getItem "cartItem" ;;
  match orderItemData with
  | Some text =>
      if truthy_str text
      then
        item <- lift (JSON_parse host text) ;;
        image <- lift (get_prop item "image") ;;
        name <- lift (get_prop item "name") ;;
        quantity <- lift (get_prop item "quantity") ;;
        price <- lift (get_prop item "price") ;;
        let lineTotal := toFixed host (js_mul host price quantity) in
        modify (set_orderSummary
                  (SummaryShown
                     (summary_item_html indent (ToString host image) (ToString host name)
                        (ToString host quantity) lineTotal)
                     ("$" +:+ lineTotal)))
      else modify (set_orderSummary (SummaryShown "<p>Your cart is empty.</p>" "$0.00"))
  | None => modify (set_orderSummary (SummaryShown "<p>Your cart is empty.</p>" "$0.00"))
  end.

(** The [order] object literal of the submit listener. *)
Definition order_literal (name email phone address deliveryType : string)
    (now : float) (iso : string) (item : JsVal) : Completion JsVal :=
  cbind (get_prop item "id") (fun item_id =>
  cbind (get_prop item "name") (fun item_name =>
  cbind (get_prop item "price") (fun item_price =>
  cbind (get_prop item "quantity") (fun item_quantity =>
  Normal (VObj (list_to_map [
    ("id", VNum now);
    ("customerId", VStr email);
    ("customerName", VStr name);
    ("customerEmail", VStr email);
    ("customerPhone", VStr phone);
    ("customerAddress", VStr address);
    ("deliveryType", VStr deliveryType);
    ("items", VArr [VObj (list_to_map [
                 ("id", item_id);
                 ("name", item_name);
                 ("price", item_price);
                 ("quantity", item_quantity)])]);
    ("total", VNum (js_mul host item_price item_quantity));
    ("orderDate", VStr iso);
    ("status", VStr "pending")])))))).

Definition no_items_message : string :=
  "No items in cart. Please select an item first.".

Definition save_error_message : string :=
  "There was an error saving your order. Please try again.".

(** [missingFields] after the three pushes. *)
Definition missing_fields (name email phone : string) : list string :=
  (if truthy_str name then [] else ["Name"])
  ++ (if truthy_str email then [] else ["Email"])
  ++ (if truthy_str phone then [] else ["Phone"]).

Definition missing_fields_message (missingFields : list string) : string :=
  "Please fill in the following required fields: " +:+ join ", " missingFields +:+ ".".

Section Submit.
Context (saveOrder : JsVal -> M JsVal).

(** The listener registered on [#order-form] for [submit]. *)
Definition orderForm_onSubmit : M unit :=
  name <- gets (fun w => f_name (form w)) ;;
  email <- gets (fun w => f_email (form w)) ;;
  phone <- gets (fun w => f_phone (form w)) ;;
  address <- gets (fun w => f_address (form w)) ;;
  deliveryType <- gets (fun w => f_deliveryType (form w)) ;;
  if truthy_str name && truthy_str email && truthy_str phone
  then
    orderItemData <- localStorage_getItem "cartItem" ;;
    match orderItemData with
    | Some text =>
        if truthy_str text
        then
          item <- lift (JSON_parse host text) ;;
          now <- gets Date_now ;;
          iso <- gets Date_iso ;;
          order <- lift (order_literal name email phone address deliveryType now iso item) ;;
          try_catch
            (success <- saveOrder order ;;
             if truthy success
             then
               modify (set_modalVisible true) ;;;
               localStorage_removeItem "cartItem"
             else alert save_error_message)
            (fun error =>
               console_error "Error saving order:" ;;;
               alert save_error_message)
        else alert no_items_message
    | None => alert no_items_message
    end
  else
    alert (missing_fields_message (missing_fields name email phone)).

(** The listener registered on [#close-modal] for [click]. *)
Definition closeModal_onClick : M unit :=
  modify (set_modalVisible false) ;;;
  modify (set_location_href "index.html").

(** A [submit] event on the order form reaches the listener only when
    one was registered. *)
Definition dispatch_submit : M unit :=
  listening <- gets submitListener ;;
  if listening then orderForm_onSubmit else ret tt.

End Submit.

End Storefront.
End Storefront.
Export Storefront.

(** ** The spreadsheet-webhook script, [src/unnamed/part_000] *)

Module Sheets.
Section Sheets.
Context (host : Host) (net : Backend).

Definition GOOGLE_SHEETS_SCRIPT_URL : string :=
  "https://script.google.com/macros/s/AKfycbxhE_X9PL6ZehTLBni3WxLjhNbFJF_sL4ZfyCKyzV1bA5NcWYF-SnyW4wo6NLXqK1vfyw/exec".

(** [fetch(GOOGLE_SHEETS_SCRIPT_URL, {method: 'POST', ...})] followed by
    [response.json()]. *)
Definition post (envelope : gmap string JsVal) : M JsVal :=
  response <- fetch net GOOGLE_SHEETS_SCRIPT_URL (Some (VObj envelope)) ;;
  let '(_, _, json) := response in
  lift json.

Definition initOrderPage : M unit :=
  render_summary host 0 ;;;
  modify (set_submitListener true) ;;;
  modify (set_closeListener true).

Definition saveOrder (order : JsVal) : M JsVal :=
  try_catch
    (result <- post (list_to_map [("action", VStr "saveOrder"); ("order", order)]) ;;
     success <- lift (get_prop result "success") ;;
     if truthy success
     then
       console_log "Order saved successfully to Google Sheets" ;;;
       ret (VBool true)
     else
       console_error "Error saving order:" ;;;
       ret (VBool false))
    (fun error =>
       console_error "Error saving order to Google Sheets:" ;;;
       ret (VBool false)).

(** A [submit] event on [#order-form] of this script's order page. *)
Definition submitOrderForm : M unit := dispatch_submit host saveOrder.

Definition getAllOrders : M JsVal :=
  try_catch
    (result <- post (list_to_map [("action", VStr "getAllOrders")]) ;;
     success <- lift (get_prop result "success") ;;
     if truthy success
     then
       orders <- lift (get_prop result "orders") ;;
       ret (if truthy orders then orders else VArr [])
     else
       console_error "Error fetching orders:" ;;;
       ret (VArr []))
    (fun error =>
       console_error "Error fetching orders from Google Sheets:" ;;;
       ret (VArr [])).

Definition getOrderById (orderId : JsVal) : M JsVal :=
  try_catch
    (result <- post (list_to_map [("action", VStr "getOrderById"); ("orderId", orderId)]) ;;
     success <- lift (get_prop result "success") ;;
     if truthy success
     then lift (get_prop result "order")
     else
       console_error "Error fetching order:" ;;;
       ret VNull)
    (fun error =>
       console_error "Error fetching order from Google Sheets:" ;;;
       ret VNull).

Definition updateOrder (updatedOrder : JsVal) : M JsVal :=
  try_catch
    (result <- post (list_to_map [("action", VStr "updateOrder"); ("order", updatedOrder)]) ;;
     success <- lift (get_prop result "success") ;;
     if truthy success
     then
       console_log "Order updated successfully in Google Sheets" ;;;
       ret (VBool true)
     else
       console_error "Error updating order:" ;;;
       ret (VBool false))
    (fun error =>
       console_error "Error updating order in Google Sheets:" ;;;
       ret (VBool false)).

(** *** Admin dashboard *)

(** [orders.length === 0]. *)
Definition length_is_zero (orders : JsVal) : Completion bool :=
  match orders with
  | VUndefined => Throw (TypeError "Cannot read properties of undefined (reading 'length')")
  | VNull => Throw (TypeError "Cannot read properties of null (reading 'length')")
  | VArr [] => Normal true
  | VArr (_ :: _) => Normal false
  | VStr s => Normal (String.eqb s "")
  | VObj o =>
      Normal (match o !! "length" with
              | Some (VNum x) => PrimFloat.eqb x 0
              | _ => false
              end)
  | _ => Normal false
  end.

(** [(a, b) => new Date(b.orderDate) - new Date(a.orderDate)]; time values
    are integral numbers of milliseconds, their difference is [None] when
    either date is invalid (NaN). *)
Definition by_orderDate_desc (a b : JsVal) : Completion (option Z) :=
  cbind (get_prop b "orderDate") (fun db =>
  cbind (get_prop a "orderDate") (fun da =>
  Normal (match Date_time host db, Date_time host da with
          | Some tb, Some ta => Some (tb - ta)%Z
          | _, _ => None
          end))).

(** [Array.prototype.sort]: a stable sort under the comparator, where a
    positive result puts the second argument first and NaN counts as
    zero; [undefined] elements go last without being compared. *)
Fixpoint insert_by {A} (cmp : A -> A -> Completion (option Z)) (x : A) (l : list A)
    : Completion (list A) :=
  match l with
  | [] => Normal [x]
  | y :: l' =>
      cbind (cmp x y) (fun c =>
      match c with
      | Some v =>
          if (0 <? v)%Z
          then cbind (insert_by cmp x l') (fun r => Normal (y :: r))
          else Normal (x :: y :: l')
      | None => Normal (x :: y :: l')
      end)
  end.

Fixpoint sort_by {A} (cmp : A -> A -> Completion (option Z)) (l : list A)
    : Completion (list A) :=
  match l with
  | [] => Normal []
  | x :: l' => cbind (sort_by cmp l') (insert_by cmp x)
  end.

Definition is_undefined (v : JsVal) : bool :=
  match v with
  | VUndefined => true
  | _ => false
  end.

Definition array_sort (cmp : JsVal -> JsVal -> Completion (option Z)) (l : list JsVal)
    : Completion (list JsVal) :=
  cbind (sort_by cmp (List.filter (fun v => negb (is_undefined v)) l)) (fun sorted =>
  Normal (sorted ++ List.filter is_undefined l)).

(** The markup of one line item: the callback of [order.items.map]. *)
Definition render_item (item : JsVal) : Completion string :=
  cbind (get_prop item "name") (fun name =>
  cbind (get_prop item "quantity") (fun quantity =>
  cbind (get_prop item "price") (fun price =>
  cbind (call_toFixed host "item.price" price) (fun priceText =>
  Normal (line 20 ("<div class=" +:+ quoted "order-item" +:+ ">")
          +:+ line 24 "<div>"
          +:+ line 28 ("<p><strong>" +:+ ToString host name +:+ "</strong></p>")
          +:+ line 28 ("<p>Quantity: " +:+ ToString host quantity +:+ " | Price: $"
                       +:+ priceText +:+ " each</p>")
          +:+ line 24 "</div>"
          +:+ line 20 "</div>"
          +:+ line 16 ""))))).

(** [items.map(item => ...)]. *)
Fixpoint render_items (items : list JsVal) : Completion (list string) :=
  match items with
  | [] => Normal []
  | item :: rest =>
      cbind (render_item item) (fun html =>
      cbind (render_items rest) (fun htmls =>
      Normal (html :: htmls)))
  end.

(** [statusButton]: the button only when the status is ['pending']. *)
Definition statusButton_html (order : JsVal) : Completion string :=
  cbind (get_prop order "status") (fun status =>
  if strict_eq_str status "pending"
  then
    cbind (get_prop order "id") (fun id =>
    Normal ("<button class=" +:+ quoted "update-status-btn" +:+ " data-order-id="
            +:+ quoted (ToString host id) +:+ ">Mark as Complete</button>"))
  else
    Normal ("<span class=" +:+ quoted "order-status-completed" +:+ ">Completed</span>")).

(** The template assigned to [orderCard.innerHTML]: the order's fields go
    into the markup as they are; its evaluation throws on an order
    without a numeric total or an array of items. *)
Definition orderCard_html (order : JsVal) (statusButton : string) : Completion string :=
  cbind (get_prop order "id") (fun id =>
  cbind (get_prop order "status") (fun status =>
  cbind (get_prop order "customerName") (fun customerName =>
  cbind (get_prop order "customerEmail") (fun customerEmail =>
  cbind (get_prop order "customerPhone") (fun customerPhone =>
  cbind (get_prop order "deliveryType") (fun deliveryType =>
  cbind (get_prop order "customerAddress") (fun customerAddress =>
  cbind (get_prop order "orderDate") (fun orderDate =>
  cbind (get_prop order "total") (fun total =>
  cbind (call_toFixed host "order.total" total) (fun totalText =>
  cbind (get_prop order "items") (fun items =>
  cbind (match items with
         | VArr its => render_items its
         | VUndefined =>
             Throw (TypeError "Cannot read properties of undefined (reading 'map')")
         | VNull => Throw (TypeError "Cannot read properties of null (reading 'map')")
         | _ => Throw (TypeError "order.items.map is not a function")
         end) (fun itemsHtml =>
  Normal (line 12 ("<div class=" +:+ quoted "order-header" +:+ ">")
          +:+ line 16 ("<h3>Order #" +:+ ToString host id +:+ "</h3>")
          +:+ line 16 ("<div class=" +:+ quoted "order-status" +:+ ">"
                       +:+ ToString host status +:+ "</div>")
          +:+ line 12 "</div>"
          +:+ line 12 ("<div class=" +:+ quoted "order-details" +:+ ">")
          +:+ line 16 ("<p><strong>Customer:</strong> " +:+ ToString host customerName
                       +:+ "</p>")
          +:+ line 16 ("<p><strong>Email:</strong> " +:+ ToString host customerEmail
                       +:+ "</p>")
          +:+ line 16 ("<p><strong>Phone:</strong> " +:+ ToString host customerPhone
                       +:+ "</p>")
          +:+ line 16 ("<p><strong>Delivery Type:</strong> " +:+ ToString host deliveryType
                       +:+ "</p>")
          +:+ line 16 ("<p><strong>Address:</strong> "
                       +:+ (if truthy customerAddress
                            then ToString host customerAddress
                            else "N/A")
                       +:+ "</p>")
          +:+ line 16 ("<p><strong>Order Date:</strong> "
                       +:+ Date_toLocaleString host orderDate +:+ "</p>")
          +:+ line 16 ("<p><strong>Total:</strong> $" +:+ totalText +:+ "</p>")
          +:+ line 12 "</div>"
          +:+ line 12 ("<div class=" +:+ quoted "order-items" +:+ ">")
          +:+ line 16 "<h4>Items:</h4>"
          +:+ line 16 (join "" itemsHtml)
          +:+ line 12 "</div>"
          +:+ line 12 ("<div class=" +:+ quoted "order-actions" +:+ ">")
          +:+ line 16 statusButton
          +:+ line 12 "</div>"
          +:+ line 8 ""))))))))))))).

(** The card built for one order.  The parser makes elements of whatever
    markup the fields carry, so the status buttons of the card are those
    the engine finds in the markup, not only the one of the template.
    (Whatever else such markup brings with it, a handler in an attribute
    for one, is outside this model.) *)
Definition render_order (order : JsVal) : Completion OrderCard :=
  cbind (statusButton_html order) (fun statusButton =>
  cbind (orderCard_html order statusButton) (fun html =>
  Normal (mkCard order html
            (map (fun id => mkStatusButton id false)
               (class_attributes host "update-status-btn" "data-order-id" html))))).

Definition appendChild (card : OrderCard) : M unit :=
  modify (fun w =>
            set_ordersList
              (mkOrdersList (ol_html (ordersList w)) (ol_cards (ordersList w) ++ [card])) w).

(** [orders.forEach(order => { ... ordersList.appendChild(orderCard) })]. *)
Fixpoint render_orders (orders : list JsVal) : M unit :=
  match orders with
  | [] => ret tt
  | order :: rest =>
      card <- lift (render_order order) ;;
      appendChild card ;;;
      render_orders rest
  end.

Definition listen (card : OrderCard) : OrderCard :=
  mkCard (card_order card) (card_html card)
    (map (fun button => mkStatusButton (data_order_id button) true) (card_buttons card)).

(** [document.querySelectorAll('.update-status-btn').forEach(button =>
    button.addEventListener('click', ...))]: every element of the class
    gets the listener (the page's own markup, which is not among the
    sources, is taken to have none outside the list). *)
Definition addStatusListeners : M unit :=
  modify (fun w =>
            set_ordersList
              (mkOrdersList (ol_html (ordersList w)) (map listen (ol_cards (ordersList w)))) w).

Definition loadAndDisplayOrders : M unit :=
  orders <- getAllOrders ;;
  empty <- lift (length_is_zero orders) ;;
  if empty : bool
  then modify (set_ordersList (mkOrdersList "<p>No orders found.</p>" []))
  else
    sorted <- lift (match orders with
                    | VArr l => array_sort by_orderDate_desc l
                    | _ => Throw (TypeError "orders.sort is not a function")
                    end) ;;
    modify (set_ordersList (mkOrdersList "" [])) ;;;
    render_orders sorted ;;;
    addStatusListeners.

Definition updateOrderStatus (orderId newStatus : JsVal) : M JsVal :=
  try_catch
    (order <- getOrderById orderId ;;
     if truthy order
     then
       order' <- lift (set_prop order "status" newStatus) ;;
       result <- post (list_to_map [("action", VStr "updateOrder"); ("order", order')]) ;;
       success <- lift (get_prop result "success") ;;
       if truthy success
       then
         detached loadAndDisplayOrders ;;;
         alert ("Order #" +:+ ToString host orderId +:+ " status updated to " +:+ ToString host newStatus) ;;;
         ret VUndefined
       else
         error <- lift (get_prop result "error") ;;
         alert ("Error updating order: " +:+ ToString host error) ;;;
         ret VUndefined
     else
       alert ("Order #" +:+ ToString host orderId +:+ " not found") ;;;
       ret VUndefined)
    (fun error =>
       console_error "Error updating order status:" ;;;
       alert ("Error updating order status: " +:+ message error) ;;;
       ret VUndefined).

(** A click on an element of class [update-status-btn]: its listener, if
    it was given one.  [getAttribute] returns null for a missing
    attribute, which [parseInt] reads as the text "null". *)
Definition statusButton_onClick (button : StatusButton) : M unit :=
  if sb_listening button
  then
    let orderId := VNum (parseInt host (default "null" (data_order_id button))) in
    detached (updateOrderStatus orderId (VStr "completed"))
  else ret tt.

End Sheets.
End Sheets.

(** ** The document-database script, [src/script.js] *)

Module Firestore.
Section Firestore.
Context (host : Host) (net : Backend).

(** [loadAndDisplayOrders] is not defined by this script; the status
    update calls it when some other script of the page defines it. *)
Context (loadAndDisplayOrders : option (M unit)).

(** [isUserSignedIn()]: resolves to [!!user] for the user the identity
    provider reports. *)
Definition isUserSignedIn : M bool :=
  gets (fun w => truthy (auth_currentUser w)).

Definition getCurrentUser : M JsVal := gets auth_currentUser.

Definition saveOrder (order : JsVal) : M JsVal :=
  try_catch
    (docRef <- fs_add net "orders"
                 (obj_spread (own_props order) {["createdAt" := VServerTimestamp]}) ;;
     console_log "Order saved successfully to Firestore with ID: " ;;;
     ret (VBool true))
    (fun error =>
       console_error "Error saving order to Firestore:" ;;;
       ret (VBool false)).

(** [initOrderPage()]: everything happens in the callback of
    [isUserSignedIn().then], whose failure reaches nobody. *)
Definition initOrderPage : M unit :=
  detached
    (isSignedIn <- isUserSignedIn ;;
     if negb isSignedIn
     then
       alert "Please log in to place an order." ;;;
       modify (set_location_href "login.html")
     else
       render_summary host 2 ;;;
       currentUser <- getCurrentUser ;;
       (if truthy currentUser
        then
          email <- lift (get_prop currentUser "email") ;;
          if truthy email
          then modify (fun w =>
                         set_form (mkForm (f_name (form w)) (ToString host email)
                                     (f_phone (form w)) (f_address (form w))
                                     (f_deliveryType (form w))) w)
          else ret tt
        else ret tt) ;;;
       modify (set_submitListener true) ;;;
       modify (set_closeListener true)).

(** A [submit] event on [#order-form] of this script's order page. *)
Definition submitOrderForm : M unit := dispatch_submit host saveOrder.

Definition getAllOrders : M JsVal :=
  try_catch
    (snapshot <- fs_query net "orders" "createdAt" "desc" ;;
     ret (VArr (map (fun doc : string * gmap string JsVal =>
                       VObj (obj_spread {["id" := VStr (fst doc)]} (snd doc)))
                    snapshot)))
    (fun error =>
       console_error "Error fetching orders from Firestore:" ;;;
       ret (VArr [])).

Definition getOrderById (orderId : JsVal) : M JsVal :=
  try_catch
    (doc <- fs_doc_get net "orders" orderId ;;
     match snd doc with
     | Some data => ret (VObj (obj_spread {["id" := VStr (fst doc)]} data))
     | None =>
         console_error "Order not found in Firestore" ;;;
         ret VNull
     end)
    (fun error =>
       console_error "Error fetching order from Firestore:" ;;;
       ret VNull).

Definition updateOrder (updatedOrder : JsVal) : M JsVal :=
  try_catch
    (id <- lift (get_prop updatedOrder "id") ;;
     let orderData := delete "id" (own_props updatedOrder) in
     fs_doc_update net "orders" id orderData ;;;
     console_log "Order updated successfully in Firestore" ;;;
     ret (VBool true))
    (fun error =>
       console_error "Error updating order in Firestore:" ;;;
       ret (VBool false)).

Definition updateOrderStatus (orderId newStatus : JsVal) : M JsVal :=
  try_catch
    (fs_doc_update net "orders" orderId {["status" := newStatus]} ;;;
     match loadAndDisplayOrders with
     | Some reload => detached reload
     | None => ret tt
     end ;;;
     alert ("Order #" +:+ ToString host orderId +:+ " status updated to " +:+ ToString host newStatus) ;;;
     ret VUndefined)
    (fun error =>
       console_error "Error updating order status in Firestore:" ;;;
       alert ("Error updating order status: " +:+ message error) ;;;
       ret VUndefined).

End Firestore.
End Firestore.

(** ** Notions used to state the properties *)

Module Props.

(** The error [loadProducts] catches, if the catalog fetch fails: the
    request is rejected, the response status is not a success, or the body
    is not JSON. *)
Definition catalog_failure (r : FetchReply) : option JsError :=
  match r with
  | FetchRejected e => Some e
  | FetchResponse false status _ => Some (mkError ("HTTP error! status: " +:+ pretty status))
  | FetchResponse true _ (Throw e) => Some e
  | FetchResponse true _ (Normal _) => None
  end.

(** The selection store holds the cart item [item] under ["cartItem"]. *)
Definition cart_holds (host : Host) (w : World) (item : gmap string JsVal) : Prop :=
  exists text,
    localStorage w !! "cartItem" = Some text
    /\ text <> ""
    /\ JSON_parse host text = Normal (VObj item).

(** The three required inputs of the order form are filled in. *)
Definition form_filled (w : World) : Prop :=
  f_name (form w) <> "" /\ f_email (form w) <> "" /\ f_phone (form w) <> "".

(** The time value of [new Date(order.orderDate)], when it is a date. *)
Definition order_time (host : Host) (order : JsVal) : option Z :=
  match get_prop order "orderDate" with
  | Normal d => Date_time host d
  | Throw _ => None
  end.

(** [a.orderDate >= b.orderDate], as dates. *)
Definition date_ge (host : Host) (a b : JsVal) : Prop :=
  exists ta tb, order_time host a = Some ta /\ order_time host b = Some tb /\ (tb <= ta)%Z.

(** [order.status === 'pending']. *)
Definition is_pending (order : JsVal) : bool :=
  match get_prop order "status" with
  | Normal status => strict_eq_str status "pending"
  | Throw _ => false
  end.

(** No status button of the card has its click listener. *)
Definition unwired (card : OrderCard) : Prop :=
  Forall (fun button => sb_listening button = false) (card_buttons card).

(** The request [getAllOrders] posts. *)
Definition getAllOrders_request : Request :=
  Fetch Sheets.GOOGLE_SHEETS_SCRIPT_URL
    (Some (VObj (list_to_map [("action", VStr "getAllOrders")]))).

(** A request that submits an order carries [status] as the order's
    status. *)
Definition submits_only (status : JsVal) (req : Request) : Prop :=
  forall url envelope order,
    req = Fetch url (Some (VObj envelope)) ->
    envelope !! "order" = Some (VObj order) ->
    order !! "status" = Some status.

End Props.
Export Props.

(** ** Concrete pages, hosts and backends on which the model is run *)

Module Fixtures.

Definition cart_text : string :=
  "{" +:+ dquote +:+ "id" +:+ dquote +:+ ":1," +:+ dquote +:+ "name" +:+ dquote +:+ ":"
  +:+ dquote +:+ "Vanilla" +:+ dquote +:+ "," +:+ dquote +:+ "price" +:+ dquote +:+ ":4.5,"
  +:+ dquote +:+ "quantity" +:+ dquote +:+ ":3," +:+ dquote +:+ "image" +:+ dquote +:+ ":"
  +:+ dquote +:+ "vanilla.jpg" +:+ dquote +:+ "}".

Definition cart_item : gmap string JsVal :=
  list_to_map [
    ("id", VNum 1%float); ("name", VStr "Vanilla"); ("price", VNum 4.5%float);
    ("quantity", VNum 3%float); ("image", VStr "vanilla.jpg")].

(** The text of [s] up to its first double quote. *)
Fixpoint upto_quote (s : string) : string :=
  match s with
  | EmptyString => EmptyString
  | String c rest =>
      if String.eqb (String c EmptyString) dquote then EmptyString
      else String c (upto_quote rest)
  end.

(** [s] without its first [n] characters. *)
Fixpoint skip (n : nat) (s : string) : string :=
  match n, s with
  | S k, String _ rest => skip k rest
  | _, _ => s
  end.

(** The attribute values that follow the occurrences of [opening] in
    [markup]. *)
Fixpoint values_after (opening markup : string) : list (option string) :=
  match markup with
  | EmptyString => []
  | String _ rest =>
      (if String.prefix opening markup
       then [Some (upto_quote (skip (String.length opening) markup))]
       else [])
      ++ values_after opening rest
  end.

(** A reading of markup that finds the elements written the way the two
    templates write them (the tag with its class attribute, then the
    attribute asked for), wherever in the markup they stand. *)
Definition template_attributes (c a markup : string) : list (option string) :=
  if String.eqb c "update-status-btn" && String.eqb a "data-order-id"
  then values_after ("<button class=" +:+ quoted "update-status-btn" +:+ " data-order-id="
                     +:+ dquote) markup
  else if String.eqb c "order-btn" && String.eqb a "data-id"
  then values_after ("<a href=" +:+ quoted "#" +:+ " class=" +:+ quoted "btn order-btn"
                     +:+ " data-id=" +:+ dquote) markup
  else [].

(** A host that parses the one JSON text above, prints strings as they
    are, converts the sample order id both ways, knows the dates of the
    sample orders and prints their amounts, shows a date as its ISO text,
    and reads markup with [template_attributes]. *)
Definition test_host : Host :=
  mkHost
    (fun text =>
       if String.eqb text cart_text then Normal (VObj cart_item)
       else Throw (mkError "Unexpected token in JSON"))
    (fun v => match v with
              | VStr s => s
              | VNull => "null"
              | VUndefined => "undefined"
              | VBool true => "true"
              | VBool false => "false"
              | VNum x => if PrimFloat.eqb x 1709287200000 then "1709287200000"
                          else if PrimFloat.eqb x 1 then "1"
                          else if PrimFloat.eqb x 3 then "3"
                          else "NaN"
              | _ => "[object Object]"
              end)
    (fun _ => PrimFloat.nan)
    (fun s => if String.eqb s "1709287200000" then 1709287200000%float else PrimFloat.nan)
    (fun v => match v with
              | VStr "2024-03-01T10:00:00.000Z" => Some 1709287200000%Z
              | VStr "2024-03-02T10:00:00.000Z" => Some 1709373600000%Z
              | VStr "2024-03-03T10:00:00.000Z" => Some 1709460000000%Z
              | _ => None
              end)
    (fun x => if PrimFloat.eqb x 13.5 then "13.50"
              else if PrimFloat.eqb x 4.5 then "4.50"
              else if PrimFloat.eqb x 5 then "5.00"
              else "NaN")
    (fun v => match v with
              | VStr s => s
              | _ => "Invalid Date"
              end)
    template_attributes.

Definition blank_form : FormValues := mkForm "" "" "" "" "pickup".
Definition filled_form : FormValues :=
  mkForm "Ada" "ada@example.org" "555-0100" "" "pickup".

(** A page just loaded over https, signed out, with an empty store. *)
Definition fresh_page : World :=
  mkWorld (VArr []) "https:" "order.html" ∅ VNull
    1709287200000%float "2024-03-01T10:00:00.000Z" blank_form (Some "")
    false SummaryUnset false false (mkOrdersList "" []) [] [] [].

(** The order page with only the name typed in. *)
Definition name_only_page : World :=
  set_form (mkForm "Ada" "" "" "" "pickup") fresh_page.

(** The order page with the form filled in and an item in the cart. *)
Definition order_page : World :=
  set_localStorage {["cartItem" := cart_text]} (set_form filled_form fresh_page).

(** A network that is down the way browsers report it. *)
Definition offline : Backend :=
  mkBackend
    (fun _ _ _ => FetchRejected (mkError "Failed to fetch"))
    (fun _ _ => Throw (mkError "unavailable"))
    (fun _ => Throw (mkError "unavailable"))
    (fun _ _ => Throw (mkError "unavailable"))
    (fun _ _ _ => Throw (mkError "unavailable")).

(** A server that answers every catalog request with status 500. *)
Definition server_error : Backend :=
  mkBackend
    (fun _ _ _ => FetchResponse false 500 (Throw (mkError "Unexpected end of JSON input")))
    (fun _ _ => Throw (mkError "unavailable"))
    (fun _ => Throw (mkError "unavailable"))
    (fun _ _ => Throw (mkError "unavailable"))
    (fun _ _ _ => Throw (mkError "unavailable")).

Definition stored_order (iso status : string) : gmap string JsVal :=
  list_to_map [
    ("id", VNum 1709287200000%float); ("customerName", VStr "Ada");
    ("items", VArr [VObj (list_to_map [("name", VStr "Vanilla"); ("price", VNum 4.5%float);
                                        ("quantity", VNum 3%float)])]);
    ("total", VNum 13.5%float); ("orderDate", VStr iso); ("status", VStr status)].

Definition sample_orders : list JsVal :=
  [VObj (stored_order "2024-03-01T10:00:00.000Z" "completed");
   VObj (stored_order "2024-03-03T10:00:00.000Z" "pending");
   VObj (stored_order "2024-03-02T10:00:00.000Z" "pending")].

(** Backends that accept every write and serve the sample orders. *)
Definition healthy : Backend :=
  mkBackend
    (fun _ _ body =>
       FetchResponse true 200
         (Normal (VObj (list_to_map [
            ("success", VBool true);
            ("orders", VArr sample_orders);
            ("order", VObj (stored_order "2024-03-03T10:00:00.000Z" "pending"))]))))
    (fun _ _ => Normal "Zx81QkT0")
    (fun _ => Normal [("Zx81QkT0", stored_order "2024-03-03T10:00:00.000Z" "pending")])
    (fun _ _ => Normal ("Zx81QkT0", Some (stored_order "2024-03-03T10:00:00.000Z" "pending")))
    (fun _ _ _ => Normal tt).

End Fixtures.
Export Fixtures.

(** ** The testimonial slider (both scripts) *)

Module Slider.

(** The closure variable [currentIndex] and [slider.style.transform], which
    is not set before the first click. *)
Record SliderState : Type := mkSlider {
  currentIndex : Z;
  transform : option string;
}.

(** [initTestimonialSlider()]: no listener is registered unless the slider,
    at least one slide and both buttons are there. *)
Definition initTestimonialSlider (slider prevBtn nextBtn : bool) (slides : nat)
    : option SliderState :=
  if negb slider || Nat.eqb slides 0 || negb prevBtn || negb nextBtn
  then None
  else Some (mkSlider 0 None).

(** [showSlide(index)] with [slides.length = slides]. *)
Definition showSlide (slides : nat) (index : Z) : SliderState :=
  let i := if (Z.of_nat slides <=? index)%Z then 0%Z
           else if (index <? 0)%Z then (Z.of_nat slides - 1)%Z
           else index in
  mkSlider i (Some ("translateX(-" +:+ pretty (i * 100)%Z +:+ "%)")).

Inductive SliderClick : Type := ClickNext | ClickPrev.

(** The click listeners of the two buttons. *)
Definition slider_onClick (slides : nat) (click : SliderClick) (s : SliderState)
    : SliderState :=
  match click with
  | ClickNext => showSlide slides (currentIndex s + 1)
  | ClickPrev => showSlide slides (currentIndex s - 1)
  end.

End Slider.

(** ** The navigation's login link ([src/script.js]) *)

Module AuthUI.

(** An anchor of the page: its text, its [href] attribute, and whether its
    [onclick] is the sign-out handler. *)
Record Anchor : Type := mkAnchor {
  a_text : string;
  a_href : option string;
  a_signs_out : bool;
}.

Definition is_login_link (a : Anchor) : bool :=
  match a_href a with
  | Some href => String.eqb href "login.html"
  | None => false
  end.

(** [updateAuthUI(isSignedIn)] on the anchors of the document, in document
    order: [querySelector] takes the first anchor whose [href] attribute is
    ["login.html"]. *)
Fixpoint updateAuthUI (isSignedIn : bool) (anchors : list Anchor) : list Anchor :=
  match anchors with
  | [] => []
  | a :: rest =>
      if is_login_link a
      then (if isSignedIn
            then mkAnchor "Logout" (Some "#") true
            else mkAnchor "Login" (Some "login.html") false) :: rest
      else a :: updateAuthUI isSignedIn rest
  end.

End AuthUI.

(** ** Sign-up and sign-in ([src/script.js]) *)

Module Auth.

(** What the identity provider settles each call to. *)
Record AuthProvider : Type := mkAuthProvider {
  createUser_reply : string -> string -> Completion JsVal;
  signIn_reply : string -> string -> Completion JsVal;
  popup_reply : Completion JsVal;
  signOut_reply : Completion unit;
}.

Definition set_auth_currentUser (v : JsVal) (w : World) : World :=
  mkWorld (allProducts w) (location_protocol w) (location_href w) (localStorage w)
    v (Date_now w) (Date_iso w) (form w) (productGrid w)
    (modalVisible w) (orderSummary w) (submitListener w) (closeListener w)
    (ordersList w) (alerts w) (console w) (requests w).

Section Auth.
Context (provider : AuthProvider).

(** A sign-in call of the provider: when it resolves, the user of the
    credential is the provider's current user from then on. *)
Definition credential_call (reply : Completion JsVal) : M JsVal :=
  fun w =>
    match reply with
    | Normal userCredential =>
        (Normal userCredential,
         match get_prop userCredential "user" with
         | Normal user => set_auth_currentUser user w
         | Throw _ => w
         end)
    | Throw e => (Throw e, w)
    end.

Definition success_result (user : JsVal) : JsVal :=
  VObj (list_to_map [("success", VBool true); ("user", user)]).

Definition failure_result (error : JsError) : JsVal :=
  VObj (list_to_map [("success", VBool false); ("error", VStr (message error))]).

Definition signUp (email password : string) : M JsVal :=
  try_catch
    (userCredential <- credential_call (createUser_reply provider email password) ;;
     user <- lift (get_prop userCredential "user") ;;
     console_log "User registered:" ;;;
     ret (success_result user))
    (fun error =>
       console_error "Sign up error:" ;;;
       ret (failure_result error)).

Definition signIn (email password : string) : M JsVal :=
  try_catch
    (userCredential <- credential_call (signIn_reply provider email password) ;;
     user <- lift (get_prop userCredential "user") ;;
     console_log "User signed in:" ;;;
     ret (success_result user))
    (fun error =>
       console_error "Sign in error:" ;;;
       ret (failure_result error)).

Definition signInWithGoogle : M JsVal :=
  try_catch
    (result <- credential_call (popup_reply provider) ;;
     credential <- lift (get_prop result "credential") ;;
     token <- lift (get_prop credential "accessToken") ;;
     user <- lift (get_prop result "user") ;;
     console_log "User signed in with Google:" ;;;
     ret (success_result user))
    (fun error =>
       console_error "Google sign in error:" ;;;
       ret (failure_result error)).

Definition signOut : M JsVal :=
  try_catch
    (_ <- (fun w => match signOut_reply provider with
                    | Normal _ => (Normal tt, set_auth_currentUser VNull w)
                    | Throw e => (Throw e, w)
                    end) ;;
     console_log "User signed out" ;;;
     ret (VObj (list_to_map [("success", VBool true)])))
    (fun error =>
       console_error "Sign out error:" ;;;
       ret (failure_result error)).

End Auth.
End Auth.

(** ** Pages with more of the document

    The catalog, detail and admin pages and the theme switch touch parts of
    the document the order flow does not: they run on a [Page], the [World]
    together with those parts.  What the scripts look up on every page
    ([.theme-toggle], [#product-grid]) may be absent from a page.  What a
    page's own function looks up ([initProductsPage] and the like run only
    under the [body] id of their page) belongs to that page, whose markup
    is not among the sources, and is taken to be there. *)

Module Pages.

(** An element of class [order-btn] of the product grid: its [data-id]
    attribute, if it has one, and whether the click listener has been
    added to it. *)
Record OrderButton : Type := mkOrderButton {
  data_id : option string;
  ob_listening : bool;
}.

(** A card of the product grid: the product it shows, the markup assigned
    to its [innerHTML], and the order buttons the parser made of that
    markup. *)
Record ProductCard : Type := mkProductCard {
  pc_product : JsVal;
  pc_html : string;
  pc_buttons : list OrderButton;
}.

Record Dom : Type := mkDom {
  light_mode : bool;                 (* "light-mode" on body *)
  theme_toggle : option string;      (* innerHTML of .theme-toggle, if present *)
  theme_listener : bool;
  grid_cards : list ProductCard;     (* children appended to #product-grid *)
  search_listener : bool;
  detail_fields : list (string * JsVal);  (* detail page: element id, value assigned *)
  quantity_value : string;           (* value of #quantity *)
  detail_product : option JsVal;     (* [product] of the detail page's listeners, once registered *)
  password_section : string;         (* style.display of #password-section *)
  protected_section : string;        (* style.display of #password-protected-section *)
  logout_btn : string;               (* style.display of #logout-btn *)
  admin_password : string;           (* value of #admin-password *)
  submit_password_listener : bool;   (* checkPassword on #submit-password *)
  keypress_listeners : nat;          (* anonymous listeners on #admin-password *)
  dashboard_listeners : bool;        (* exportOrders, handleFileSelect, logout *)
  load_button_listeners : nat;       (* anonymous listeners on #load-orders-btn *)
}.

Definition set_theme (light : bool) (toggle : option string) (d : Dom) : Dom :=
  mkDom light toggle (theme_listener d) (grid_cards d) (search_listener d)
    (detail_fields d) (quantity_value d) (detail_product d) (password_section d)
    (protected_section d) (logout_btn d) (admin_password d) (submit_password_listener d)
    (keypress_listeners d) (dashboard_listeners d) (load_button_listeners d).

Definition set_theme_listener (v : bool) (d : Dom) : Dom :=
  mkDom (light_mode d) (theme_toggle d) v (grid_cards d) (search_listener d)
    (detail_fields d) (quantity_value d) (detail_product d) (password_section d)
    (protected_section d) (logout_btn d) (admin_password d) (submit_password_listener d)
    (keypress_listeners d) (dashboard_listeners d) (load_button_listeners d).

Definition set_grid_cards (v : list ProductCard) (d : Dom) : Dom :=
  mkDom (light_mode d) (theme_toggle d) (theme_listener d) v (search_listener d)
    (detail_fields d) (quantity_value d) (detail_product d) (password_section d)
    (protected_section d) (logout_btn d) (admin_password d) (submit_password_listener d)
    (keypress_listeners d) (dashboard_listeners d) (load_button_listeners d).

Definition set_search_listener (v : bool) (d : Dom) : Dom :=
  mkDom (light_mode d) (theme_toggle d) (theme_listener d) (grid_cards d) v
    (detail_fields d) (quantity_value d) (detail_product d) (password_section d)
    (protected_section d) (logout_btn d) (admin_password d) (submit_password_listener d)
    (keypress_listeners d) (dashboard_listeners d) (load_button_listeners d).

Definition set_detail (fields : list (string * JsVal)) (product : option JsVal) (d : Dom)
    : Dom :=
  mkDom (light_mode d) (theme_toggle d) (theme_listener d) (grid_cards d) (search_listener d)
    fields (quantity_value d) product (password_section d)
    (protected_section d) (logout_btn d) (admin_password d) (submit_password_listener d)
    (keypress_listeners d) (dashboard_listeners d) (load_button_listeners d).

Definition set_sections (password protected logoutBtn : string) (d : Dom) : Dom :=
  mkDom (light_mode d) (theme_toggle d) (theme_listener d) (grid_cards d) (search_listener d)
    (detail_fields d) (quantity_value d) (detail_product d) password
    protected logoutBtn (admin_password d) (submit_password_listener d)
    (keypress_listeners d) (dashboard_listeners d) (load_button_listeners d).

Definition set_admin_password (v : string) (d : Dom) : Dom :=
  mkDom (light_mode d) (theme_toggle d) (theme_listener d) (grid_cards d) (search_listener d)
    (detail_fields d) (quantity_value d) (detail_product d) (password_section d)
    (protected_section d) (logout_btn d) v (submit_password_listener d)
    (keypress_listeners d) (dashboard_listeners d) (load_button_listeners d).

Definition set_password_listeners (submit : bool) (keypress : nat) (d : Dom) : Dom :=
  mkDom (light_mode d) (theme_toggle d) (theme_listener d) (grid_cards d) (search_listener d)
    (detail_fields d) (quantity_value d) (detail_product d) (password_section d)
    (protected_section d) (logout_btn d) (admin_password d) submit
    keypress (dashboard_listeners d) (load_button_listeners d).

Definition set_dashboard_listeners (named : bool) (loadButton : nat) (d : Dom) : Dom :=
  mkDom (light_mode d) (theme_toggle d) (theme_listener d) (grid_cards d) (search_listener d)
    (detail_fields d) (quantity_value d) (detail_product d) (password_section d)
    (protected_section d) (logout_btn d) (admin_password d) (submit_password_listener d)
    (keypress_listeners d) named loadButton.

Record Page : Type := mkPage {
  p_dom : Dom;
  p_world : World;
}.

(** Scripts over a [Page]. *)
Definition P (A : Type) : Type := Page -> Completion A * Page.

Definition pret {A} (a : A) : P A := fun p => (Normal a, p).

Definition pbind {A B} (m : P A) (k : A -> P B) : P B :=
  fun p =>
    match m p with
    | (Normal a, p') => k a p'
    | (Throw e, p') => (Throw e, p')
    end.

Definition pthrow {A} (e : JsError) : P A := fun p => (Throw e, p).

Definition plift {A} (c : Completion A) : P A := fun p => (c, p).

(** A script of the [World] run on the page. *)
Definition in_world {A} (m : M A) : P A :=
  fun p =>
    match m (p_world p) with
    | (r, w') => (r, mkPage (p_dom p) w')
    end.

(** A call whose promise is dropped, or a listener run by the dispatcher:
    what it throws stops nothing else. *)
Definition pdetached {A} (m : P A) : P unit :=
  fun p => (Normal tt, snd (m p)).

Definition dgets {A} (f : Dom -> A) : P A := fun p => (Normal (f (p_dom p)), p).
Definition dmodify (f : Dom -> Dom) : P unit :=
  fun p => (Normal tt, mkPage (f (p_dom p)) (p_world p)).

(** [n] listeners of the same text run one after the other. *)
Fixpoint run_listeners (n : nat) (listener : P unit) : P unit :=
  match n with
  | O => pret tt
  | S k => pbind (pdetached listener) (fun _ => run_listeners k listener)
  end.

End Pages.
Export Pages.

Notation "x <~ m ;; k" := (pbind m (fun x => k))
  (at level 100, m at next level, right associativity).
Notation "m ;~ k" := (pbind m (fun _ => k))
  (at level 100, right associativity).

(** ** The theme switch (both scripts) *)

Module Theme.

Definition moon_icon : string :=
  "<i class=" +:+ dquote +:+ "fas fa-moon" +:+ dquote +:+ "></i>".

Definition sun_icon : string :=
  "<i class=" +:+ dquote +:+ "fas fa-sun" +:+ dquote +:+ "></i>".

(** [body.classList] gets or loses "light-mode", then
    [themeToggle.innerHTML = icon], which throws when the page has no
    [.theme-toggle]. *)
Definition show_theme (light : bool) (icon : string) : P unit :=
  dmodify (fun d => set_theme light (theme_toggle d) d) ;~
  toggle <~ dgets theme_toggle ;;
  match toggle with
  | Some _ => dmodify (fun d => set_theme (light_mode d) (Some icon) d)
  | None => pthrow (TypeError "Cannot set properties of null (setting 'innerHTML')")
  end.

(** Section 2 of the [DOMContentLoaded] listener. *)
Definition initTheme : P unit :=
  saved <~ in_world (localStorage_getItem "theme") ;;
  (match saved with
   | Some "light" => show_theme true moon_icon
   | _ => show_theme false sun_icon
   end) ;~
  dmodify (set_theme_listener true).

(** The click listener of [.theme-toggle]. *)
Definition themeToggle_onClick : P unit :=
  light <~ dgets light_mode ;;
  dmodify (fun d => set_theme (negb light) (theme_toggle d) d) ;~
  if negb light
  then
    in_world (localStorage_setItem "theme" "light") ;~
    dmodify (fun d => set_theme (light_mode d) (Some moon_icon) d)
  else
    in_world (localStorage_setItem "theme" "dark") ;~
    dmodify (fun d => set_theme (light_mode d) (Some sun_icon) d).

End Theme.

(** ** The catalog and detail pages (both scripts) *)

Module Catalog.

(** Engine built-ins these pages call besides those of [Host]. *)
Record Engine : Type := mkEngine {
  String_toLowerCase : string -> string;       (* s.toLowerCase() *)
  JSON_stringify : JsVal -> string;            (* JSON.stringify(v) *)
}.

Section Catalog.
Context (host : Host) (engine : Engine).

(** The template assigned to [card.innerHTML]; its evaluation throws on a
    product without a numeric price. *)
Definition productCard_html (product : JsVal) : Completion string :=
  cbind (get_prop product "image") (fun image =>
  cbind (get_prop product "name") (fun name =>
  cbind (get_prop product "price") (fun price =>
  cbind (call_toFixed host "product.price" price) (fun priceText =>
  cbind (get_prop product "id") (fun id =>
  Normal (line 12 ("<img src=" +:+ quoted (ToString host image) +:+ " alt="
                   +:+ quoted (ToString host name) +:+ ">")
          +:+ line 12 ("<div class=" +:+ quoted "product-card-content" +:+ ">")
          +:+ line 16 ("<h3>" +:+ ToString host name +:+ "</h3>")
          +:+ line 16 ("<p>$" +:+ priceText +:+ "</p>")
          +:+ line 16 ("<a href=" +:+ quoted "#" +:+ " class=" +:+ quoted "btn order-btn"
                       +:+ " data-id=" +:+ quoted (ToString host id)
                       +:+ ">View Details</a>")
          +:+ line 12 "</div>"
          +:+ line 8 "")))))).

(** The card built for one product: its order buttons are those the
    engine finds in the markup. *)
Definition render_product (product : JsVal) : Completion ProductCard :=
  cbind (productCard_html product) (fun html =>
  Normal (mkProductCard product html
            (map (fun id => mkOrderButton id false)
               (class_attributes host "order-btn" "data-id" html)))).

Definition append_card (card : ProductCard) : P unit :=
  dmodify (fun d => set_grid_cards (grid_cards d ++ [card]) d).

Fixpoint render_cards (products : list JsVal) : P unit :=
  match products with
  | [] => pret tt
  | product :: rest =>
      card <~ plift (render_product product) ;;
      append_card card ;~
      render_cards rest
  end.

(** [gridElement.innerHTML = html]: replaces the grid's content, and
    throws when the page has no grid. *)
Definition set_grid_html (html : string) : P unit :=
  grid <~ in_world (gets productGrid) ;;
  match grid with
  | Some _ =>
      in_world (modify (set_productGrid (Some html))) ;~
      dmodify (set_grid_cards [])
  | None => pthrow (TypeError "Cannot set properties of null (setting 'innerHTML')")
  end.

(** [gridElement.querySelectorAll(".order-btn").forEach(btn =>
    btn.addEventListener("click", ...))], card by card. *)
Definition listen_card (card : ProductCard) : ProductCard :=
  mkProductCard (pc_product card) (pc_html card)
    (map (fun button => mkOrderButton (data_id button) true) (pc_buttons card)).

(** [renderProducts(products, gridElement)].  Its closing loop hands the
    new cards to [window.scrollObserver], which the [DOMContentLoaded]
    listener sets before any call of this function; the observer only
    drives the fade-in animation and is left out. *)
Definition renderProducts (products : JsVal) : P unit :=
  in_world (console_log "Rendering products:") ;~
  set_grid_html "" ;~
  empty <~ plift (Sheets.length_is_zero products) ;;
  if empty : bool
  then
    in_world (console_log "No products to render") ;~
    set_grid_html "<p>No flavors found!</p>"
  else
    (match products with
     | VArr l => render_cards l
     | _ => pthrow (TypeError "products.forEach is not a function")
     end) ;~
    dmodify (fun d => set_grid_cards (map listen_card (grid_cards d)) d) ;~
    in_world (console_log "Products rendered successfully").

(** The predicate of the search filter, with its short circuit. *)
Definition matches_search (searchTerm : string) (product : JsVal) : Completion bool :=
  cbind (get_prop product "name") (fun name =>
  match name with
  | VStr n =>
      if includes (String_toLowerCase engine n) searchTerm
      then Normal true
      else
        cbind (get_prop product "description") (fun description =>
        match description with
        | VStr d => Normal (includes (String_toLowerCase engine d) searchTerm)
        | VUndefined =>
            Throw (TypeError "Cannot read properties of undefined (reading 'toLowerCase')")
        | VNull =>
            Throw (TypeError "Cannot read properties of null (reading 'toLowerCase')")
        | _ => Throw (TypeError "product.description.toLowerCase is not a function")
        end)
  | VUndefined =>
      Throw (TypeError "Cannot read properties of undefined (reading 'toLowerCase')")
  | VNull => Throw (TypeError "Cannot read properties of null (reading 'toLowerCase')")
  | _ => Throw (TypeError "product.name.toLowerCase is not a function")
  end).

(** [l.filter(predicate)] for a predicate that may throw. *)
Fixpoint filter_by (predicate : JsVal -> Completion bool) (l : list JsVal)
    : Completion (list JsVal) :=
  match l with
  | [] => Normal []
  | x :: rest =>
      cbind (predicate x) (fun keep =>
      cbind (filter_by predicate rest) (fun kept =>
      Normal (if keep : bool then x :: kept else kept)))
  end.

(** The [keyup] listener of the search bar, for the bar's value. *)
Definition searchBar_onKeyup (value : string) : P unit :=
  let searchTerm := String_toLowerCase engine value in
  all <~ in_world (gets allProducts) ;;
  filteredProducts <~ plift (match all with
                             | VArr l => filter_by (matches_search searchTerm) l
                             | VUndefined =>
                                 Throw (TypeError "Cannot read properties of undefined (reading 'filter')")
                             | VNull =>
                                 Throw (TypeError "Cannot read properties of null (reading 'filter')")
                             | _ => Throw (TypeError "allProducts.filter is not a function")
                             end) ;;
  renderProducts (VArr filteredProducts).

(** [initProductsPage()]. *)
Definition initProductsPage : P unit :=
  all <~ in_world (gets allProducts) ;;
  renderProducts all ;~
  dmodify (set_search_listener true).

(** A click on an element of class [order-btn]: its listener, if it was
    given one.  [getAttribute] returns null for a missing attribute, which
    [setItem] stores as the text "null". *)
Definition orderBtn_onClick (button : OrderButton) : P unit :=
  if ob_listening button
  then
    in_world (localStorage_setItem "selectedProductId" (default "null" (data_id button))) ;~
    in_world (modify (set_location_href "product-detail.html"))
  else pret tt.

(** [v == s] for a string [s]. *)
Definition loose_eq_str (v : JsVal) (s : string) : bool :=
  match v with
  | VUndefined | VNull => false
  | VBool b => PrimFloat.eqb (if b then 1 else 0) (StringToNumber host (VStr s))
  | VNum x => PrimFloat.eqb x (StringToNumber host (VStr s))
  | VStr t => String.eqb t s
  | VArr _ | VObj _ | VServerTimestamp => String.eqb (ToString host v) s
  end.

(** [l.find(p => p.id == productId)]. *)
Fixpoint find_by_id (productId : string) (l : list JsVal) : Completion JsVal :=
  match l with
  | [] => Normal VUndefined
  | p :: rest =>
      cbind (get_prop p "id") (fun id =>
      if loose_eq_str id productId then Normal p else find_by_id productId rest)
  end.

(** An element of the detail page is assigned the value it is to show (a
    source for the image, a text content for the others). *)
Definition show_field (element : string) (v : JsVal) : P unit :=
  dmodify (fun d => set_detail (detail_fields d ++ [(element, v)]) (detail_product d) d).

(** [initProductDetailPage()]. *)
Definition initProductDetailPage : P unit :=
  productId <~ in_world (localStorage_getItem "selectedProductId") ;;
  match productId with
  | Some id =>
      if truthy_str id
      then
        all <~ in_world (gets allProducts) ;;
        product <~ plift (match all with
                          | VArr l => find_by_id id l
                          | VUndefined =>
                              Throw (TypeError "Cannot read properties of undefined (reading 'find')")
                          | VNull =>
                              Throw (TypeError "Cannot read properties of null (reading 'find')")
                          | _ => Throw (TypeError "allProducts.find is not a function")
                          end) ;;
        if truthy product
        then
          image <~ plift (get_prop product "image") ;;
          show_field "product-image" image ;~
          name <~ plift (get_prop product "name") ;;
          show_field "product-name" name ;~
          price <~ plift (get_prop product "price") ;;
          priceText <~ plift (call_toFixed host "product.price" price) ;;
          show_field "product-price" (VStr ("$" +:+ priceText)) ;~
          description <~ plift (get_prop product "description") ;;
          show_field "product-description" description ;~
          ingredients <~ plift (get_prop product "ingredients") ;;
          show_field "product-ingredients" (VStr ("Ingredients: " +:+ ToString host ingredients)) ;~
          dmodify (fun d => set_detail (detail_fields d) (Some product) d)
        else
          in_world (alert "Product not found.") ;~
          in_world (modify (set_location_href "products.html"))
      else in_world (modify (set_location_href "products.html"))
  | None => in_world (modify (set_location_href "products.html"))
  end.

(** The [orderItem] literal of the "Proceed to Order" listener. *)
Definition orderItem_literal (product : JsVal) (selectedQuantity : float) : Completion JsVal :=
  cbind (get_prop product "id") (fun id =>
  cbind (get_prop product "name") (fun name =>
  cbind (get_prop product "price") (fun price =>
  cbind (get_prop product "image") (fun image =>
  Normal (VObj (list_to_map [
    ("id", id); ("name", name); ("price", price);
    ("quantity", VNum selectedQuantity); ("image", image)])))))).

(** The click listener of [#proceed-to-order]. *)
Definition proceedToOrder_onClick : P unit :=
  registered <~ dgets detail_product ;;
  match registered with
  | Some product =>
      value <~ dgets quantity_value ;;
      orderItem <~ plift (orderItem_literal product (parseInt host value)) ;;
      in_world (localStorage_setItem "cartItem" (JSON_stringify engine orderItem)) ;~
      in_world (modify (set_location_href "order.html"))
  | None => pret tt
  end.

End Catalog.
End Catalog.

(** ** The admin gate ([src/unnamed/part_000]) *)

Module Admin.
Section Admin.
Context (host : Host) (net : Backend).

Definition correctPassword : string := "scoopadmin123".

(** [showPasswordPrompt()]: [checkPassword] is registered by name, so once;
    the keypress listener is a new function every time. *)
Definition showPasswordPrompt : P unit :=
  dmodify (fun d => set_sections (password_section d) "none" (logout_btn d) d) ;~
  dmodify (fun d => set_sections "block" (protected_section d) (logout_btn d) d) ;~
  dmodify (fun d => set_password_listeners true (S (keypress_listeners d)) d).

(** [showOrdersDashboard()]: the listeners are registered only after the
    orders have loaded. *)
Definition showOrdersDashboard : P unit :=
  dmodify (fun d => set_sections "none" (protected_section d) (logout_btn d) d) ;~
  dmodify (fun d => set_sections (password_section d) "block" (logout_btn d) d) ;~
  dmodify (fun d => set_sections (password_section d) (protected_section d) "inline-block" d) ;~
  in_world (Sheets.loadAndDisplayOrders host net) ;~
  dmodify (fun d => set_dashboard_listeners true (S (load_button_listeners d)) d).

Definition checkPassword : P unit :=
  passwordInput <~ dgets admin_password ;;
  if String.eqb passwordInput correctPassword
  then
    in_world (localStorage_setItem "adminAuthenticated" "true") ;~
    pdetached showOrdersDashboard
  else
    in_world (alert "Incorrect password. Please try again.") ;~
    dmodify (set_admin_password "").

Definition initAdminOrdersPage : P unit :=
  flag <~ in_world (localStorage_getItem "adminAuthenticated") ;;
  match flag with
  | Some "true" => pdetached showOrdersDashboard
  | _ => showPasswordPrompt
  end.

Definition logout : P unit :=
  in_world (localStorage_removeItem "adminAuthenticated") ;~
  dmodify (fun d => set_sections (password_section d) "none" (logout_btn d) d) ;~
  dmodify (fun d => set_sections (password_section d) (protected_section d) "none" d) ;~
  showPasswordPrompt.

(** A click on [#submit-password]. *)
Definition submitPassword_click : P unit :=
  listening <~ dgets submit_password_listener ;;
  if listening then pdetached checkPassword else pret tt.

(** A keypress in [#admin-password]: every listener registered so far
    runs. *)
Definition adminPassword_keypress (key : string) : P unit :=
  n <~ dgets keypress_listeners ;;
  run_listeners n (if String.eqb key "Enter" then checkPassword else pret tt).

(** A click on [#logout-btn]. *)
Definition logoutBtn_click : P unit :=
  listening <~ dgets dashboard_listeners ;;
  if listening then pdetached logout else pret tt.

End Admin.
End Admin.

(** ** More notions used to state properties *)

Module Notions.

(** The JSON result of a webhook call that the webhook acknowledged: the
    response body is JSON whose [success] is truthy. *)
Definition acknowledged (r : FetchReply) : option JsVal :=
  match r with
  | FetchResponse _ _ (Normal result) =>
      match get_prop result "success" with
      | Normal success => if truthy success then Some result else None
      | Throw _ => None
      end
  | _ => None
  end.

(** The envelope the webhook script posts for [action]. *)
Definition sheets_request (envelope : list (string * JsVal)) : Request :=
  Fetch Sheets.GOOGLE_SHEETS_SCRIPT_URL (Some (VObj (list_to_map envelope))).

(** A fresh document: nothing listens, nothing is shown. *)
Definition blank_dom : Dom :=
  mkDom false (Some "") false [] false [] "1" None "" "" "" "" false 0 false 0.

Definition count_login_links (anchors : list AuthUI.Anchor) : nat :=
  length (List.filter AuthUI.is_login_link anchors).

End Notions.
Export Notions.

(** ** More sample pages and backends *)

Module Samples.

(** A database whose documents carry no [id] of their own. *)
Definition plain_store : Backend :=
  mkBackend (fetch_reply healthy) (fs_add_reply healthy)
    (fun _ => Normal [("Zx81QkT0", {["status" := VStr "pending"]})])
    (fun _ _ => Normal ("Zx81QkT0", Some {["status" := VStr "pending"]}))
    (fs_update_reply healthy).

(** The order page of a signed-in customer. *)
Definition signed_in_page : World :=
  Auth.set_auth_currentUser (VObj {["email" := VStr "ada@example.org"]})
    (set_localStorage {["cartItem" := cart_text]} fresh_page).

(** The order page with a cart entry that is not JSON. *)
Definition corrupt_cart_page : World :=
  set_localStorage {["cartItem" := "{oops"]} fresh_page.

(** An order without a [total]. *)
Definition untotalled_order : gmap string JsVal :=
  list_to_map [("orderDate", VStr "2024-03-01T10:00:00.000Z"); ("status", VStr "pending")].

(** A webhook whose second order has no [total]. *)
Definition incomplete_orders : Backend :=
  mkBackend
    (fun _ _ _ =>
       FetchResponse true 200
         (Normal (VObj (list_to_map [
            ("success", VBool true);
            ("orders",
             VArr [VObj (stored_order "2024-03-03T10:00:00.000Z" "pending");
                   VObj untotalled_order])]))))
    (fs_add_reply healthy) (fs_query_reply healthy) (fs_get_reply healthy)
    (fs_update_reply healthy).

(** A customer name that is the markup of a status button, as it can be
    typed into the name input of the order form. *)
Definition forged_name : string :=
  "<button class=" +:+ quoted "update-status-btn" +:+ " data-order-id="
  +:+ quoted "1709287200000" +:+ ">Ada</button>".

(** A completed order placed under that name. *)
Definition forged_order : gmap string JsVal :=
  <["customerName" := VStr forged_name]> (stored_order "2024-03-01T10:00:00.000Z" "completed").

(** A webhook that holds this one order and acknowledges every call. *)
Definition tampered : Backend :=
  mkBackend
    (fun _ _ _ =>
       FetchResponse true 200
         (Normal (VObj (list_to_map [
            ("success", VBool true);
            ("orders", VArr [VObj forged_order]);
            ("order", VObj forged_order)]))))
    (fs_add_reply healthy) (fs_query_reply healthy) (fs_get_reply healthy)
    (fs_update_reply healthy).

(** The dashboard once it has loaded the orders of that webhook. *)
Definition tampered_dashboard : World :=
  snd (Sheets.loadAndDisplayOrders test_host tampered fresh_page).

(** A host and an engine for the catalog pages: they convert the ids and
    quantities of the sample catalog and serialise the sample cart item. *)
Definition shop_host : Host :=
  mkHost
    (JSON_parse test_host)
    (fun v => match v with
              | VNum x => if PrimFloat.eqb x 1 then "1" else if PrimFloat.eqb x 2 then "2" else "NaN"
              | _ => ToString test_host v
              end)
    (fun v => match v with
              | VStr "1" => 1%float
              | VStr "2" => 2%float
              | _ => PrimFloat.nan
              end)
    (fun s => if String.eqb s "3" then 3%float else PrimFloat.nan)
    (Date_time test_host)
    (toFixed test_host)
    (Date_toLocaleString test_host)
    template_attributes.

Definition sample_engine : Catalog.Engine :=
  Catalog.mkEngine (fun s => s) (fun _ => cart_text).

Definition vanilla : gmap string JsVal :=
  list_to_map [
    ("id", VNum 1%float); ("name", VStr "Vanilla"); ("description", VStr "classic");
    ("price", VNum 4.5%float); ("image", VStr "vanilla.jpg");
    ("ingredients", VStr "milk, cream, vanilla")].

Definition pistachio : gmap string JsVal :=
  list_to_map [
    ("id", VNum 2%float); ("name", VStr "Pistachio"); ("description", VStr "nutty");
    ("price", VNum 5%float); ("image", VStr "pistachio.jpg");
    ("ingredients", VStr "milk, cream, pistachio")].

(** The products page once the catalog is loaded. *)
Definition catalog_page : Page :=
  mkPage blank_dom (set_allProducts (VArr [VObj pistachio; VObj vanilla]) fresh_page).

(** The detail page of the vanilla flavour with quantity 3. *)
Definition vanilla_detail_page : Page :=
  mkPage (set_detail [] (Some (VObj vanilla))
            (mkDom false (Some "") false [] false [] "3" None "" "" "" "" false 0 false 0))
    fresh_page.

(** A navigation with one login link. *)
Definition sample_nav : list AuthUI.Anchor :=
  [AuthUI.mkAnchor "Home" (Some "index.html") false;
   AuthUI.mkAnchor "Login" (Some "login.html") false;
   AuthUI.mkAnchor "Order" (Some "order.html") false].

(** A provider whose popup signs the user in but hands back no
    credential. *)
Definition popup_without_credential : Auth.AuthProvider :=
  Auth.mkAuthProvider
    (fun _ _ => Throw (mkError "auth/operation-not-allowed"))
    (fun _ _ => Throw (mkError "auth/wrong-password"))
    (Normal (VObj (list_to_map [("user", VObj {["email" := VStr "ada@example.org"]});
                                ("credential", VNull)])))
    (Normal tt).

(** An identity provider that accepts every call. *)
Definition obliging_provider : Auth.AuthProvider :=
  Auth.mkAuthProvider
    (fun email _ => Normal (VObj {["user" := VObj {["email" := VStr email]}]}))
    (fun email _ => Normal (VObj {["user" := VObj {["email" := VStr email]}]}))
    (Normal (VObj (list_to_map [("user", VObj {["email" := VStr "ada@example.org"]});
                                ("credential", VObj {["accessToken" := VStr "ya29"]})])))
    (Normal tt).

(** The order page of the signed-in customer once [initOrderPage] has run
    and the form is filled in. *)
Definition opened_signed_in : World :=
  set_form filled_form (snd (Firestore.initOrderPage test_host signed_in_page)).

(** The same page after the customer has signed out through the
    navigation's Logout link, which stays on the page. *)
Definition then_signed_out : World :=
  snd (Auth.signOut obliging_provider opened_signed_in).

(** The admin page as the browser hands it to the script, with a password
    typed in. *)
Definition admin_page (password : string) : Page :=
  mkPage (set_admin_password password blank_dom) fresh_page.

End Samples.
Export Samples.

(** Unfolding of the page monad. *)
Ltac unfold_page :=
  unfold in_world, pbind, pret, pthrow, plift, pdetached, dgets, dmodify in *.

(** ** Proof automation *)

(** Unfolding of the monad and of the field updates. *)
Ltac unfold_monad :=
  unfold alert, console_log, console_warn, console_error,
    localStorage_getItem, localStorage_setItem, localStorage_removeItem in *;
  unfold try_catch, bind, ret, throw, lift, detached, gets, modify in *.

Ltac unfold_setters :=
  unfold set_allProducts, set_location_href, set_localStorage, set_form,
    set_productGrid, set_modalVisible, set_orderSummary, set_submitListener,
    set_closeListener, set_ordersList, set_alerts, set_console, set_requests in *.

(** * Properties *)

(** ** Running scripts: basic facts *)

Lemma truthy_str_true s : s <> "" -> truthy_str s = true.
Proof.
  intros Hs. unfold truthy_str. destruct (String.eqb_spec s ""); [contradiction | reflexivity].
Qed.

Lemma truthy_str_false s : truthy_str s = false <-> s = "".
Proof.
  unfold truthy_str. destruct (String.eqb_spec s ""); simpl; split; congruence.
Qed.

(** ** Catalog loading *)

(** C9 (as the code has it).  Whenever the catalog fetch fails,
    [loadProducts] resolves and leaves [allProducts] empty.  The product
    grid gets the "could not load flavors" message when the page is not on
    the [file:] protocol, the error message does not contain "Failed to
    fetch" and the grid element exists; otherwise the grid is left as it
    was. *)
Theorem loadProducts_on_failure (net : Backend) (w : World) (e : JsError) :
  catalog_failure (fetch_reply net (length (requests w)) "products.json" None) = Some e ->
  exists w',
    loadProducts net w = (Normal tt, w')
    /\ allProducts w' = VArr []
    /\ productGrid w' =
         if String.eqb (location_protocol w) "file:" || includes (message e) "Failed to fetch"
         then productGrid w
         else match productGrid w with
              | Some _ =>
                  Some ("<p style=" +:+ quoted "color: var(--primary-color);"
                        +:+ ">Could not load flavors. Please run this page through a web server.</p>")
              | None => None
              end.
Proof.
  intros Hfail.
  unfold loadProducts, fetch. unfold_monad. unfold_setters.
  destruct (fetch_reply net (length (requests w)) "products.json" None)
    as [e0 | [] status [v | e0]]; simpl in Hfail; inversion Hfail; subst; clear Hfail;
    cbn -[includes could_not_load_flavors String.eqb pretty];
    (destruct (String.eqb (location_protocol w) "file:" || includes _ "Failed to fetch") eqn:Hg;
     cbn -[includes could_not_load_flavors String.eqb pretty];
     [ eexists; repeat split; reflexivity
     | eexists; repeat split; destruct (productGrid w); reflexivity ]).
Qed.

Lemma loadProducts_on_failure_witness :
  catalog_failure (fetch_reply server_error (length (requests fresh_page)) "products.json" None)
    = Some (mkError "HTTP error! status: 500")
  /\ exists w',
       loadProducts server_error fresh_page = (Normal tt, w')
       /\ allProducts w' = VArr []
       /\ productGrid w'
          = Some ("<p style=" +:+ quoted "color: var(--primary-color);"
                  +:+ ">Could not load flavors. Please run this page through a web server.</p>").
Proof.
  split; [reflexivity |].
  exact (loadProducts_on_failure server_error fresh_page (mkError "HTTP error! status: 500") eq_refl).
Defined.

(** C9 (as the spec has it) fails: over https, with the grid present, a
    fetch rejected with the browser's "Failed to fetch" leaves the grid
    without the message. *)
Lemma loadProducts_failed_to_fetch_keeps_grid :
  catalog_failure (fetch_reply offline (length (requests fresh_page)) "products.json" None)
    = Some (mkError "Failed to fetch")
  /\ location_protocol fresh_page <> "file:"
  /\ productGrid fresh_page = Some ""
  /\ fst (loadProducts offline fresh_page) = Normal tt
  /\ productGrid (snd (loadProducts offline fresh_page)) = Some ""
  /\ productGrid (snd (loadProducts offline fresh_page))
     <> Some ("<p style=" +:+ quoted "color: var(--primary-color);"
              +:+ ">Could not load flavors. Please run this page through a web server.</p>").
Proof.
  repeat split; try reflexivity; vm_compute; discriminate.
Qed.

(** ** The adapters' [saveOrder] *)

(** The webhook [saveOrder] posts one envelope, logs, and returns a
    boolean; nothing else of the page changes. *)
Lemma Sheets_saveOrder_runs (net : Backend) (order : JsVal) (w : World) :
  exists success logs,
    Sheets.saveOrder net order w
    = (Normal (VBool success),
       set_console logs
         (set_requests
            (requests w ++ [Fetch Sheets.GOOGLE_SHEETS_SCRIPT_URL
                              (Some (VObj (list_to_map [("action", VStr "saveOrder");
                                                        ("order", order)])))]) w)).
Proof.
  unfold Sheets.saveOrder, Sheets.post, fetch. unfold_monad.
  destruct (fetch_reply net _ _ _) as [e | ok status [v | e]]; simpl.
  - eexists false, _. unfold_setters. simpl. reflexivity.
  - destruct (get_prop v "success") as [s | e] eqn:Hs; simpl.
    + destruct (truthy s); simpl; [eexists true, _ | eexists false, _];
        unfold_setters; simpl; reflexivity.
    + eexists false, _. unfold_setters. simpl. reflexivity.
  - eexists false, _. unfold_setters. simpl. reflexivity.
Qed.

(** The document-database [saveOrder] adds one document, the order with a
    server timestamp, logs, and returns a boolean. *)
Lemma Firestore_saveOrder_runs (net : Backend) (order : JsVal) (w : World) :
  exists success logs,
    Firestore.saveOrder net order w
    = (Normal (VBool success),
       set_console logs
         (set_requests
            (requests w ++ [FsAdd "orders"
                              (obj_spread (own_props order) {["createdAt" := VServerTimestamp]})]) w)).
Proof.
  unfold Firestore.saveOrder, fs_add. unfold_monad.
  destruct (fs_add_reply net _ _) as [docRef | e]; simpl;
    [eexists true, _ | eexists false, _]; unfold_setters; simpl; reflexivity.
Qed.

(** When the adapters report success: the document was added; the webhook
    answered with JSON whose [success] is truthy. *)
Lemma Firestore_saveOrder_true_iff (net : Backend) (order : JsVal) (w : World) :
  fst (Firestore.saveOrder net order w) = Normal (VBool true)
  <-> exists docId,
        fs_add_reply net (length (requests w))
          (obj_spread (own_props order) {["createdAt" := VServerTimestamp]})
        = Normal docId.
Proof.
  unfold Firestore.saveOrder, fs_add. unfold_monad.
  destruct (fs_add_reply net _ _) as [docId | e]; simpl; split.
  - eauto.
  - reflexivity.
  - discriminate.
  - intros [docId H]. discriminate.
Qed.

Lemma Sheets_saveOrder_true_iff (net : Backend) (order : JsVal) (w : World) :
  fst (Sheets.saveOrder net order w) = Normal (VBool true)
  <-> exists ok status result success,
        fetch_reply net (length (requests w)) Sheets.GOOGLE_SHEETS_SCRIPT_URL
          (Some (VObj (list_to_map [("action", VStr "saveOrder"); ("order", order)])))
        = FetchResponse ok status (Normal result)
        /\ get_prop result "success" = Normal success
        /\ truthy success = true.
Proof.
  unfold Sheets.saveOrder, Sheets.post, fetch. unfold_monad.
  destruct (fetch_reply net _ _ _) as [e | ok status [v | e]]; simpl.
  - split; [discriminate |]. intros (? & ? & ? & ? & H & _). discriminate.
  - destruct (get_prop v "success") as [s | e] eqn:Hs; simpl.
    + destruct (truthy s) eqn:Ht; simpl; split.
      * intros _. exists ok, status, v, s. auto.
      * reflexivity.
      * discriminate.
      * intros (? & ? & ? & ? & H & Hs' & Ht'). inversion H; subst.
        rewrite Hs in Hs'. inversion Hs'; subst. congruence.
    + split; [discriminate |].
      intros (? & ? & ? & ? & H & Hs' & _). inversion H; subst. congruence.
  - split; [discriminate |]. intros (? & ? & ? & ? & H & _). discriminate.
Qed.

(** ** The order form *)

Lemma order_literal_object (host : Host) name email phone address deliveryType now iso
    (item : gmap string JsVal) :
  exists order,
    order_literal host name email phone address deliveryType now iso (VObj item)
    = Normal (VObj order).
Proof. unfold order_literal. simpl. eexists. reflexivity. Qed.

(** What the submit listener does once the form is filled in and the cart
    holds an item: it builds the order, awaits [saveOrder], and then either
    shows the confirmation and empties the cart, or alerts. *)
Lemma orderForm_onSubmit_saves (host : Host) (saveOrder : JsVal -> M JsVal)
    (w w1 : World) (item : gmap string JsVal) (order success : JsVal) :
  form_filled w ->
  cart_holds host w item ->
  order_literal host (f_name (form w)) (f_email (form w)) (f_phone (form w))
    (f_address (form w)) (f_deliveryType (form w)) (Date_now w) (Date_iso w) (VObj item)
    = Normal order ->
  saveOrder order w = (Normal success, w1) ->
  orderForm_onSubmit host saveOrder w
  = (Normal tt,
     if truthy success
     then set_localStorage (delete "cartItem" (localStorage w1)) (set_modalVisible true w1)
     else set_alerts (alerts w1 ++ [save_error_message]) w1).
Proof.
  intros (Hn & He & Hp) (text & Hget & Htext & Hparse) Horder Hsave.
  unfold orderForm_onSubmit. unfold_monad.
  cbv beta iota zeta.
  rewrite (truthy_str_true _ Hn), (truthy_str_true _ He), (truthy_str_true _ Hp).
  cbn [andb]. rewrite Hget, (truthy_str_true _ Htext), Hparse. cbv beta iota zeta.
  rewrite Horder. cbv beta iota zeta. rewrite Hsave.
  destruct (truthy success); reflexivity.
Qed.

(** C2.  When one or more of name, email and phone is empty, the submit
    listener makes no backend call (whatever [saveOrder] is, the page ends
    up the same, with no request added) and shows a single alert: the text
    "Please fill in the following required fields: ", the missing fields
    separated by ", ", and a full stop.  The missing fields are those of
    "Name", "Email", "Phone", in this order, whose input is empty, each
    once. *)
Theorem missing_fields_reported (host : Host) (saveOrder : JsVal -> M JsVal) (w : World) :
  f_name (form w) = "" \/ f_email (form w) = "" \/ f_phone (form w) = "" ->
  let missing := missing_fields (f_name (form w)) (f_email (form w)) (f_phone (form w)) in
  orderForm_onSubmit host saveOrder w
  = (Normal tt,
     set_alerts (alerts w ++ ["Please fill in the following required fields: "
                              +:+ String.concat ", " missing +:+ "."]) w)
  /\ requests (snd (orderForm_onSubmit host saveOrder w)) = requests w
  /\ missing `sublist_of` ["Name"; "Email"; "Phone"]
  /\ (In "Name" missing <-> f_name (form w) = "")
  /\ (In "Email" missing <-> f_email (form w) = "")
  /\ (In "Phone" missing <-> f_phone (form w) = "")
  /\ (forall field, In field missing -> field = "Name" \/ field = "Email" \/ field = "Phone")
  /\ List.NoDup missing.
Proof.
  intros Hempty missing.
  assert (Hrun : orderForm_onSubmit host saveOrder w
                 = (Normal tt,
                    set_alerts (alerts w ++ ["Please fill in the following required fields: "
                                             +:+ String.concat ", " missing +:+ "."]) w)).
  { unfold orderForm_onSubmit. unfold_monad.
    destruct (truthy_str (f_name (form w)) && truthy_str (f_email (form w))
              && truthy_str (f_phone (form w))) eqn:Hall; [| reflexivity].
    apply andb_prop in Hall as [Hall Hp]. apply andb_prop in Hall as [Hn He].
    exfalso. destruct Hempty as [H | [H | H]]; apply truthy_str_false in H; congruence. }
  split; [exact Hrun |]. split; [rewrite Hrun; reflexivity |].
  clear Hrun Hempty. subst missing. unfold missing_fields.
  rewrite <- !truthy_str_false.
  destruct (truthy_str (f_name (form w))), (truthy_str (f_email (form w))),
    (truthy_str (f_phone (form w))); simpl;
    refine (conj _ (conj _ (conj _ (conj _ (conj _ _)))));
    first [ solve [repeat first [apply sublist_nil | apply sublist_cons | apply sublist_skip]]
          | solve [intuition congruence]
          | solve [repeat constructor; simpl; intuition congruence] ].
Qed.

Lemma missing_fields_reported_witness :
  (f_name (form name_only_page) = "" \/ f_email (form name_only_page) = ""
   \/ f_phone (form name_only_page) = "")
  /\ orderForm_onSubmit test_host (Sheets.saveOrder offline) name_only_page
     = (Normal tt,
        set_alerts ["Please fill in the following required fields: Email, Phone."]
          name_only_page).
Proof.
  split; [right; left; reflexivity |].
  exact (proj1 (missing_fields_reported test_host (Sheets.saveOrder offline) name_only_page
                  (or_intror (or_introl eq_refl)))).
Defined.

Lemma no_items_message_distinct (missingFields : list string) :
  no_items_message <> missing_fields_message missingFields.
Proof. unfold no_items_message, missing_fields_message. simpl. discriminate. Qed.

(** C8.  When name, email and phone are filled in but the selection store
    has no cart item, the submit listener shows one alert, "No items in
    cart...", which differs from every missing-fields message, and makes
    no backend call: whatever [saveOrder] is, no request is added. *)
Theorem empty_cart_reported (host : Host) (saveOrder : JsVal -> M JsVal) (w : World) :
  form_filled w ->
  localStorage w !! "cartItem" = None ->
  orderForm_onSubmit host saveOrder w
  = (Normal tt,
     set_alerts (alerts w ++ ["No items in cart. Please select an item first."]) w)
  /\ requests (snd (orderForm_onSubmit host saveOrder w)) = requests w
  /\ forall missingFields,
       "No items in cart. Please select an item first."
       <> "Please fill in the following required fields: "
          +:+ String.concat ", " missingFields +:+ ".".
Proof.
  intros (Hn & He & Hp) Hcart.
  assert (Hrun : orderForm_onSubmit host saveOrder w
                 = (Normal tt, set_alerts (alerts w ++ [no_items_message]) w)).
  { unfold orderForm_onSubmit. unfold_monad. cbv beta iota zeta.
    rewrite (truthy_str_true _ Hn), (truthy_str_true _ He), (truthy_str_true _ Hp).
    cbn [andb]. rewrite Hcart. reflexivity. }
  split; [exact Hrun |]. split; [rewrite Hrun; reflexivity |].
  exact no_items_message_distinct.
Qed.

Lemma empty_cart_reported_witness :
  form_filled (set_form filled_form fresh_page)
  /\ localStorage (set_form filled_form fresh_page) !! "cartItem" = None
  /\ orderForm_onSubmit test_host (Firestore.saveOrder healthy) (set_form filled_form fresh_page)
     = (Normal tt,
        set_alerts ["No items in cart. Please select an item first."]
          (set_form filled_form fresh_page)).
Proof.
  assert (Hf : form_filled (set_form filled_form fresh_page))
    by (repeat split; discriminate).
  split; [exact Hf |]. split; [reflexivity |].
  exact (proj1 (empty_cart_reported test_host (Firestore.saveOrder healthy)
                  (set_form filled_form fresh_page) Hf eq_refl)).
Defined.

(** C1.  With name, email and phone filled in and an item in the cart, the
    submit listener of either script awaits its [saveOrder], which returns
    a boolean.  When it returns [true] the cart item is removed from the
    store and the confirmation modal is shown, with no alert; when it
    returns [false] the store, the form and the modal are as before and
    the one alert reads "There was an error saving your order. Please try
    again.", so the same submission can be made again. *)
Theorem order_submission_outcome (host : Host) (net : Backend) (w : World)
    (item : gmap string JsVal) (saveOrder : JsVal -> M JsVal) :
  form_filled w ->
  cart_holds host w item ->
  saveOrder = Sheets.saveOrder net \/ saveOrder = Firestore.saveOrder net ->
  exists order success w1 w2,
    order_literal host (f_name (form w)) (f_email (form w)) (f_phone (form w))
      (f_address (form w)) (f_deliveryType (form w)) (Date_now w) (Date_iso w) (VObj item)
    = Normal order
    /\ saveOrder order w = (Normal (VBool success), w1)
    /\ orderForm_onSubmit host saveOrder w = (Normal tt, w2)
    /\ if success
       then localStorage w2 !! "cartItem" = None
            /\ modalVisible w2 = true
            /\ alerts w2 = alerts w
       else localStorage w2 = localStorage w
            /\ modalVisible w2 = modalVisible w
            /\ alerts w2
               = alerts w ++ ["There was an error saving your order. Please try again."]
            /\ form_filled w2
            /\ cart_holds host w2 item.
Proof.
  intros Hform Hcart Hadapter.
  destruct (order_literal_object host (f_name (form w)) (f_email (form w)) (f_phone (form w))
              (f_address (form w)) (f_deliveryType (form w)) (Date_now w) (Date_iso w) item)
    as [order Horder].
  assert (Hsave : exists success logs reqs,
             saveOrder (VObj order) w
             = (Normal (VBool success), set_console logs (set_requests reqs w))).
  { destruct Hadapter as [-> | ->].
    - destruct (Sheets_saveOrder_runs net (VObj order) w) as (b & logs & H). eauto.
    - destruct (Firestore_saveOrder_runs net (VObj order) w) as (b & logs & H). eauto. }
  destruct Hsave as (success & logs & reqs & Hsave).
  exists (VObj order), success. eexists. eexists.
  split; [exact Horder |]. split; [exact Hsave |].
  split; [exact (orderForm_onSubmit_saves host saveOrder w _ item _ _ Hform Hcart Horder Hsave) |].
  destruct success; simpl.
  - split; [apply lookup_delete_eq |]. split; reflexivity.
  - repeat split; try reflexivity; try apply Hform. exact Hcart.
Qed.

Lemma order_submission_outcome_witness :
  form_filled order_page
  /\ cart_holds test_host order_page cart_item
  /\ exists order success w1 w2,
       order_literal test_host "Ada" "ada@example.org" "555-0100" "" "pickup"
         1709287200000%float "2024-03-01T10:00:00.000Z" (VObj cart_item)
       = Normal order
       /\ Firestore.saveOrder healthy order order_page = (Normal (VBool success), w1)
       /\ orderForm_onSubmit test_host (Firestore.saveOrder healthy) order_page = (Normal tt, w2)
       /\ if success
          then localStorage w2 !! "cartItem" = None
               /\ modalVisible w2 = true
               /\ alerts w2 = alerts order_page
          else localStorage w2 = localStorage order_page
               /\ modalVisible w2 = modalVisible order_page
               /\ alerts w2
                  = alerts order_page
                    ++ ["There was an error saving your order. Please try again."]
               /\ form_filled w2
               /\ cart_holds test_host w2 cart_item.
Proof.
  assert (Hf : form_filled order_page) by (repeat split; discriminate).
  assert (Hc : cart_holds test_host order_page cart_item).
  { exists cart_text.
    split; [reflexivity | split; [vm_compute; discriminate | reflexivity]]. }
  split; [exact Hf |]. split; [exact Hc |].
  exact (order_submission_outcome test_host healthy order_page cart_item
           (Firestore.saveOrder healthy) Hf Hc (or_intror eq_refl)).
Defined.

(** C3.  The order built at submission from a cart item with numeric price
    and quantity has [total] equal to their product (the binary64 product
    the script computes), and [items] is a one-element array whose line
    item carries the cart item's price and quantity and has no [image]
    property.  This is the record each script hands to its backend. *)
Theorem order_total_is_price_times_quantity (host : Host) (net : Backend) (w : World)
    (item : gmap string JsVal) (price quantity : float) :
  form_filled w ->
  cart_holds host w item ->
  item !! "price" = Some (VNum price) ->
  item !! "quantity" = Some (VNum quantity) ->
  exists order line,
    order_literal host (f_name (form w)) (f_email (form w)) (f_phone (form w))
      (f_address (form w)) (f_deliveryType (form w)) (Date_now w) (Date_iso w) (VObj item)
    = Normal (VObj order)
    /\ order !! "total" = Some (VNum (PrimFloat.mul price quantity))
    /\ order !! "items" = Some (VArr [VObj line])
    /\ line !! "price" = Some (VNum price)
    /\ line !! "quantity" = Some (VNum quantity)
    /\ line !! "image" = None
    /\ dom line = {["id"; "name"; "price"; "quantity"]}
    /\ requests (snd (orderForm_onSubmit host (Sheets.saveOrder net) w))
       = requests w ++ [Fetch Sheets.GOOGLE_SHEETS_SCRIPT_URL
                          (Some (VObj (list_to_map [("action", VStr "saveOrder");
                                                    ("order", VObj order)])))]
    /\ requests (snd (orderForm_onSubmit host (Firestore.saveOrder net) w))
       = requests w ++ [FsAdd "orders" (<["createdAt" := VServerTimestamp]> order)].
Proof.
  intros Hform Hcart Hprice Hquantity.
  eexists. eexists.
  split.
  { unfold order_literal. simpl. rewrite Hprice, Hquantity. simpl. reflexivity. }
  split; [reflexivity |]. split; [reflexivity |].
  split; [reflexivity |]. split; [reflexivity |]. split; [reflexivity |].
  split; [apply leibniz_equiv; set_solver |].
  match goal with
  | |- context [Fetch _ (Some (VObj (list_to_map [_; ("order", ?o)])))] => set (order := o)
  end.
  assert (Horder :
            order_literal host (f_name (form w)) (f_email (form w)) (f_phone (form w))
              (f_address (form w)) (f_deliveryType (form w)) (Date_now w) (Date_iso w)
              (VObj item) = Normal order).
  { unfold order_literal. simpl. rewrite Hprice, Hquantity. simpl. reflexivity. }
  split.
  - destruct (Sheets_saveOrder_runs net order w) as (b & logs & Hsave).
    rewrite (orderForm_onSubmit_saves host _ w _ item _ _ Hform Hcart Horder Hsave).
    destruct (truthy (VBool b)); reflexivity.
  - destruct (Firestore_saveOrder_runs net order w) as (b & logs & Hsave).
    rewrite (orderForm_onSubmit_saves host _ w _ item _ _ Hform Hcart Horder Hsave).
    destruct (truthy (VBool b)); simpl; unfold obj_spread; subst order; simpl;
      rewrite <- insert_union_singleton_l; reflexivity.
Qed.

Lemma order_total_is_price_times_quantity_witness :
  form_filled order_page
  /\ cart_holds test_host order_page cart_item
  /\ cart_item !! "price" = Some (VNum 4.5%float)
  /\ cart_item !! "quantity" = Some (VNum 3%float)
  /\ exists order line,
       order_literal test_host "Ada" "ada@example.org" "555-0100" "" "pickup"
         1709287200000%float "2024-03-01T10:00:00.000Z" (VObj cart_item)
       = Normal (VObj order)
       /\ order !! "total" = Some (VNum 13.5%float)
       /\ order !! "items" = Some (VArr [VObj line])
       /\ line !! "price" = Some (VNum 4.5%float)
       /\ line !! "quantity" = Some (VNum 3%float)
       /\ line !! "image" = None
       /\ dom line = {["id"; "name"; "price"; "quantity"]}
       /\ requests (snd (orderForm_onSubmit test_host (Sheets.saveOrder healthy) order_page))
          = requests order_page
            ++ [Fetch Sheets.GOOGLE_SHEETS_SCRIPT_URL
                  (Some (VObj (list_to_map [("action", VStr "saveOrder");
                                            ("order", VObj order)])))]
       /\ requests (snd (orderForm_onSubmit test_host (Firestore.saveOrder healthy) order_page))
          = requests order_page ++ [FsAdd "orders" (<["createdAt" := VServerTimestamp]> order)].
Proof.
  assert (Hf : form_filled order_page) by (repeat split; discriminate).
  assert (Hc : cart_holds test_host order_page cart_item).
  { exists cart_text.
    split; [reflexivity | split; [vm_compute; discriminate | reflexivity]]. }
  split; [exact Hf |]. split; [exact Hc |]. split; [reflexivity |]. split; [reflexivity |].
  exact (order_total_is_price_times_quantity test_host healthy order_page cart_item
           4.5%float 3%float Hf Hc eq_refl eq_refl).
Defined.

(** ** The sign-in gate of the document-database script *)

(** C7 (as the code has it).  In the document-database script, when the
    identity provider reports no signed-in user as the order page opens,
    the page alerts, goes to the sign-in page and registers no submit
    listener; from then on a submit event, whatever the form holds, builds
    no order and issues no request: it leaves the page as it is. *)
Theorem signed_out_submission_blocked (host : Host) (net : Backend) (w : World) :
  truthy (auth_currentUser w) = false ->
  submitListener w = false ->
  let w1 := snd (Firestore.initOrderPage host w) in
  location_href w1 = "login.html"
  /\ alerts w1 = alerts w ++ ["Please log in to place an order."]
  /\ requests w1 = requests w
  /\ forall values : FormValues,
       Firestore.submitOrderForm host net (set_form values w1)
       = (Normal tt, set_form values w1).
Proof.
  intros Hout Hnone w1. subst w1.
  unfold Firestore.initOrderPage, Firestore.isUserSignedIn. unfold_monad.
  rewrite Hout. simpl.
  repeat split.
  intros values. unfold Firestore.submitOrderForm, dispatch_submit. unfold_monad.
  simpl. rewrite Hnone. reflexivity.
Qed.

Lemma signed_out_submission_blocked_witness :
  truthy (auth_currentUser order_page) = false
  /\ submitListener order_page = false
  /\ location_href (snd (Firestore.initOrderPage test_host order_page)) = "login.html"
  /\ Firestore.submitOrderForm test_host healthy
       (set_form filled_form (snd (Firestore.initOrderPage test_host order_page)))
     = (Normal tt, set_form filled_form (snd (Firestore.initOrderPage test_host order_page))).
Proof.
  split; [reflexivity |]. split; [reflexivity |].
  pose proof (signed_out_submission_blocked test_host healthy order_page eq_refl eq_refl) as H.
  split; [exact (proj1 H) |].
  exact (proj2 (proj2 (proj2 H)) filled_form).
Defined.

(** C7 (as the spec has it) fails: the sign-in state is read once, as the
    order page opens, and the submit listener does not read it again.  A
    customer who opened the page signed in and then signed out is reported
    as not signed in, yet the submission builds the order and adds it to
    the database, shows the confirmation and goes nowhere. *)
Lemma signed_out_after_opening_not_blocked :
  truthy (auth_currentUser signed_in_page) = true
  /\ submitListener opened_signed_in = true
  /\ fst (Auth.signOut obliging_provider opened_signed_in)
     = Normal (VObj (list_to_map [("success", VBool true)]))
  /\ truthy (auth_currentUser then_signed_out) = false
  /\ fst (Firestore.isUserSignedIn then_signed_out) = Normal false
  /\ (exists order : gmap string JsVal,
        requests (snd (Firestore.submitOrderForm test_host healthy then_signed_out))
        = [FsAdd "orders" order]
        /\ order !! "customerEmail" = Some (VStr "ada@example.org")
        /\ order !! "status" = Some (VStr "pending"))
  /\ modalVisible (snd (Firestore.submitOrderForm test_host healthy then_signed_out)) = true
  /\ alerts (snd (Firestore.submitOrderForm test_host healthy then_signed_out)) = []
  /\ location_href (snd (Firestore.submitOrderForm test_host healthy then_signed_out))
     <> "login.html".
Proof.
  split; [reflexivity |]. split; [reflexivity |]. split; [reflexivity |].
  split; [reflexivity |]. split; [reflexivity |].
  split; [eexists; split; [vm_compute; reflexivity | split; reflexivity] |].
  split; [reflexivity |]. split; [reflexivity |].
  vm_compute. discriminate.
Qed.

(** ** Document ids in the document-database script *)

(** [{id: doc.id, ...data}] keeps the [id] stored in the data. *)
Lemma spread_keeps_stored_id (docId : string) (data : gmap string JsVal) (v : JsVal) :
  data !! "id" = Some v ->
  obj_spread {["id" := VStr docId]} data !! "id" = Some v.
Proof. intros Hid. unfold obj_spread. apply lookup_union_Some_l. exact Hid. Qed.

Lemma spread_delete_id (docId : string) (data : gmap string JsVal) :
  delete "id" (obj_spread {["id" := VStr docId]} data) = delete "id" data.
Proof.
  unfold obj_spread. rewrite delete_union, delete_singleton_eq.
  apply (right_id_L ∅ (∪)).
Qed.

(** The document [saveOrder] adds carries the order's own [id]. *)
Lemma Firestore_saveOrder_stores_order_id (net : Backend) (order : gmap string JsVal)
    (v : JsVal) (w : World) :
  order !! "id" = Some v ->
  exists data,
    requests (snd (Firestore.saveOrder net (VObj order) w)) = requests w ++ [FsAdd "orders" data]
    /\ data !! "id" = Some v.
Proof.
  intros Hid.
  destruct (Firestore_saveOrder_runs net (VObj order) w) as (b & logs & Hrun).
  rewrite Hrun. eexists. split; [reflexivity |].
  unfold obj_spread. simpl. rewrite lookup_union_r; [exact Hid | reflexivity].
Qed.

(** C10.  In the document-database script, a stored document whose data has
    an [id] field [v] comes back from [getAllOrders] and from
    [getOrderById] as a record whose [id] is [v], not the document id; the
    other fields are the document's.  [updateOrder] applied to the fetched
    record then addresses the document named [v], with the document's data
    less [id]. *)
Theorem fetched_record_carries_stored_id (net : Backend) (w : World)
    (docs : list (string * gmap string JsVal)) (orderId : JsVal)
    (docId : string) (data : gmap string JsVal) (v : JsVal) :
  fs_query_reply net (length (requests w)) = Normal docs ->
  In (docId, data) docs ->
  fs_get_reply net (length (requests w)) orderId = Normal (docId, Some data) ->
  data !! "id" = Some v ->
  v <> VStr docId ->
  (exists records record w',
      Firestore.getAllOrders net w = (Normal (VArr records), w')
      /\ In (VObj record) records
      /\ record !! "id" = Some v
      /\ record !! "id" <> Some (VStr docId)
      /\ delete "id" record = delete "id" data)
  /\ (exists record w',
         Firestore.getOrderById net orderId w = (Normal (VObj record), w')
         /\ record !! "id" = Some v
         /\ record !! "id" <> Some (VStr docId)
         /\ delete "id" record = delete "id" data
         /\ requests (snd (Firestore.updateOrder net (VObj record) w'))
            = requests w' ++ [FsDocUpdate "orders" v (delete "id" data)]).
Proof.
  intros Hquery Hin Hget Hid Hne. split.
  - unfold Firestore.getAllOrders, fs_query. unfold_monad. rewrite Hquery.
    eexists _, (obj_spread {["id" := VStr docId]} data), _.
    split; [reflexivity |]. split.
    { apply in_map_iff. exists (docId, data). split; [reflexivity | exact Hin]. }
    rewrite (spread_keeps_stored_id docId data v Hid), spread_delete_id.
    repeat split. congruence.
  - unfold Firestore.getOrderById, fs_doc_get. unfold_monad. rewrite Hget. simpl.
    eexists (obj_spread {["id" := VStr docId]} data), _.
    split; [reflexivity |].
    rewrite (spread_keeps_stored_id docId data v Hid), spread_delete_id.
    repeat split; [congruence |].
    unfold Firestore.updateOrder, fs_doc_update. unfold_monad. simpl.
    rewrite (spread_keeps_stored_id docId data v Hid). simpl.
    rewrite spread_delete_id.
    destruct (fs_update_reply net _ v (delete "id" data)); reflexivity.
Qed.

Lemma fetched_record_carries_stored_id_witness :
  fs_query_reply healthy (length (requests fresh_page))
  = Normal [("Zx81QkT0", stored_order "2024-03-03T10:00:00.000Z" "pending")]
  /\ stored_order "2024-03-03T10:00:00.000Z" "pending" !! "id" = Some (VNum 1709287200000%float)
  /\ exists record w',
       Firestore.getOrderById healthy (VStr "Zx81QkT0") fresh_page = (Normal (VObj record), w')
       /\ record !! "id" = Some (VNum 1709287200000%float)
       /\ record !! "id" <> Some (VStr "Zx81QkT0")
       /\ delete "id" record = delete "id" (stored_order "2024-03-03T10:00:00.000Z" "pending")
       /\ requests (snd (Firestore.updateOrder healthy (VObj record) w'))
          = requests w'
            ++ [FsDocUpdate "orders" (VNum 1709287200000%float)
                  (delete "id" (stored_order "2024-03-03T10:00:00.000Z" "pending"))].
Proof.
  split; [reflexivity |]. split; [reflexivity |].
  refine (proj2 (fetched_record_carries_stored_id healthy fresh_page
                   [("Zx81QkT0", stored_order "2024-03-03T10:00:00.000Z" "pending")]
                   (VStr "Zx81QkT0") "Zx81QkT0"
                   (stored_order "2024-03-03T10:00:00.000Z" "pending")
                   (VNum 1709287200000%float) eq_refl (or_introl eq_refl) eq_refl eq_refl _)).
  discriminate.
Defined.

(** ** The admin dashboard of the webhook script *)

(** [getAllOrders] posts one envelope and resolves; besides the request
    and the console nothing changes. *)
Lemma Sheets_getAllOrders_runs (net : Backend) (w : World) :
  exists orders logs,
    Sheets.getAllOrders net w
    = (Normal orders,
       set_console logs (set_requests (requests w ++ [getAllOrders_request]) w)).
Proof.
  unfold Sheets.getAllOrders, Sheets.post, fetch, getAllOrders_request. unfold_monad.
  destruct (fetch_reply net _ _ _) as [e | ok status [v | e]]; simpl.
  - eexists _, _. unfold_setters. simpl. reflexivity.
  - destruct (get_prop v "success") as [s | e] eqn:Hs; simpl.
    + destruct (truthy s); simpl.
      * destruct (get_prop v "orders") as [os | e] eqn:Ho; simpl;
          eexists _, _; unfold_setters; simpl; reflexivity.
      * eexists _, _. unfold_setters. simpl. reflexivity.
    + eexists _, _. unfold_setters. simpl. reflexivity.
  - eexists _, _. unfold_setters. simpl. reflexivity.
Qed.

(** A card as [render_order] builds it shows its order and has no
    listener yet. *)
Lemma render_order_card (host : Host) (order : JsVal) (card : OrderCard) :
  Sheets.render_order host order = Normal card ->
  card_order card = order /\ unwired card.
Proof.
  unfold Sheets.render_order, cbind.
  destruct (Sheets.statusButton_html host order) as [statusButton | e]; [| discriminate].
  destruct (Sheets.orderCard_html host order statusButton) as [html | e]; [| discriminate].
  intros H. inversion H; subst. simpl. split; [reflexivity |].
  unfold unwired. simpl. apply Forall_map. apply Forall_forall. reflexivity.
Qed.

Lemma listen_card_order (card : OrderCard) : card_order (Sheets.listen card) = card_order card.
Proof. reflexivity. Qed.

(** Rendering appends, in order, the cards of the orders up to the first
    one whose markup cannot be built, and touches nothing else. *)
Lemma render_orders_runs (host : Host) (orders : list JsVal) :
  forall w,
  exists cards rest,
    orders = map card_order cards ++ rest
    /\ Forall (fun card => Sheets.render_order host (card_order card) = Normal card) cards
    /\ (fst (Sheets.render_orders host orders w) = Normal tt /\ rest = []
        \/ exists e, fst (Sheets.render_orders host orders w) = Throw e)
    /\ snd (Sheets.render_orders host orders w)
       = set_ordersList
           (mkOrdersList (ol_html (ordersList w)) (ol_cards (ordersList w) ++ cards)) w.
Proof.
  induction orders as [| order orders IH]; intros w.
  - exists [], []. simpl. unfold_monad. unfold_setters. simpl.
    rewrite app_nil_r. repeat split; auto.
    destruct w as [? ? ? ? ? ? ? ? ? ? ? ? ? [? ?] ? ? ?]. reflexivity.
  - simpl. unfold Sheets.appendChild. unfold_monad.
    destruct (Sheets.render_order host order) as [card | e] eqn:Hcard.
    + destruct (render_order_card host order card Hcard) as [Horder _].
      match goal with
      | |- context [Sheets.render_orders host orders ?w1] =>
          destruct (IH w1) as (cards & rest & Heq & Hall & Hfst & Hsnd)
      end.
      exists (card :: cards), rest. simpl.
      split; [congruence |]. split; [constructor; [congruence | assumption] |].
      split; [exact Hfst |].
      rewrite Hsnd. unfold_setters. simpl. rewrite <- app_assoc. reflexivity.
    + exists [], (order :: orders). simpl.
      split; [reflexivity |]. split; [constructor |]. split; [right; eauto |].
      unfold_setters. rewrite app_nil_r.
      destruct w as [? ? ? ? ? ? ? ? ? ? ? ? ? [? ?] ? ? ?]. reflexivity.
Qed.

(** *** Sorting by order date *)

Section SortByDate.
Context (host : Host).

Abbreviation cmp := (Sheets.by_orderDate_desc host).
Abbreviation dated := (fun order => is_Some (order_time host order)).

Lemma order_time_Some (order : JsVal) (t : Z) :
  order_time host order = Some t ->
  exists d, get_prop order "orderDate" = Normal d /\ Date_time host d = Some t.
Proof.
  unfold order_time. destruct (get_prop order "orderDate") as [d | e]; [eauto | discriminate].
Qed.

Lemma by_orderDate_desc_dated (a b : JsVal) (ta tb : Z) :
  order_time host a = Some ta ->
  order_time host b = Some tb ->
  cmp a b = Normal (Some (tb - ta)%Z).
Proof.
  intros Ha Hb.
  destruct (order_time_Some a ta Ha) as (da & Hda & Hta).
  destruct (order_time_Some b tb Hb) as (db & Hdb & Htb).
  unfold Sheets.by_orderDate_desc, cbind. rewrite Hdb, Hda, Htb, Hta. reflexivity.
Qed.

Lemma date_ge_trans (a b c : JsVal) :
  date_ge host a b -> date_ge host b c -> date_ge host a c.
Proof.
  intros (ta & tb & Ha & Hb & Hab) (tb' & tc & Hb' & Hc & Hbc).
  exists ta, tc. rewrite Hb in Hb'. inversion Hb'; subst. repeat split; auto. lia.
Qed.

Lemma dated_not_undefined (order : JsVal) :
  is_Some (order_time host order) -> Sheets.is_undefined order = false.
Proof. intros [t Ht]. destruct order; try reflexivity. discriminate. Qed.

Lemma insert_by_sorted (x : JsVal) (l : list JsVal) :
  is_Some (order_time host x) ->
  Forall dated l ->
  StronglySorted (date_ge host) l ->
  exists r,
    Sheets.insert_by cmp x l = Normal r
    /\ Permutation (x :: l) r
    /\ StronglySorted (date_ge host) r.
Proof.
  intros [tx Hx]. induction l as [| y l IH]; intros Hall Hsorted.
  - exists [x]. simpl. repeat split; auto. repeat constructor.
  - inversion Hall as [| ? ? [ty Hy] Hall']; subst.
    apply StronglySorted_inv in Hsorted as [Hsorted Hy_ge].
    simpl. rewrite (by_orderDate_desc_dated x y tx ty Hx Hy). simpl.
    destruct (0 <? ty - tx)%Z eqn:Hlt.
    + destruct (IH Hall' Hsorted) as (r & Hr & Hperm & Hr_sorted).
      rewrite Hr. simpl. exists (y :: r). split; [reflexivity |]. split.
      * rewrite <- Hperm. apply perm_swap.
      * constructor; [exact Hr_sorted |].
        eapply Permutation_Forall; [exact Hperm |].
        constructor; [| exact Hy_ge].
        exists ty, tx. apply Z.ltb_lt in Hlt. repeat split; auto. lia.
    + exists (x :: y :: l). split; [reflexivity |]. split; [reflexivity |].
      assert (Hxy : date_ge host x y).
      { exists tx, ty. apply Z.ltb_ge in Hlt. repeat split; auto. lia. }
      constructor; [constructor; assumption |].
      constructor; [exact Hxy |].
      eapply Forall_impl; [exact Hy_ge |].
      intros z Hyz. exact (date_ge_trans x y z Hxy Hyz).
Qed.

Lemma sort_by_sorted (l : list JsVal) :
  Forall dated l ->
  exists r,
    Sheets.sort_by cmp l = Normal r
    /\ Permutation l r
    /\ StronglySorted (date_ge host) r.
Proof.
  induction l as [| x l IH]; intros Hall.
  - exists []. repeat split; auto. constructor.
  - inversion Hall as [| ? ? Hx Hall']; subst.
    destruct (IH Hall') as (r & Hr & Hperm & Hsorted).
    assert (Hall_r : Forall dated r) by (eapply Permutation_Forall; eauto).
    destruct (insert_by_sorted x r Hx Hall_r Hsorted) as (r' & Hr' & Hperm' & Hsorted').
    exists r'. simpl. rewrite Hr. simpl. split; [exact Hr' |]. split; [| exact Hsorted'].
    rewrite <- Hperm'. constructor. exact Hperm.
Qed.

(** On orders that all carry a date, [sort] succeeds and yields a
    permutation in non-increasing date order. *)
Lemma array_sort_sorted (l : list JsVal) :
  Forall dated l ->
  exists r,
    Sheets.array_sort cmp l = Normal r
    /\ Permutation l r
    /\ StronglySorted (date_ge host) r.
Proof.
  intros Hall. unfold Sheets.array_sort.
  assert (Hdef : List.filter (fun v => negb (Sheets.is_undefined v)) l = l).
  { clear -Hall. induction Hall as [| x l Hx Hall IH]; [reflexivity |].
    simpl. rewrite (dated_not_undefined x Hx). simpl. congruence. }
  assert (Hundef : List.filter Sheets.is_undefined l = []).
  { clear -Hall. induction Hall as [| x l Hx Hall IH]; [reflexivity |].
    simpl. rewrite (dated_not_undefined x Hx). exact IH. }
  rewrite Hdef, Hundef.
  destruct (sort_by_sorted l Hall) as (r & Hr & Hperm & Hsorted).
  exists r. rewrite Hr. simpl. rewrite app_nil_r. auto.
Qed.

Lemma StronglySorted_prefix (R : JsVal -> JsVal -> Prop) (l1 l2 : list JsVal) :
  StronglySorted R (l1 ++ l2) -> StronglySorted R l1.
Proof.
  induction l1 as [| x l1 IH]; simpl; intros H; [constructor |].
  apply StronglySorted_inv in H as [H Hx]. constructor; [auto |].
  apply Forall_app in Hx. tauto.
Qed.

End SortByDate.

(** *** Loading the dashboard *)

(** The runs of [loadAndDisplayOrders]: it fetches the orders; it stops on
    a value without a length or that cannot be sorted, leaving the list as
    it was; it shows "No orders found." for an empty sequence; otherwise
    the list shows cards for the sorted orders, in order, up to the first
    order it cannot render, and the cards have their listeners only when
    all the orders were rendered. *)
Lemma loadAndDisplayOrders_runs (host : Host) (net : Backend) (w : World) :
  exists orders logs,
    let w1 := set_console logs (set_requests (requests w ++ [getAllOrders_request]) w) in
    Sheets.getAllOrders net w = (Normal orders, w1)
    /\ match Sheets.length_is_zero orders with
       | Throw e => Sheets.loadAndDisplayOrders host net w = (Throw e, w1)
       | Normal true =>
           Sheets.loadAndDisplayOrders host net w
           = (Normal tt, set_ordersList (mkOrdersList "<p>No orders found.</p>" []) w1)
       | Normal false =>
           match match orders with
                 | VArr l => Sheets.array_sort (Sheets.by_orderDate_desc host) l
                 | _ => Throw (TypeError "orders.sort is not a function")
                 end with
           | Throw e => Sheets.loadAndDisplayOrders host net w = (Throw e, w1)
           | Normal sorted =>
               exists cards rest,
                 sorted = map card_order cards ++ rest
                 /\ Forall (fun card =>
                              exists built,
                                Sheets.render_order host (card_order card) = Normal built)
                      cards
                 /\ (fst (Sheets.loadAndDisplayOrders host net w) = Normal tt -> rest = [])
                 /\ (fst (Sheets.loadAndDisplayOrders host net w) <> Normal tt ->
                     Forall unwired cards)
                 /\ snd (Sheets.loadAndDisplayOrders host net w)
                    = set_ordersList (mkOrdersList "" cards) w1
           end
       end.
Proof.
  destruct (Sheets_getAllOrders_runs net w) as (orders & logs & Hget).
  exists orders, logs. cbv zeta. split; [exact Hget |].
  unfold Sheets.loadAndDisplayOrders. unfold_monad. rewrite Hget.
  destruct (Sheets.length_is_zero orders) as [[] | e]; [reflexivity | | reflexivity].
  destruct (match orders with
            | VArr l => Sheets.array_sort (Sheets.by_orderDate_desc host) l
            | _ => Throw (TypeError "orders.sort is not a function")
            end) as [sorted | e]; [| reflexivity].
  match goal with
  | |- context [Sheets.render_orders host sorted ?w2] =>
      destruct (render_orders_runs host sorted w2) as (cards & rest & Heq & Hok & Hfst & Hsnd);
      destruct (Sheets.render_orders host sorted w2) as [[[] | e] w3] eqn:Hrun
  end; simpl in Hsnd; subst w3.
  - exists (map Sheets.listen cards), rest. split.
    + rewrite map_map. rewrite Heq. f_equal.
    + split; [| split; [| split]].
      * apply Forall_map. eapply Forall_impl; [exact Hok |].
        intros card Hcard. exists card. exact Hcard.
      * intros _. destruct Hfst as [[_ Hrest] | [e He]]; [exact Hrest | discriminate].
      * intros Hne. exfalso. apply Hne. reflexivity.
      * unfold Sheets.addStatusListeners. unfold_monad. unfold_setters. reflexivity.
  - exists cards, rest. split; [exact Heq |]. split; [| split; [| split]].
    + eapply Forall_impl; [exact Hok |]. intros card Hcard. exists card. exact Hcard.
    + discriminate.
    + intros _. eapply Forall_impl; [exact Hok |].
      intros card Hcard. exact (proj2 (render_order_card host _ card Hcard)).
    + unfold_setters. reflexivity.
Qed.

Lemma StronglySorted_adjacent {A} (R : A -> A -> Prop) (l : list A) :
  StronglySorted R l ->
  forall (i : nat) (a b : A), l !! i = Some a -> l !! S i = Some b -> R a b.
Proof.
  induction 1 as [| x l Hsorted IH Hx]; intros i a b Ha Hb; [discriminate |].
  destruct i as [| i]; simpl in Ha, Hb.
  - inversion Ha; subst. destruct l as [| y l]; [discriminate |].
    simpl in Hb. inversion Hb; subst. inversion Hx; assumption.
  - eapply IH; eassumption.
Qed.

(** C5.  When [getAllOrders] returns a sequence of orders that all carry a
    date, the cards the dashboard shows after [loadAndDisplayOrders] are in
    non-increasing order of [orderDate]: every adjacent pair (a, b) has
    a.orderDate >= b.orderDate.  When the load completes, the cards are a
    rearrangement of the orders returned. *)
Theorem dashboard_newest_first (host : Host) (net : Backend) (w : World) (l : list JsVal) :
  fst (Sheets.getAllOrders net w) = Normal (VArr l) ->
  Forall (fun order => is_Some (order_time host order)) l ->
  let shown :=
    map card_order (ol_cards (ordersList (snd (Sheets.loadAndDisplayOrders host net w)))) in
  Sorted (date_ge host) shown
  /\ (forall (i : nat) (a b : JsVal),
        shown !! i = Some a -> shown !! S i = Some b -> date_ge host a b)
  /\ (fst (Sheets.loadAndDisplayOrders host net w) = Normal tt -> Permutation l shown).
Proof.
  intros Hget Hdated shown.
  assert (Hshown : StronglySorted (date_ge host) shown
                   /\ (fst (Sheets.loadAndDisplayOrders host net w) = Normal tt ->
                       Permutation l shown)).
  { subst shown.
    destruct (loadAndDisplayOrders_runs host net w) as (orders & logs & Hget' & Hrun).
    rewrite Hget' in Hget. simpl in Hget. inversion Hget; subst orders. clear Hget.
    destruct l as [| order l]; simpl in Hrun.
    - rewrite Hrun. simpl. split; [constructor | reflexivity].
    - destruct (array_sort_sorted host (order :: l) Hdated) as (r & Hr & Hperm & Hsorted).
      rewrite Hr in Hrun. destruct Hrun as (cards & rest & Heq & _ & Hrest & _ & Hsnd).
      rewrite Hsnd. simpl. subst r. split.
      + exact (StronglySorted_prefix _ _ _ Hsorted).
      + intros Hdone. rewrite (Hrest Hdone), app_nil_r in Hperm. exact Hperm. }
  destruct Hshown as [Hsorted Hperm].
  split; [apply StronglySorted_Sorted; exact Hsorted |].
  split; [exact (StronglySorted_adjacent _ _ Hsorted) | exact Hperm].
Qed.

Lemma dashboard_newest_first_witness :
  fst (Sheets.getAllOrders healthy fresh_page) = Normal (VArr sample_orders)
  /\ Forall (fun order => is_Some (order_time test_host order)) sample_orders
  /\ Sorted (date_ge test_host)
       (map card_order
          (ol_cards (ordersList (snd (Sheets.loadAndDisplayOrders test_host healthy fresh_page))))).
Proof.
  assert (Hdated : Forall (fun order => is_Some (order_time test_host order)) sample_orders).
  { repeat constructor; eexists; vm_compute; reflexivity. }
  split; [reflexivity |]. split; [exact Hdated |].
  exact (proj1 (dashboard_newest_first test_host healthy fresh_page sample_orders
                  eq_refl Hdated)).
Defined.

(** What the dashboard showed on the sample orders: newest first. *)
Example dashboard_sample_order :
  map (fun card => order_time test_host (card_order card))
    (ol_cards (ordersList (snd (Sheets.loadAndDisplayOrders test_host healthy fresh_page))))
  = [Some 1709460000000%Z; Some 1709373600000%Z; Some 1709287200000%Z].
Proof. vm_compute. reflexivity. Qed.

(** *** Updating an order's status *)

(** Whatever [loadAndDisplayOrders] does, it posts the one request of
    [getAllOrders], logs, and redraws the list; it shows no alert. *)
Lemma loadAndDisplayOrders_frame (host : Host) (net : Backend) (w : World) :
  exists ol logs,
    snd (Sheets.loadAndDisplayOrders host net w)
    = set_ordersList ol
        (set_console logs (set_requests (requests w ++ [getAllOrders_request]) w)).
Proof.
  destruct (loadAndDisplayOrders_runs host net w) as (orders & logs & _ & Hrun).
  cbv zeta in Hrun.
  destruct (Sheets.length_is_zero orders) as [[] | e].
  - rewrite Hrun. eexists _, logs. reflexivity.
  - destruct (match orders with
              | VArr l => Sheets.array_sort (Sheets.by_orderDate_desc host) l
              | _ => Throw (TypeError "orders.sort is not a function")
              end) as [sorted | e].
    + destruct Hrun as (cards & rest & _ & _ & _ & _ & Hsnd).
      rewrite Hsnd. eexists _, logs. reflexivity.
    + rewrite Hrun. exists (ordersList w), logs. destruct w; reflexivity.
  - rewrite Hrun. exists (ordersList w), logs. destruct w; reflexivity.
Qed.

Lemma Sheets_getOrderById_runs (net : Backend) (orderId : JsVal) (w : World) :
  exists order logs,
    Sheets.getOrderById net orderId w
    = (Normal order,
       set_console logs
         (set_requests
            (requests w ++ [Fetch Sheets.GOOGLE_SHEETS_SCRIPT_URL
                              (Some (VObj (list_to_map [("action", VStr "getOrderById");
                                                        ("orderId", orderId)])))]) w)).
Proof.
  unfold Sheets.getOrderById, Sheets.post, fetch. unfold_monad.
  destruct (fetch_reply net _ _ _) as [e | ok status [v | e]]; simpl.
  - eexists _, _. unfold_setters. simpl. reflexivity.
  - destruct (get_prop v "success") as [s | e] eqn:Hs; simpl.
    + destruct (truthy s); simpl.
      * destruct (get_prop v "order") as [o | e] eqn:Ho; simpl;
          eexists _, _; unfold_setters; simpl; reflexivity.
      * eexists _, _. unfold_setters. simpl. reflexivity.
    + eexists _, _. unfold_setters. simpl. reflexivity.
  - eexists _, _. unfold_setters. simpl. reflexivity.
Qed.

Lemma submits_only_getAllOrders (status : JsVal) : submits_only status getAllOrders_request.
Proof.
  intros url envelope order Hreq Horder. unfold getAllOrders_request in Hreq.
  inversion Hreq; subst. vm_compute in Horder. discriminate.
Qed.

Lemma submits_only_getOrderById (status orderId : JsVal) :
  submits_only status
    (Fetch Sheets.GOOGLE_SHEETS_SCRIPT_URL
       (Some (VObj (list_to_map [("action", VStr "getOrderById"); ("orderId", orderId)])))).
Proof.
  intros url envelope order Hreq Horder. inversion Hreq; subst.
  rewrite lookup_insert_ne in Horder by discriminate.
  rewrite lookup_insert_ne in Horder by discriminate.
  discriminate.
Qed.

Lemma submits_only_updateOrder (status order order' : JsVal) :
  set_prop order "status" status = Normal order' ->
  submits_only status
    (Fetch Sheets.GOOGLE_SHEETS_SCRIPT_URL
       (Some (VObj (list_to_map [("action", VStr "updateOrder"); ("order", order')])))).
Proof.
  intros Hset url envelope o Hreq Horder. inversion Hreq; subst.
  rewrite lookup_insert_ne in Horder by discriminate.
  rewrite lookup_insert_eq in Horder. inversion Horder; subst.
  destruct order; simpl in Hset; inversion Hset; subst. apply lookup_insert_eq.
Qed.

(** The webhook [updateOrderStatus]: it always resolves to [undefined],
    shows exactly one alert, and every order it posts carries the new
    status. *)
Lemma Sheets_updateOrderStatus_runs (host : Host) (net : Backend)
    (orderId newStatus : JsVal) (w : World) :
  exists w' msg new,
    Sheets.updateOrderStatus host net orderId newStatus w = (Normal VUndefined, w')
    /\ alerts w' = alerts w ++ [msg]
    /\ requests w' = requests w ++ new
    /\ Forall (submits_only newStatus) new.
Proof.
  destruct (Sheets_getOrderById_runs net orderId w) as (order & logs & Hget).
  pose proof (submits_only_getOrderById newStatus orderId) as Hreq1.
  unfold Sheets.updateOrderStatus. unfold_monad. rewrite Hget.
  destruct (truthy order).
  - destruct (set_prop order "status" newStatus) as [order' | e] eqn:Hset.
    + pose proof (submits_only_updateOrder newStatus order order' Hset) as Hreq2.
      unfold Sheets.post, fetch. unfold_monad.
      destruct (fetch_reply net _ _ _) as [e | ok status [result | e]]; simpl.
      * eexists _, _, [_; _]. split; [reflexivity |]. simpl.
        rewrite <- app_assoc. repeat split; auto.
      * destruct (get_prop result "success") as [success | e]; simpl.
        -- destruct (truthy success); simpl.
           ++ match goal with
              | |- context [Sheets.loadAndDisplayOrders host net ?w2] =>
                  destruct (loadAndDisplayOrders_frame host net w2) as (ol & logs2 & Hsnd)
              end.
              rewrite Hsnd. simpl.
              eexists _, _, [_; _; _]. split; [reflexivity |]. simpl.
              rewrite <- !app_assoc. repeat split; auto.
              repeat constructor; auto using submits_only_getAllOrders.
           ++ destruct (get_prop result "error") as [err | e]; simpl;
                eexists _, _, [_; _]; (split; [reflexivity |]); simpl;
                rewrite <- app_assoc; repeat split; auto.
        -- eexists _, _, [_; _]. split; [reflexivity |]. simpl.
           rewrite <- app_assoc. repeat split; auto.
      * eexists _, _, [_; _]. split; [reflexivity |]. simpl.
        rewrite <- app_assoc. repeat split; auto.
    + simpl. eexists _, _, [_]. split; [reflexivity |]. simpl. repeat split; auto.
  - simpl. eexists _, _, [_]. split; [reflexivity |]. simpl. repeat split; auto.
Qed.

(** C4 (as the code has it).  In both scripts [updateOrderStatus] never
    raises to its caller and always resolves to [undefined], a falsy value,
    whether or not the write succeeds; the outcome is reported by an alert.
    The webhook script shows exactly one alert.  The document-database
    script ends with the confirmation alert when the write succeeds, and
    logs an error and alerts its message when the write fails. *)
Theorem updateOrderStatus_resolves_undefined (host : Host) (net : Backend)
    (reload : option (M unit)) (orderId newStatus : JsVal) (w : World) :
  truthy VUndefined = false
  /\ (exists w' msg,
         Sheets.updateOrderStatus host net orderId newStatus w = (Normal VUndefined, w')
         /\ alerts w' = alerts w ++ [msg])
  /\ (exists w',
         Firestore.updateOrderStatus host net reload orderId newStatus w = (Normal VUndefined, w')
         /\ match fs_update_reply net (length (requests w)) orderId {["status" := newStatus]} with
            | Normal _ =>
                exists shown,
                  alerts w'
                  = shown ++ ["Order #" +:+ ToString host orderId +:+ " status updated to "
                              +:+ ToString host newStatus]
            | Throw e =>
                alerts w' = alerts w ++ ["Error updating order status: " +:+ message e]
                /\ console w'
                   = console w ++ [(LError, "Error updating order status in Firestore:")]
            end).
Proof.
  split; [reflexivity |]. split.
  - destruct (Sheets_updateOrderStatus_runs host net orderId newStatus w)
      as (w' & msg & new & Hrun & Halerts & _).
    eauto.
  - unfold Firestore.updateOrderStatus, fs_doc_update. unfold_monad.
    destruct (fs_update_reply net (length (requests w)) orderId {["status" := newStatus]})
      as [[] | e].
    + destruct reload as [reload |]; simpl; eexists; (split; [reflexivity |]);
        eexists; reflexivity.
    + simpl. eexists. split; [reflexivity |]. split; reflexivity.
Qed.

(** C4 (as the spec has it) fails: on a write that succeeds, neither script
    returns [true]. *)
Lemma updateOrderStatus_success_not_true :
  fs_update_reply healthy (length (requests fresh_page)) (VStr "Zx81QkT0")
    {["status" := VStr "completed"]}
  = Normal tt
  /\ fst (Firestore.updateOrderStatus test_host healthy None (VStr "Zx81QkT0")
            (VStr "completed") fresh_page)
     = Normal VUndefined
  /\ fst (Firestore.updateOrderStatus test_host healthy None (VStr "Zx81QkT0")
            (VStr "completed") fresh_page)
     <> Normal (VBool true)
  /\ alerts (snd (Sheets.updateOrderStatus test_host healthy (VNum 1709287200000%float)
                    (VStr "completed") fresh_page))
     = ["Order #1709287200000 status updated to completed"]
  /\ fst (Sheets.updateOrderStatus test_host healthy (VNum 1709287200000%float)
            (VStr "completed") fresh_page)
     <> Normal (VBool true).
Proof.
  split; [reflexivity |]. split; [reflexivity |]. split; [vm_compute; discriminate |].
  split; [vm_compute; reflexivity | vm_compute; discriminate].
Qed.

(** *** One-way status transitions *)

(** The template itself writes the transition button for pending orders
    only, and the listener of a status button submits ['completed'] and
    nothing else. *)
Lemma statusButton_html_pending (host : Host) (order : gmap string JsVal) :
  Sheets.statusButton_html host (VObj order)
  = Normal (if is_pending (VObj order)
            then "<button class=" +:+ quoted "update-status-btn" +:+ " data-order-id="
                 +:+ quoted (ToString host (default VUndefined (order !! "id")))
                 +:+ ">Mark as Complete</button>"
            else "<span class=" +:+ quoted "order-status-completed" +:+ ">Completed</span>").
Proof.
  unfold Sheets.statusButton_html, is_pending, cbind. simpl.
  destruct (strict_eq_str (default VUndefined (order !! "status")) "pending"); reflexivity.
Qed.

Lemma statusButton_onClick_runs (host : Host) (net : Backend) (button : StatusButton)
    (w : World) :
  (sb_listening button = false ->
   Sheets.statusButton_onClick host net button w = (Normal tt, w))
  /\ exists new,
       requests (snd (Sheets.statusButton_onClick host net button w)) = requests w ++ new
       /\ Forall (submits_only (VStr "completed")) new.
Proof.
  unfold Sheets.statusButton_onClick.
  destruct (sb_listening button).
  - split; [discriminate |]. unfold_monad. simpl.
    destruct (Sheets_updateOrderStatus_runs host net
                (VNum (parseInt host (default "null" (data_order_id button))))
                (VStr "completed") w) as (w' & msg & new & Hrun & _ & Hreqs & Hnew).
    rewrite Hrun. simpl. eauto.
  - split; [reflexivity |]. exists []. unfold_monad. simpl.
    rewrite app_nil_r. auto.
Qed.

(** C6.  The transition action is not rendered for pending orders only:
    the fields of an order go into the markup of its card as they are,
    and every element of class [update-status-btn] gets the click
    listener.  A completed order whose customer name is the markup of such
    a button is shown with the "Completed" label of the template and, the
    name standing in the card's markup as it is, a status button with the
    listener; a click on it runs the status update and posts the order
    once more.  The status it submits is still ['completed']. *)
Theorem completed_order_offers_transition :
  fst (Sheets.loadAndDisplayOrders test_host tampered fresh_page) = Normal tt
  /\ is_pending (VObj forged_order) = false
  /\ Sheets.statusButton_html test_host (VObj forged_order)
     = Normal ("<span class=" +:+ quoted "order-status-completed" +:+ ">Completed</span>")
  /\ map card_order (ol_cards (ordersList tampered_dashboard)) = [VObj forged_order]
  /\ map (fun card => includes (card_html card) forged_name)
       (ol_cards (ordersList tampered_dashboard))
     = [true]
  /\ map card_buttons (ol_cards (ordersList tampered_dashboard))
     = [[mkStatusButton (Some "1709287200000") true]]
  /\ requests (snd (Sheets.statusButton_onClick test_host tampered
                      (mkStatusButton (Some "1709287200000") true) tampered_dashboard))
     = requests tampered_dashboard
       ++ [sheets_request [("action", VStr "getOrderById");
                           ("orderId", VNum 1709287200000%float)];
           sheets_request [("action", VStr "updateOrder");
                           ("order", VObj (<["status" := VStr "completed"]> forged_order))];
           getAllOrders_request]
  /\ alerts (snd (Sheets.statusButton_onClick test_host tampered
                    (mkStatusButton (Some "1709287200000") true) tampered_dashboard))
     = ["Order #1709287200000 status updated to completed"].
Proof.
  split; [vm_compute; reflexivity |]. split; [reflexivity |].
  split; [vm_compute; reflexivity |]. split; [vm_compute; reflexivity |].
  split; [vm_compute; reflexivity |]. split; [vm_compute; reflexivity |].
  split; vm_compute; reflexivity.
Qed.

(** The listener of a status button only ever submits ['completed']:
    whatever button is clicked, on whatever page, every order among the
    requests the click adds carries the status ['completed'], never
    ['pending']. *)
Theorem status_listener_submits_completed (host : Host) (net : Backend)
    (button : StatusButton) (w : World) :
  exists new,
    requests (snd (Sheets.statusButton_onClick host net button w)) = requests w ++ new
    /\ forall url envelope order,
         In (Fetch url (Some (VObj envelope))) new ->
         envelope !! "order" = Some (VObj order) ->
         order !! "status" = Some (VStr "completed")
         /\ order !! "status" <> Some (VStr "pending").
Proof.
  destruct (statusButton_onClick_runs host net button w) as [_ (new & Hreqs & Hall)].
  exists new. split; [exact Hreqs |].
  intros url envelope order Hin Horder.
  rewrite Forall_forall in Hall. apply list_elem_of_In in Hin.
  pose proof (Hall _ Hin url envelope order eq_refl Horder) as Hstatus.
  split; [exact Hstatus |]. rewrite Hstatus. discriminate.
Qed.

(** The sample dashboard: the pending orders have a listening button, the
    completed one has none. *)
Example dashboard_sample_actions :
  map card_buttons
    (ol_cards (ordersList (snd (Sheets.loadAndDisplayOrders test_host healthy fresh_page))))
  = [[mkStatusButton (Some "1709287200000") true];
     [mkStatusButton (Some "1709287200000") true];
     []].
Proof. vm_compute. reflexivity. Qed.

(** * Further properties of the scripts *)

(** ** Catalog loading *)

(** [loadProducts] never raises, whatever the network does: it issues the
    one catalog request and shows no alert.  When the fetch fails
    [allProducts] is the empty array; when it succeeds [allProducts] is the
    JSON value of the body as it is, array or not, and the grid is left
    alone. *)
Theorem loadProducts_always_resolves (net : Backend) (w : World) :
  exists w',
    loadProducts net w = (Normal tt, w')
    /\ requests w' = requests w ++ [Fetch "products.json" None]
    /\ alerts w' = alerts w
    /\ localStorage w' = localStorage w
    /\ match catalog_failure (fetch_reply net (length (requests w)) "products.json" None) with
       | Some _ => allProducts w' = VArr []
       | None =>
           productGrid w' = productGrid w
           /\ exists ok status,
                fetch_reply net (length (requests w)) "products.json" None
                = FetchResponse ok status (Normal (allProducts w'))
       end.
Proof.
  unfold loadProducts, fetch. unfold_monad. unfold_setters.
  destruct (fetch_reply net (length (requests w)) "products.json" None)
    as [e | [] status [v | e]];
    cbn -[includes could_not_load_flavors String.eqb pretty];
    try (destruct (String.eqb (location_protocol w) "file:" || includes _ "Failed to fetch");
         cbn -[includes could_not_load_flavors String.eqb pretty];
         eexists; repeat split; try reflexivity; destruct (productGrid w); reflexivity).
  eexists. repeat split. eauto.
Qed.

(** ** The webhook adapter *)

(** [getAllOrders] of the webhook script never raises and never returns a
    falsy value: it posts one request, shows no alert, and returns the
    empty array (logging an error) unless the webhook acknowledged the
    call, in which case it returns [result.orders], or the empty array
    when that is falsy. *)
Theorem Sheets_getAllOrders_fail_soft (net : Backend) (w : World) :
  exists orders w',
    Sheets.getAllOrders net w = (Normal orders, w')
    /\ truthy orders = true
    /\ alerts w' = alerts w
    /\ requests w' = requests w ++ [getAllOrders_request]
    /\ match acknowledged
               (fetch_reply net (length (requests w)) Sheets.GOOGLE_SHEETS_SCRIPT_URL
                  (Some (VObj (list_to_map [("action", VStr "getAllOrders")])))) with
       | Some result =>
           console w' = console w
           /\ exists listed,
                get_prop result "orders" = Normal listed
                /\ orders = if truthy listed then listed else VArr []
       | None => orders = VArr [] /\ exists msg, console w' = console w ++ [(LError, msg)]
       end.
Proof.
  unfold Sheets.getAllOrders, Sheets.post, fetch, getAllOrders_request, acknowledged.
  unfold_monad.
  destruct (fetch_reply net _ _ _) as [e | ok status [v | e]]; simpl.
  - eexists _, _. split; [reflexivity |]. repeat split; eauto.
  - destruct (get_prop v "success") as [s | e] eqn:Hs; simpl.
    + destruct (truthy s); simpl.
      * destruct (get_prop v "orders") as [os | e] eqn:Ho; simpl.
        -- eexists _, _. split; [reflexivity |]. simpl.
           split; [destruct (truthy os) eqn:Ht; [exact Ht | reflexivity] |].
           repeat split; eauto.
        -- destruct v; simpl in Hs, Ho; discriminate.
      * eexists _, _. split; [reflexivity |]. repeat split; eauto.
    + eexists _, _. split; [reflexivity |]. repeat split; eauto.
  - eexists _, _. split; [reflexivity |]. repeat split; eauto.
Qed.

(** [getOrderById] of the webhook script never raises: it posts one
    request, shows no alert, and returns [null] (logging an error) unless
    the webhook acknowledged the call, in which case it returns
    [result.order], found or not. *)
Theorem Sheets_getOrderById_fail_soft (net : Backend) (orderId : JsVal) (w : World) :
  exists order w',
    Sheets.getOrderById net orderId w = (Normal order, w')
    /\ alerts w' = alerts w
    /\ requests w'
       = requests w ++ [sheets_request [("action", VStr "getOrderById"); ("orderId", orderId)]]
    /\ match acknowledged
               (fetch_reply net (length (requests w)) Sheets.GOOGLE_SHEETS_SCRIPT_URL
                  (Some (VObj (list_to_map [("action", VStr "getOrderById");
                                            ("orderId", orderId)])))) with
       | Some result => console w' = console w /\ get_prop result "order" = Normal order
       | None => order = VNull /\ exists msg, console w' = console w ++ [(LError, msg)]
       end.
Proof.
  unfold Sheets.getOrderById, Sheets.post, fetch, sheets_request, acknowledged.
  unfold_monad.
  destruct (fetch_reply net _ _ _) as [e | ok status [v | e]]; simpl.
  - eexists _, _. split; [reflexivity |]. repeat split; eauto.
  - destruct (get_prop v "success") as [s | e] eqn:Hs; simpl.
    + destruct (truthy s); simpl.
      * destruct (get_prop v "order") as [o | e] eqn:Ho; simpl.
        -- eexists _, _. split; [reflexivity |]. repeat split; eauto.
        -- destruct v; simpl in Hs, Ho; discriminate.
      * eexists _, _. split; [reflexivity |]. repeat split; eauto.
    + eexists _, _. split; [reflexivity |]. repeat split; eauto.
  - eexists _, _. split; [reflexivity |]. repeat split; eauto.
Qed.

(** [updateOrder] of the webhook script never raises and shows no alert: it
    posts the record it is given, whole, and returns [true] exactly when
    the webhook acknowledged the call, [false] otherwise. *)
Theorem Sheets_updateOrder_acknowledged (net : Backend) (updatedOrder : JsVal) (w : World) :
  exists w',
    Sheets.updateOrder net updatedOrder w
    = (Normal (VBool (bool_decide
                        (is_Some (acknowledged
                                    (fetch_reply net (length (requests w))
                                       Sheets.GOOGLE_SHEETS_SCRIPT_URL
                                       (Some (VObj (list_to_map [("action", VStr "updateOrder");
                                                                 ("order", updatedOrder)])))))))),
       w')
    /\ alerts w' = alerts w
    /\ requests w'
       = requests w ++ [sheets_request [("action", VStr "updateOrder"); ("order", updatedOrder)]].
Proof.
  unfold Sheets.updateOrder, Sheets.post, fetch, sheets_request, acknowledged.
  unfold_monad.
  destruct (fetch_reply net _ _ _) as [e | ok status [v | e]]; simpl.
  - eexists. repeat split.
  - destruct (get_prop v "success") as [s | e] eqn:Hs; simpl.
    + destruct (truthy s); simpl; eexists; repeat split.
    + eexists. repeat split.
  - eexists. repeat split.
Qed.

(** ** The dashboard and the status update of the webhook script *)

(** When the webhook does not acknowledge the listing (the request fails,
    the body is not JSON, or [success] is falsy), the dashboard resolves
    and shows "No orders found.", with no card: a failure looks like an
    empty order book. *)
Theorem dashboard_failure_shows_no_orders (host : Host) (net : Backend) (w : World) :
  acknowledged (fetch_reply net (length (requests w)) Sheets.GOOGLE_SHEETS_SCRIPT_URL
                  (Some (VObj (list_to_map [("action", VStr "getAllOrders")]))))
  = None ->
  exists w',
    Sheets.loadAndDisplayOrders host net w = (Normal tt, w')
    /\ ordersList w' = mkOrdersList "<p>No orders found.</p>" []
    /\ alerts w' = alerts w
    /\ exists msg, console w' = console w ++ [(LError, msg)].
Proof.
  intros Hack. unfold acknowledged in Hack.
  unfold Sheets.loadAndDisplayOrders, Sheets.getAllOrders, Sheets.post, fetch.
  unfold_monad.
  destruct (fetch_reply net _ _ _) as [e | ok status [v | e]]; simpl.
  - eexists. split; [reflexivity |]. simpl. eauto.
  - destruct (get_prop v "success") as [s | e]; simpl.
    + destruct (truthy s); [discriminate |]. simpl.
      eexists. split; [reflexivity |]. simpl. eauto.
    + eexists. split; [reflexivity |]. simpl. eauto.
  - eexists. split; [reflexivity |]. simpl. eauto.
Qed.

Lemma dashboard_failure_shows_no_orders_witness :
  acknowledged (fetch_reply offline (length (requests fresh_page))
                  Sheets.GOOGLE_SHEETS_SCRIPT_URL
                  (Some (VObj (list_to_map [("action", VStr "getAllOrders")]))))
  = None
  /\ exists w',
       Sheets.loadAndDisplayOrders test_host offline fresh_page = (Normal tt, w')
       /\ ordersList w' = mkOrdersList "<p>No orders found.</p>" []
       /\ alerts w' = alerts fresh_page
       /\ exists msg, console w' = console fresh_page ++ [(LError, msg)].
Proof.
  split; [reflexivity |].
  exact (dashboard_failure_shows_no_orders test_host offline fresh_page eq_refl).
Defined.

(** When the lookup of the order yields nothing (a falsy value: the lookup
    failed, or the webhook returned no order), [updateOrderStatus] of the
    webhook script posts no update: after the lookup its only effect is
    the alert that the order was not found. *)
Theorem updateOrderStatus_order_not_found (host : Host) (net : Backend)
    (orderId newStatus order : JsVal) (w w1 : World) :
  Sheets.getOrderById net orderId w = (Normal order, w1) ->
  truthy order = false ->
  Sheets.updateOrderStatus host net orderId newStatus w
  = (Normal VUndefined,
     set_alerts (alerts w1 ++ ["Order #" +:+ ToString host orderId +:+ " not found"]) w1)
  /\ requests w1
     = requests w ++ [sheets_request [("action", VStr "getOrderById"); ("orderId", orderId)]].
Proof.
  intros Hget Hfalsy.
  split.
  - unfold Sheets.updateOrderStatus. unfold_monad. rewrite Hget, Hfalsy. reflexivity.
  - destruct (Sheets_getOrderById_fail_soft net orderId w) as (o & w' & Hrun & _ & Hreqs & _).
    rewrite Hget in Hrun. inversion Hrun; subst. exact Hreqs.
Qed.

Lemma updateOrderStatus_order_not_found_witness :
  Sheets.getOrderById offline (VNum 1709287200000%float) fresh_page
  = (Normal VNull,
     snd (Sheets.getOrderById offline (VNum 1709287200000%float) fresh_page))
  /\ truthy VNull = false
  /\ Sheets.updateOrderStatus test_host offline (VNum 1709287200000%float)
       (VStr "completed") fresh_page
     = (Normal VUndefined,
        set_alerts ["Order #1709287200000 not found"]
          (snd (Sheets.getOrderById offline (VNum 1709287200000%float) fresh_page))).
Proof.
  split; [reflexivity |]. split; [reflexivity |].
  exact (proj1 (updateOrderStatus_order_not_found test_host offline
                  (VNum 1709287200000%float) (VStr "completed") VNull fresh_page _
                  eq_refl eq_refl)).
Defined.

(** A status update of the webhook script is a read-modify-write of the
    whole record: when the lookup returns an order object and the webhook
    acknowledges the update, the script has posted the lookup, then the
    fetched record with only [status] replaced, then the listing that
    reloads the dashboard, and it shows the confirmation alert. *)
Theorem updateOrderStatus_read_modify_write (host : Host) (net : Backend)
    (orderId newStatus : JsVal) (order : gmap string JsVal) (result : JsVal) (w w1 : World) :
  Sheets.getOrderById net orderId w = (Normal (VObj order), w1) ->
  acknowledged (fetch_reply net (length (requests w1)) Sheets.GOOGLE_SHEETS_SCRIPT_URL
                  (Some (VObj (list_to_map [("action", VStr "updateOrder");
                                            ("order", VObj (<["status" := newStatus]> order))]))))
  = Some result ->
  let w' := snd (Sheets.updateOrderStatus host net orderId newStatus w) in
  requests w'
  = requests w
    ++ [sheets_request [("action", VStr "getOrderById"); ("orderId", orderId)];
        sheets_request [("action", VStr "updateOrder");
                        ("order", VObj (<["status" := newStatus]> order))];
        getAllOrders_request]
  /\ alerts w'
     = alerts w ++ ["Order #" +:+ ToString host orderId +:+ " status updated to "
                    +:+ ToString host newStatus]
  /\ forall field, field <> "status" ->
                   (<["status" := newStatus]> order) !! field = order !! field.
Proof.
  intros Hget Hack w'. subst w'.
  destruct (Sheets_getOrderById_fail_soft net orderId w) as (o & w0 & Hrun & Ha1 & Hr1 & _).
  rewrite Hget in Hrun. inversion Hrun; subst o w0. clear Hrun.
  unfold Sheets.updateOrderStatus. unfold_monad. rewrite Hget. simpl.
  unfold Sheets.post, fetch. unfold_monad.
  unfold acknowledged in Hack.
  destruct (fetch_reply net (length (requests w1)) _ _) as [e | ok status [v | e]];
    try discriminate.
  simpl. destruct (get_prop v "success") as [s | e]; [| discriminate].
  destruct (truthy s); [| discriminate]. simpl.
  match goal with
  | |- context [Sheets.loadAndDisplayOrders host net ?w2] =>
      destruct (loadAndDisplayOrders_frame host net w2) as (ol & logs & Hsnd)
  end.
  rewrite Hsnd. simpl. rewrite Hr1, Ha1. unfold sheets_request.
  rewrite <- !app_assoc. simpl.
  split; [reflexivity |]. split; [reflexivity |].
  intros field Hfield. apply lookup_insert_ne. congruence.
Qed.

Lemma updateOrderStatus_read_modify_write_witness :
  Sheets.getOrderById healthy (VNum 1709287200000%float) fresh_page
  = (Normal (VObj (stored_order "2024-03-03T10:00:00.000Z" "pending")),
     snd (Sheets.getOrderById healthy (VNum 1709287200000%float) fresh_page))
  /\ length (requests (snd (Sheets.updateOrderStatus test_host healthy
                              (VNum 1709287200000%float) (VStr "completed") fresh_page)))
     = 3
  /\ alerts (snd (Sheets.updateOrderStatus test_host healthy (VNum 1709287200000%float)
                    (VStr "completed") fresh_page))
     = ["Order #1709287200000 status updated to completed"].
Proof.
  split; [reflexivity |].
  pose proof (updateOrderStatus_read_modify_write test_host healthy (VNum 1709287200000%float)
                (VStr "completed") (stored_order "2024-03-03T10:00:00.000Z" "pending")
                _ fresh_page _ eq_refl eq_refl) as [Hreqs [Halerts _]].
  split; [rewrite Hreqs; reflexivity | exact Halerts].
Defined.

(** ** The document-database adapter *)

(** [getAllOrders] of the document-database script never raises and shows
    no alert: it runs the one query on "orders" by "createdAt" descending;
    when the query fails it logs an error and returns the empty array,
    otherwise it returns one record per document, in the snapshot's
    order. *)
Theorem Firestore_getAllOrders_fail_soft (net : Backend) (w : World) :
  exists records w',
    Firestore.getAllOrders net w = (Normal (VArr records), w')
    /\ alerts w' = alerts w
    /\ requests w' = requests w ++ [FsQuery "orders" "createdAt" "desc"]
    /\ match fs_query_reply net (length (requests w)) with
       | Normal docs =>
           console w' = console w
           /\ length records = length docs
           /\ forall (i : nat) (docId : string) (data : gmap string JsVal),
                docs !! i = Some (docId, data) ->
                records !! i = Some (VObj (obj_spread {["id" := VStr docId]} data))
       | Throw _ =>
           records = []
           /\ console w' = console w ++ [(LError, "Error fetching orders from Firestore:")]
       end.
Proof.
  unfold Firestore.getAllOrders, fs_query. unfold_monad.
  destruct (fs_query_reply net (length (requests w))) as [docs | e]; simpl.
  - eexists _, _. split; [reflexivity |]. simpl. repeat split.
    + apply length_map.
    + intros i docId data Hdoc. rewrite list_lookup_fmap, Hdoc. reflexivity.
  - eexists _, _. split; [reflexivity |]. simpl. repeat split.
Qed.

(** A document whose data has no [id] field round-trips: [getOrderById]
    returns its data with the document id as [id], and [updateOrder]
    applied to that record addresses the same document with the same
    data. *)
Theorem Firestore_document_id_round_trip (net : Backend) (w : World) (orderId : JsVal)
    (docId : string) (data : gmap string JsVal) :
  fs_get_reply net (length (requests w)) orderId = Normal (docId, Some data) ->
  data !! "id" = None ->
  exists record w',
    Firestore.getOrderById net orderId w = (Normal (VObj record), w')
    /\ record = <["id" := VStr docId]> data
    /\ requests (snd (Firestore.updateOrder net (VObj record) w'))
       = requests w' ++ [FsDocUpdate "orders" (VStr docId) data].
Proof.
  intros Hget Hnone.
  unfold Firestore.getOrderById, fs_doc_get. unfold_monad. rewrite Hget. simpl.
  assert (Hrecord : obj_spread {["id" := VStr docId]} data = <["id" := VStr docId]> data).
  { unfold obj_spread. rewrite insert_union_singleton_l.
    apply map_union_comm. apply map_disjoint_singleton_r_2. exact Hnone. }
  eexists _, _. split; [reflexivity |]. split; [exact Hrecord |].
  rewrite Hrecord.
  unfold Firestore.updateOrder, fs_doc_update. unfold_monad. simpl.
  rewrite lookup_insert_eq. simpl.
  rewrite delete_insert_eq, (delete_id data "id" Hnone).
  destruct (fs_update_reply net _ (VStr docId) data); reflexivity.
Qed.

Lemma Firestore_document_id_round_trip_witness :
  fs_get_reply plain_store (length (requests fresh_page)) (VStr "Zx81QkT0")
  = Normal ("Zx81QkT0", Some {["status" := VStr "pending"]})
  /\ ({["status" := VStr "pending"]} : gmap string JsVal) !! "id" = None
  /\ exists record w',
       Firestore.getOrderById plain_store (VStr "Zx81QkT0") fresh_page
       = (Normal (VObj record), w')
       /\ record = <["id" := VStr "Zx81QkT0"]> {["status" := VStr "pending"]}
       /\ requests (snd (Firestore.updateOrder plain_store (VObj record) w'))
          = requests w' ++ [FsDocUpdate "orders" (VStr "Zx81QkT0") {["status" := VStr "pending"]}].
Proof.
  split; [reflexivity |]. split; [reflexivity |].
  exact (Firestore_document_id_round_trip plain_store fresh_page (VStr "Zx81QkT0")
           "Zx81QkT0" {["status" := VStr "pending"]} eq_refl eq_refl).
Defined.

(** [getOrderById] of the document-database script never raises and shows
    no alert; for a document that does not exist, and when the read fails,
    it logs an error and returns [null]. *)
Theorem Firestore_getOrderById_fail_soft (net : Backend) (orderId : JsVal) (w : World) :
  exists order w',
    Firestore.getOrderById net orderId w = (Normal order, w')
    /\ alerts w' = alerts w
    /\ requests w' = requests w ++ [FsDocGet "orders" orderId]
    /\ match fs_get_reply net (length (requests w)) orderId with
       | Normal (docId, Some data) =>
           order = VObj (obj_spread {["id" := VStr docId]} data) /\ console w' = console w
       | Normal (_, None) =>
           order = VNull
           /\ console w' = console w ++ [(LError, "Order not found in Firestore")]
       | Throw _ =>
           order = VNull
           /\ console w' = console w ++ [(LError, "Error fetching order from Firestore:")]
       end.
Proof.
  unfold Firestore.getOrderById, fs_doc_get. unfold_monad.
  destruct (fs_get_reply net (length (requests w)) orderId) as [[docId [data |]] | e]; simpl;
    eexists _, _; (split; [reflexivity |]); simpl; repeat split.
Qed.

(** [updateOrder] of the document-database script never raises and shows
    no alert.  Given [null] or [undefined] it returns [false] without
    touching the database; otherwise it issues one update, addressed to
    the record's [id], whose data never contains [id], and returns whether
    the update went through. *)
Theorem Firestore_updateOrder_fail_soft (net : Backend) (updatedOrder : JsVal) (w : World) :
  exists (success : bool) w',
    Firestore.updateOrder net updatedOrder w = (Normal (VBool success), w')
    /\ alerts w' = alerts w
    /\ match get_prop updatedOrder "id" with
       | Throw _ => success = false /\ requests w' = requests w
       | Normal id =>
           requests w'
           = requests w ++ [FsDocUpdate "orders" id (delete "id" (own_props updatedOrder))]
           /\ delete "id" (own_props updatedOrder) !! "id" = None
           /\ success
              = match fs_update_reply net (length (requests w)) id
                        (delete "id" (own_props updatedOrder)) with
                | Normal _ => true
                | Throw _ => false
                end
       end.
Proof.
  unfold Firestore.updateOrder, fs_doc_update. unfold_monad.
  destruct (get_prop updatedOrder "id") as [id | e]; simpl.
  - destruct (fs_update_reply net (length (requests w)) id
                (delete "id" (own_props updatedOrder))) as [[] | e] eqn:Hreply; simpl;
      eexists _, _; (split; [reflexivity |]); simpl;
      (split; [reflexivity |]); (split; [reflexivity |]);
      (split; [apply lookup_delete_eq | reflexivity]).
  - eexists _, _. split; [reflexivity |]. simpl. repeat split.
Qed.

(** The document [saveOrder] adds always carries the server timestamp as
    [createdAt], also when the order has a [createdAt] of its own, and
    every other property of the order unchanged. *)
Theorem Firestore_saveOrder_stamps_createdAt (net : Backend) (order : JsVal) (w : World) :
  exists data,
    requests (snd (Firestore.saveOrder net order w)) = requests w ++ [FsAdd "orders" data]
    /\ data !! "createdAt" = Some VServerTimestamp
    /\ forall field, field <> "createdAt" -> data !! field = own_props order !! field.
Proof.
  destruct (Firestore_saveOrder_runs net order w) as (b & logs & Hrun).
  rewrite Hrun. eexists. split; [reflexivity |].
  unfold obj_spread. split.
  - apply lookup_union_Some_l. apply lookup_singleton_eq.
  - intros field Hfield. rewrite lookup_union_r; [reflexivity |].
    apply lookup_singleton_ne. congruence.
Qed.

(** ** The order page *)

Lemma orderForm_onSubmit_without_item (host : Host) (saveOrder : JsVal -> M JsVal)
    (w : World) :
  form_filled w ->
  localStorage w !! "cartItem" = None ->
  orderForm_onSubmit host saveOrder w
  = (Normal tt, set_alerts (alerts w ++ [no_items_message]) w).
Proof.
  intros (Hn & He & Hp) Hcart.
  unfold orderForm_onSubmit. unfold_monad. cbv beta iota zeta.
  rewrite (truthy_str_true _ Hn), (truthy_str_true _ He), (truthy_str_true _ Hp).
  cbn [andb]. rewrite Hcart. reflexivity.
Qed.

(** The cart item is consumed once: when a submission ends with the
    confirmation shown, submitting again alerts "No items in cart..." and
    calls no backend. *)
Theorem cart_consumed_once (host : Host) (net : Backend) (w : World)
    (item : gmap string JsVal) (saveOrder : JsVal -> M JsVal) :
  form_filled w ->
  cart_holds host w item ->
  saveOrder = Sheets.saveOrder net \/ saveOrder = Firestore.saveOrder net ->
  modalVisible w = false ->
  let w2 := snd (orderForm_onSubmit host saveOrder w) in
  modalVisible w2 = true ->
  orderForm_onSubmit host saveOrder w2
  = (Normal tt,
     set_alerts (alerts w2 ++ ["No items in cart. Please select an item first."]) w2)
  /\ length (requests w2) = S (length (requests w)).
Proof.
  intros Hform Hcart Hadapter Hhidden w2 Hshown.
  destruct (order_literal_object host (f_name (form w)) (f_email (form w)) (f_phone (form w))
              (f_address (form w)) (f_deliveryType (form w)) (Date_now w) (Date_iso w) item)
    as [order Horder].
  assert (Hsave : exists success logs req,
             saveOrder (VObj order) w
             = (Normal (VBool success),
                set_console logs (set_requests (requests w ++ [req]) w))).
  { destruct Hadapter as [-> | ->].
    - destruct (Sheets_saveOrder_runs net (VObj order) w) as (b & logs & H). eauto.
    - destruct (Firestore_saveOrder_runs net (VObj order) w) as (b & logs & H). eauto. }
  destruct Hsave as (success & logs & req & Hsave).
  pose proof (orderForm_onSubmit_saves host saveOrder w _ item _ _ Hform Hcart Horder Hsave)
    as Hrun.
  subst w2. rewrite Hrun in *. clear Hrun.
  destruct success; cbn [truthy snd] in *.
  - split.
    + apply orderForm_onSubmit_without_item; [exact Hform | apply lookup_delete_eq].
    + cbn. rewrite length_app. simpl. lia.
  - cbn in Hshown. congruence.
Qed.

Lemma cart_consumed_once_witness :
  form_filled order_page
  /\ cart_holds test_host order_page cart_item
  /\ modalVisible order_page = false
  /\ modalVisible (snd (orderForm_onSubmit test_host (Sheets.saveOrder healthy) order_page))
     = true
  /\ alerts (snd (orderForm_onSubmit test_host (Sheets.saveOrder healthy)
                    (snd (orderForm_onSubmit test_host (Sheets.saveOrder healthy) order_page))))
     = ["No items in cart. Please select an item first."].
Proof.
  assert (Hf : form_filled order_page) by (repeat split; discriminate).
  assert (Hc : cart_holds test_host order_page cart_item).
  { exists cart_text.
    split; [reflexivity | split; [vm_compute; discriminate | reflexivity]]. }
  split; [exact Hf |]. split; [exact Hc |]. split; [reflexivity |]. split; [reflexivity |].
  rewrite (proj1 (cart_consumed_once test_host healthy order_page cart_item
                    (Sheets.saveOrder healthy) Hf Hc (or_introl eq_refl) eq_refl eq_refl)).
  reflexivity.
Defined.

(** A cart entry that is not JSON stops [initOrderPage] of the webhook
    script at the summary: the error propagates and the order form gets no
    submit listener, so a submit event then reaches no script. *)
Theorem initOrderPage_corrupt_cart (host : Host) (net : Backend) (w : World)
    (text : string) (e : JsError) :
  localStorage w !! "cartItem" = Some text ->
  text <> "" ->
  JSON_parse host text = Throw e ->
  submitListener w = false ->
  Sheets.initOrderPage host w = (Throw e, w)
  /\ Sheets.submitOrderForm host net w = (Normal tt, w).
Proof.
  intros Hget Htext Hparse Hnone. split.
  - unfold Sheets.initOrderPage, render_summary. unfold_monad. cbv beta iota zeta.
    rewrite Hget, (truthy_str_true _ Htext), Hparse. reflexivity.
  - unfold Sheets.submitOrderForm, dispatch_submit. unfold_monad. cbv beta iota zeta.
    rewrite Hnone. reflexivity.
Qed.

Lemma initOrderPage_corrupt_cart_witness :
  localStorage corrupt_cart_page !! "cartItem" = Some "{oops"
  /\ JSON_parse test_host "{oops" = Throw (mkError "Unexpected token in JSON")
  /\ Sheets.initOrderPage test_host corrupt_cart_page
     = (Throw (mkError "Unexpected token in JSON"), corrupt_cart_page).
Proof.
  split; [reflexivity |]. split; [reflexivity |].
  refine (proj1 (initOrderPage_corrupt_cart test_host healthy corrupt_cart_page "{oops"
                   (mkError "Unexpected token in JSON") eq_refl _ eq_refl eq_refl)).
  discriminate.
Defined.

(** In the document-database script, when the identity provider reports a
    signed-in user and the summary can be drawn, [initOrderPage] shows no
    alert, stays on the page, issues no request and registers the submit
    listener; the email input is prefilled with the user's email when the
    user has one, and the other inputs are untouched. *)
Theorem Firestore_initOrderPage_signed_in (host : Host) (w : World) :
  truthy (auth_currentUser w) = true ->
  fst (render_summary host 2 w) = Normal tt ->
  let w1 := snd (Firestore.initOrderPage host w) in
  submitListener w1 = true
  /\ closeListener w1 = true
  /\ alerts w1 = alerts w
  /\ location_href w1 = location_href w
  /\ requests w1 = requests w
  /\ f_email (form w1)
     = match get_prop (auth_currentUser w) "email" with
       | Normal email => if truthy email then ToString host email else f_email (form w)
       | Throw _ => f_email (form w)
       end
  /\ f_name (form w1) = f_name (form w)
  /\ f_phone (form w1) = f_phone (form w).
Proof.
  intros Hin Hsummary w1. subst w1.
  unfold Firestore.initOrderPage, Firestore.isUserSignedIn, Firestore.getCurrentUser.
  unfold_monad. rewrite Hin. cbn [negb].
  assert (Hframe : exists s, render_summary host 2 w = (Normal tt, set_orderSummary s w)).
  { revert Hsummary. unfold render_summary. unfold_monad. cbv beta iota zeta.
    destruct (localStorage w !! "cartItem") as [text |]; [| eauto].
    destruct (truthy_str text); [| eauto].
    destruct (JSON_parse host text) as [item | e]; [| discriminate].
    destruct (get_prop item "image"); [| discriminate].
    destruct (get_prop item "name"); [| discriminate].
    destruct (get_prop item "quantity"); [| discriminate].
    destruct (get_prop item "price"); [| discriminate].
    eauto. }
  destruct Hframe as [s Hrun]. rewrite Hrun. unfold_setters. simpl. rewrite Hin.
  destruct (get_prop (auth_currentUser w) "email") as [email | e] eqn:Hemail; simpl.
  - destruct (truthy email); simpl; repeat split.
  - destruct (auth_currentUser w); simpl in Hin, Hemail; discriminate.
Qed.

Lemma Firestore_initOrderPage_signed_in_witness :
  truthy (auth_currentUser signed_in_page) = true
  /\ fst (render_summary test_host 2 signed_in_page) = Normal tt
  /\ submitListener (snd (Firestore.initOrderPage test_host signed_in_page)) = true
  /\ f_email (form (snd (Firestore.initOrderPage test_host signed_in_page)))
     = "ada@example.org".
Proof.
  split; [reflexivity |]. split; [reflexivity |].
  pose proof (Firestore_initOrderPage_signed_in test_host signed_in_page eq_refl eq_refl) as H.
  split; [exact (proj1 H) |].
  exact (proj1 (proj2 (proj2 (proj2 (proj2 (proj2 H)))))).
Defined.

(** ** A dashboard that fails to render *)

(** When the orders are fetched, all dated, and one of them cannot be
    rendered (it has no numeric total, say), [loadAndDisplayOrders]
    rejects, having put cards on display for fewer orders than it fetched,
    and the status buttons of those cards are left without listeners: a
    click on any of them does nothing. *)
Theorem dashboard_render_failure_dead_buttons (host : Host) (net : Backend) (w : World)
    (l : list JsVal) (order : JsVal) (e0 : JsError) :
  fst (Sheets.getAllOrders net w) = Normal (VArr l) ->
  Forall (fun order => is_Some (order_time host order)) l ->
  In order l ->
  Sheets.render_order host order = Throw e0 ->
  (exists e, fst (Sheets.loadAndDisplayOrders host net w) = Throw e)
  /\ (length (ol_cards (ordersList (snd (Sheets.loadAndDisplayOrders host net w))))
      < length l)%nat
  /\ forall card button,
       In card (ol_cards (ordersList (snd (Sheets.loadAndDisplayOrders host net w)))) ->
       In button (card_buttons card) ->
       sb_listening button = false
       /\ forall w2, Sheets.statusButton_onClick host net button w2 = (Normal tt, w2).
Proof.
  intros Hget Hdated Hin Hbad.
  destruct (loadAndDisplayOrders_runs host net w) as (orders & logs & Hget' & Hrun).
  rewrite Hget' in Hget. simpl in Hget. inversion Hget; subst orders. clear Hget.
  destruct l as [| first l]; [contradiction |]. simpl in Hrun.
  destruct (array_sort_sorted host (first :: l) Hdated) as (r & Hr & Hperm & _).
  rewrite Hr in Hrun.
  destruct Hrun as (cards & rest & Heq & Hbuilt & Hrest & Hdead & Hsnd).
  assert (Hin_rest : In order rest).
  { assert (Hin_r : In order r) by (eapply Permutation_in; eassumption).
    rewrite Heq in Hin_r. apply in_app_or in Hin_r as [Hshown | Hleft]; [| exact Hleft].
    exfalso. apply in_map_iff in Hshown as (card & Hcard & Hcard_in).
    rewrite Forall_forall in Hbuilt. apply list_elem_of_In in Hcard_in.
    destruct (Hbuilt card Hcard_in) as [built Hok]. congruence. }
  assert (Hfailed : fst (Sheets.loadAndDisplayOrders host net w) <> Normal tt).
  { intros Hdone. rewrite (Hrest Hdone) in Hin_rest. contradiction. }
  split; [| split].
  - destruct (fst (Sheets.loadAndDisplayOrders host net w)) as [[] | e];
      [contradiction | eauto].
  - rewrite Hsnd. simpl.
    pose proof (Permutation_length Hperm) as Hlen.
    rewrite Heq, length_app, length_map in Hlen.
    destruct rest; [contradiction |]. simpl in Hlen |- *. lia.
  - rewrite Hsnd. simpl. intros card button Hcard Hbutton.
    specialize (Hdead Hfailed). rewrite Forall_forall in Hdead.
    apply list_elem_of_In in Hcard. specialize (Hdead card Hcard).
    unfold unwired in Hdead. rewrite Forall_forall in Hdead.
    apply list_elem_of_In in Hbutton. specialize (Hdead button Hbutton).
    split; [exact Hdead |].
    intros w2. unfold Sheets.statusButton_onClick. rewrite Hdead. reflexivity.
Qed.

Lemma dashboard_render_failure_dead_buttons_witness :
  fst (Sheets.getAllOrders incomplete_orders fresh_page)
  = Normal (VArr [VObj (stored_order "2024-03-03T10:00:00.000Z" "pending");
                  VObj untotalled_order])
  /\ (exists e, Sheets.render_order test_host (VObj untotalled_order) = Throw e)
  /\ (exists e, fst (Sheets.loadAndDisplayOrders test_host incomplete_orders fresh_page)
                = Throw e)
  /\ map card_buttons
       (ol_cards (ordersList (snd (Sheets.loadAndDisplayOrders test_host incomplete_orders
                                     fresh_page))))
     = [[mkStatusButton (Some "1709287200000") false]].
Proof.
  split; [reflexivity |]. split; [eexists; vm_compute; reflexivity |].
  split; [| vm_compute; reflexivity].
  refine (proj1 (dashboard_render_failure_dead_buttons test_host incomplete_orders fresh_page
                   _ (VObj untotalled_order) _ eq_refl _ (or_intror (or_introl eq_refl))
                   eq_refl)).
  repeat constructor; eexists; vm_compute; reflexivity.
Defined.

(** ** The admin gate *)

(** [showOrdersDashboard]: the three sections switch to the dashboard, the
    orders are loaded with one request, and the page's alerts and store are
    left alone; the prompt's listeners and the password field are not
    touched. *)
Lemma showOrdersDashboard_runs (host : Host) (net : Backend) (p : Page) :
  exists ol logs named loadButton,
    snd (Admin.showOrdersDashboard host net p)
    = mkPage
        (set_dashboard_listeners named loadButton
           (set_sections "none" "block" "inline-block" (p_dom p)))
        (set_ordersList ol
           (set_console logs
              (set_requests (requests (p_world p) ++ [getAllOrders_request]) (p_world p)))).
Proof.
  destruct p as [d w].
  unfold Admin.showOrdersDashboard. unfold_page. simpl.
  destruct (loadAndDisplayOrders_frame host net w) as (ol & logs & Hsnd).
  destruct (Sheets.loadAndDisplayOrders host net w) as [[[] | e] w1]; simpl in Hsnd; subst w1;
    simpl.
  - exists ol, logs, true, (S (load_button_listeners d)). destruct d; reflexivity.
  - exists ol, logs, (dashboard_listeners d), (load_button_listeners d).
    destruct d; reflexivity.
Qed.

(** A wrong passphrase changes nothing but the prompt: [checkPassword]
    shows the "Incorrect password" alert and empties the password field;
    the authenticated flag is not set, no request is issued and the
    sections stay as they were. *)
Theorem wrong_password_rejected (host : Host) (net : Backend) (p : Page) :
  admin_password (p_dom p) <> "scoopadmin123" ->
  Admin.checkPassword host net p
  = (Normal tt,
     mkPage (set_admin_password "" (p_dom p))
       (set_alerts (alerts (p_world p) ++ ["Incorrect password. Please try again."])
          (p_world p))).
Proof.
  intros Hwrong. unfold Admin.checkPassword. unfold_page. unfold_monad.
  destruct (String.eqb_spec (admin_password (p_dom p)) Admin.correctPassword) as [Heq | _];
    [contradiction |].
  reflexivity.
Qed.

Lemma wrong_password_rejected_witness :
  admin_password (p_dom (admin_page "letmein")) <> "scoopadmin123"
  /\ Admin.checkPassword test_host healthy (admin_page "letmein")
     = (Normal tt,
        mkPage (set_admin_password "" (p_dom (admin_page "letmein")))
          (set_alerts ["Incorrect password. Please try again."] fresh_page)).
Proof.
  assert (H : admin_password (p_dom (admin_page "letmein")) <> Admin.correctPassword)
    by (vm_compute; discriminate).
  split; [exact H |].
  exact (wrong_password_rejected test_host healthy (admin_page "letmein") H).
Defined.

(** The right passphrase opens the dashboard and is remembered:
    [checkPassword] stores the authenticated flag, hides the prompt, shows
    the dashboard and the logout button and fetches the orders once, without
    an alert; the password stays in its field.  A later load of the admin
    page with that store shows the dashboard without registering the
    prompt's listeners. *)
Theorem correct_password_opens_dashboard (host : Host) (net : Backend) (p : Page) :
  admin_password (p_dom p) = "scoopadmin123" ->
  let p' := snd (Admin.checkPassword host net p) in
  localStorage (p_world p') !! "adminAuthenticated" = Some "true"
  /\ password_section (p_dom p') = "none"
  /\ protected_section (p_dom p') = "block"
  /\ logout_btn (p_dom p') = "inline-block"
  /\ requests (p_world p') = requests (p_world p) ++ [getAllOrders_request]
  /\ alerts (p_world p') = alerts (p_world p)
  /\ admin_password (p_dom p') = "scoopadmin123"
  /\ forall d0 : Dom,
       let reloaded := snd (Admin.initAdminOrdersPage host net (mkPage d0 (p_world p'))) in
       password_section (p_dom reloaded) = "none"
       /\ protected_section (p_dom reloaded) = "block"
       /\ keypress_listeners (p_dom reloaded) = keypress_listeners d0
       /\ submit_password_listener (p_dom reloaded) = submit_password_listener d0.
Proof.
  intros Hright p'.
  assert (Hp' : exists ol logs named loadButton,
             p' = mkPage
                    (set_dashboard_listeners named loadButton
                       (set_sections "none" "block" "inline-block" (p_dom p)))
                    (set_ordersList ol
                       (set_console logs
                          (set_requests (requests (p_world p) ++ [getAllOrders_request])
                             (set_localStorage
                                (<["adminAuthenticated" := "true"]> (localStorage (p_world p)))
                                (p_world p)))))).
  { subst p'. unfold Admin.checkPassword. unfold_page. unfold_monad. rewrite Hright.
    simpl.
    match goal with
    | |- context [Admin.showOrdersDashboard host net ?q] =>
        destruct (showOrdersDashboard_runs host net q) as (ol & logs & named & n & Hrun)
    end.
    rewrite Hrun. simpl. eauto. }
  destruct Hp' as (ol & logs & named & n & Hp'). rewrite Hp'. simpl.
  split; [apply lookup_insert_eq |].
  do 5 (split; [first [reflexivity | assumption] |]).
  split; [assumption |].
  intros d0. cbv zeta.
  unfold Admin.initAdminOrdersPage. unfold_page. unfold_monad. simpl.
  rewrite lookup_insert_eq.
  match goal with
  | |- context [Admin.showOrdersDashboard host net ?q] =>
      destruct (showOrdersDashboard_runs host net q) as (ol2 & logs2 & named2 & n2 & Hrun)
  end.
  simpl. rewrite Hrun. repeat split.
Qed.

Lemma correct_password_opens_dashboard_witness :
  admin_password (p_dom (admin_page "scoopadmin123")) = "scoopadmin123"
  /\ localStorage (p_world (snd (Admin.checkPassword test_host healthy
                                   (admin_page "scoopadmin123"))))
       !! "adminAuthenticated"
     = Some "true"
  /\ protected_section (p_dom (snd (Admin.checkPassword test_host healthy
                                      (admin_page "scoopadmin123"))))
     = "block".
Proof.
  split; [reflexivity |].
  pose proof (correct_password_opens_dashboard test_host healthy
                (admin_page "scoopadmin123") eq_refl) as H.
  split; [exact (proj1 H) | exact (proj1 (proj2 (proj2 H)))].
Defined.

(** Logout returns to the gate: the authenticated flag is removed, the
    dashboard and the logout button are hidden and the prompt is shown,
    with one more keypress listener on the password field; no request is
    issued and the order cards stay in the hidden list.  A later load of
    the admin page with that store shows the prompt and fetches nothing. *)
Theorem logout_returns_to_gate (host : Host) (net : Backend) (p : Page) :
  let p' := snd (Admin.logout p) in
  fst (Admin.logout p) = Normal tt
  /\ localStorage (p_world p') !! "adminAuthenticated" = None
  /\ password_section (p_dom p') = "block"
  /\ protected_section (p_dom p') = "none"
  /\ logout_btn (p_dom p') = "none"
  /\ keypress_listeners (p_dom p') = S (keypress_listeners (p_dom p))
  /\ requests (p_world p') = requests (p_world p)
  /\ ordersList (p_world p') = ordersList (p_world p)
  /\ forall d0 : Dom,
       let reloaded := snd (Admin.initAdminOrdersPage host net (mkPage d0 (p_world p'))) in
       password_section (p_dom reloaded) = "block"
       /\ protected_section (p_dom reloaded) = "none"
       /\ requests (p_world reloaded) = requests (p_world p).
Proof.
  intros p'. subst p'. destruct p as [d w].
  unfold Admin.logout, Admin.showPasswordPrompt. unfold_page. unfold_monad. simpl.
  split; [reflexivity |]. split; [apply lookup_delete_eq |].
  do 6 (split; [reflexivity |]).
  intros d0. cbv zeta.
  unfold Admin.initAdminOrdersPage, Admin.showPasswordPrompt. unfold_page.
  unfold_monad. simpl. rewrite lookup_delete_eq. repeat split.
Qed.

(** Every prompt shown adds a keypress listener that is never removed, so
    Enter in the password field runs [checkPassword] once per prompt shown
    so far: with the right passphrase and [n] listeners the orders are
    fetched [n] times. *)
Theorem enter_runs_every_prompt_listener (host : Host) (net : Backend) (p : Page) :
  admin_password (p_dom p) = "scoopadmin123" ->
  let p' := snd (Admin.adminPassword_keypress host net "Enter" p) in
  requests (p_world p')
  = requests (p_world p) ++ repeat getAllOrders_request (keypress_listeners (p_dom p))
  /\ alerts (p_world p') = alerts (p_world p).
Proof.
  intros Hright p'. subst p'.
  unfold Admin.adminPassword_keypress. unfold_page. simpl.
  generalize (keypress_listeners (p_dom p)) as n.
  intros n. revert p Hright.
  induction n as [| n IH]; intros p Hright.
  - simpl. rewrite app_nil_r. auto.
  - simpl. unfold_page. simpl.
    assert (Hstep : exists q,
               snd (Admin.checkPassword host net p) = q
               /\ admin_password (p_dom q) = Admin.correctPassword
               /\ requests (p_world q) = requests (p_world p) ++ [getAllOrders_request]
               /\ alerts (p_world q) = alerts (p_world p)).
    { unfold Admin.checkPassword. unfold_page. unfold_monad. rewrite Hright. simpl.
      match goal with
      | |- context [Admin.showOrdersDashboard host net ?q] =>
          destruct (showOrdersDashboard_runs host net q) as (ol & logs & named & k & Hrun)
      end.
      rewrite Hrun. eexists. split; [reflexivity |]. simpl. auto. }
    destruct Hstep as (q & Hq & Hpass & Hreqs & Halerts). rewrite Hq.
    destruct (IH q Hpass) as [IHreqs IHalerts].
    rewrite IHreqs, IHalerts, Hreqs, Halerts. rewrite <- app_assoc. auto.
Qed.

Lemma enter_runs_every_prompt_listener_witness :
  admin_password (p_dom (snd (Admin.logout (snd (Admin.showPasswordPrompt
                                                  (admin_page "scoopadmin123"))))))
  = "scoopadmin123"
  /\ requests (p_world (snd (Admin.adminPassword_keypress test_host healthy "Enter"
                               (snd (Admin.logout (snd (Admin.showPasswordPrompt
                                                          (admin_page "scoopadmin123"))))))))
     = [getAllOrders_request; getAllOrders_request].
Proof.
  split; [reflexivity |].
  exact (proj1 (enter_runs_every_prompt_listener test_host healthy
                  (snd (Admin.logout (snd (Admin.showPasswordPrompt
                                             (admin_page "scoopadmin123")))))
                  eq_refl)).
Defined.

(** ** The theme switch *)

(** After a click on the theme switch the stored preference says what the
    page shows ("light" exactly when the body has "light-mode"), the icon
    matches, and the preference survives a reload: a page loaded with that
    store, whatever mode its markup starts in, ends in the same mode with
    the same icon. *)
Theorem theme_preference_persists (p : Page) (d0 : Dom) :
  theme_toggle d0 <> None ->
  let p' := snd (Theme.themeToggle_onClick p) in
  let reloaded := snd (Theme.initTheme (mkPage d0 (p_world p'))) in
  light_mode (p_dom p') = negb (light_mode (p_dom p))
  /\ localStorage (p_world p') !! "theme"
     = Some (if light_mode (p_dom p') then "light" else "dark")
  /\ theme_toggle (p_dom p')
     = Some (if light_mode (p_dom p') then Theme.moon_icon else Theme.sun_icon)
  /\ fst (Theme.initTheme (mkPage d0 (p_world p'))) = Normal tt
  /\ light_mode (p_dom reloaded) = light_mode (p_dom p')
  /\ theme_toggle (p_dom reloaded) = theme_toggle (p_dom p')
  /\ theme_listener (p_dom reloaded) = true.
Proof.
  intros Htoggle p' reloaded. subst reloaded p'.
  destruct p as [d w]. destruct (theme_toggle d0) as [icon |] eqn:Hicon; [| contradiction].
  unfold Theme.themeToggle_onClick, Theme.initTheme, Theme.show_theme.
  unfold_page. unfold_monad. simpl.
  destruct (light_mode d); simpl; rewrite lookup_insert_eq; simpl; rewrite Hicon; simpl;
    repeat split; apply lookup_insert_eq.
Qed.

Lemma theme_preference_persists_witness :
  theme_toggle blank_dom <> None
  /\ light_mode (p_dom (snd (Theme.themeToggle_onClick (mkPage blank_dom fresh_page)))) = true
  /\ light_mode
       (p_dom (snd (Theme.initTheme
                      (mkPage blank_dom
                         (p_world (snd (Theme.themeToggle_onClick
                                          (mkPage blank_dom fresh_page))))))))
     = true.
Proof.
  assert (H : theme_toggle blank_dom <> None) by discriminate.
  split; [exact H |].
  pose proof (theme_preference_persists (mkPage blank_dom fresh_page) blank_dom H) as Hp.
  split; [exact (proj1 Hp) |].
  exact (proj1 (proj2 (proj2 (proj2 (proj2 Hp))))).
Defined.

(** Without a stored preference, or with any stored value other than
    "light", a page that has the switch loads in dark mode; on a page
    without the switch the theme code throws, after setting the body's
    mode and before registering the listener. *)
Theorem initTheme_defaults (p : Page) :
  localStorage (p_world p) !! "theme" <> Some "light" ->
  let p' := snd (Theme.initTheme p) in
  light_mode (p_dom p') = false
  /\ p_world p' = p_world p
  /\ match theme_toggle (p_dom p) with
     | Some _ =>
         fst (Theme.initTheme p) = Normal tt
         /\ theme_toggle (p_dom p') = Some Theme.sun_icon
         /\ theme_listener (p_dom p') = true
     | None =>
         (exists e, fst (Theme.initTheme p) = Throw e)
         /\ theme_listener (p_dom p') = theme_listener (p_dom p)
     end.
Proof.
  intros Hsaved p'. subst p'. destruct p as [d w]. simpl in Hsaved.
  unfold Theme.initTheme, Theme.show_theme. unfold_page. unfold_monad. simpl.
  assert (Hdark : forall (A : Type) (a b : A),
             match localStorage w !! "theme" with
             | Some "light" => a
             | _ => b
             end = b).
  { intros A a b. destruct (localStorage w !! "theme") as [s |]; [| reflexivity].
    destruct (String.eqb_spec s "light") as [-> | Hne]; [contradiction |].
    repeat (destruct s as [| [[] [] [] [] [] [] [] []] s]; try reflexivity).
    exfalso. apply Hne. reflexivity. }
  rewrite Hdark. simpl.
  destruct (theme_toggle d) eqn:Hicon; simpl; rewrite ?Hicon; repeat split; eauto.
Qed.

Lemma initTheme_defaults_witness :
  localStorage fresh_page !! "theme" <> Some "light"
  /\ light_mode (p_dom (snd (Theme.initTheme (mkPage blank_dom fresh_page)))) = false.
Proof.
  assert (H : localStorage (p_world (mkPage blank_dom fresh_page)) !! "theme" <> Some "light")
    by (vm_compute; discriminate).
  split; [exact H |].
  exact (proj1 (initTheme_defaults (mkPage blank_dom fresh_page) H)).
Defined.

(** ** The testimonial slider *)

Lemma showSlide_next (slides : nat) (i : Z) :
  (0 <= i < Z.of_nat slides)%Z ->
  Slider.currentIndex (Slider.showSlide slides (i + 1)) = ((i + 1) mod Z.of_nat slides)%Z.
Proof.
  intros Hi. unfold Slider.showSlide. simpl.
  destruct (Z.leb_spec (Z.of_nat slides) (i + 1)) as [Hge | Hlt].
  - assert (i + 1 = Z.of_nat slides)%Z as -> by lia. symmetry. apply Z_mod_same_full.
  - destruct (Z.ltb_spec (i + 1) 0) as [Hneg | _]; [lia |].
    symmetry. apply Z.mod_small. lia.
Qed.

Lemma showSlide_in_range (slides : nat) (index : Z) :
  (0 < slides)%nat ->
  (0 <= Slider.currentIndex (Slider.showSlide slides index) < Z.of_nat slides)%Z.
Proof.
  intros Hpos. unfold Slider.showSlide. simpl.
  destruct (Z.leb_spec (Z.of_nat slides) index); [lia |].
  destruct (Z.ltb_spec index 0); lia.
Qed.

(** Whatever sequence of clicks follows an initialisation that registered
    the listeners, the slide index stays within the slides. *)
Theorem slider_index_in_range (slider prevBtn nextBtn : bool) (slides : nat)
    (s0 : Slider.SliderState) (clicks : list Slider.SliderClick) :
  Slider.initTestimonialSlider slider prevBtn nextBtn slides = Some s0 ->
  let s := fold_left (fun s click => Slider.slider_onClick slides click s) clicks s0 in
  (0 <= Slider.currentIndex s < Z.of_nat slides)%Z.
Proof.
  intros Hinit s. subst s.
  unfold Slider.initTestimonialSlider in Hinit.
  destruct slider, prevBtn, nextBtn, slides as [| n]; simpl in Hinit; try discriminate.
  inversion Hinit; subst s0. clear Hinit.
  assert (Hstart : (0 <= Slider.currentIndex (Slider.mkSlider 0 None) < Z.of_nat (S n))%Z)
    by (simpl; lia).
  revert Hstart. generalize (Slider.mkSlider 0 None) as s.
  induction clicks as [| click clicks IH]; intros s Hs; [exact Hs |].
  simpl. apply IH. destruct click; simpl; apply showSlide_in_range; lia.
Qed.

Lemma slider_index_in_range_witness :
  Slider.initTestimonialSlider true true true 3 = Some (Slider.mkSlider 0 None)
  /\ (0 <= Slider.currentIndex
             (fold_left (fun s click => Slider.slider_onClick 3 click s)
                [Slider.ClickPrev; Slider.ClickNext; Slider.ClickNext] (Slider.mkSlider 0 None))
      < Z.of_nat 3)%Z.
Proof.
  split; [reflexivity |].
  exact (slider_index_in_range true true true 3 (Slider.mkSlider 0 None)
           [Slider.ClickPrev; Slider.ClickNext; Slider.ClickNext] eq_refl).
Defined.

Lemma slider_next_iter (slides : nat) (k : nat) (s : Slider.SliderState) :
  (0 <= Slider.currentIndex s < Z.of_nat slides)%Z ->
  Slider.currentIndex (Nat.iter k (Slider.slider_onClick slides Slider.ClickNext) s)
  = ((Slider.currentIndex s + Z.of_nat k) mod Z.of_nat slides)%Z.
Proof.
  intros Hs. induction k as [| k IH].
  - simpl. rewrite Z.add_0_r. symmetry. apply Z.mod_small. exact Hs.
  - rewrite Nat.iter_succ. unfold Slider.slider_onClick at 1.
    rewrite showSlide_next.
    + rewrite IH. rewrite Zplus_mod_idemp_l. f_equal. lia.
    + rewrite IH. apply Z.mod_pos_bound. lia.
Qed.

(** The slider wraps around and cycles: from any slide, "next" then "prev"
    and "prev" then "next" come back to it, as many "next" clicks as there
    are slides come back to it, "next" on the last slide shows the first
    and "prev" on the first shows the last. *)
Theorem slider_cycles (slides : nat) (s : Slider.SliderState) :
  (0 <= Slider.currentIndex s < Z.of_nat slides)%Z ->
  let next := Slider.slider_onClick slides Slider.ClickNext in
  let prev := Slider.slider_onClick slides Slider.ClickPrev in
  Slider.currentIndex (prev (next s)) = Slider.currentIndex s
  /\ Slider.currentIndex (next (prev s)) = Slider.currentIndex s
  /\ Slider.currentIndex (Nat.iter slides next s) = Slider.currentIndex s
  /\ (Slider.currentIndex s = Z.of_nat slides - 1 -> Slider.currentIndex (next s) = 0)%Z
  /\ (Slider.currentIndex s = 0 -> Slider.currentIndex (prev s) = Z.of_nat slides - 1)%Z.
Proof.
  intros Hs next prev. subst next prev.
  split; [| split; [| split; [| split]]].
  - unfold Slider.slider_onClick, Slider.showSlide. simpl.
    repeat match goal with
           | |- context [(?a <=? ?b)%Z] =>
               lazymatch b with
               | context [if _ then _ else _] => fail
               | _ => destruct (Z.leb_spec a b); simpl
               end
           | |- context [(?a <? ?b)%Z] =>
               lazymatch a with
               | context [if _ then _ else _] => fail
               | _ => destruct (Z.ltb_spec a b); simpl
               end
           end; lia.
  - unfold Slider.slider_onClick, Slider.showSlide. simpl.
    repeat match goal with
           | |- context [(?a <=? ?b)%Z] =>
               lazymatch b with
               | context [if _ then _ else _] => fail
               | _ => destruct (Z.leb_spec a b); simpl
               end
           | |- context [(?a <? ?b)%Z] =>
               lazymatch a with
               | context [if _ then _ else _] => fail
               | _ => destruct (Z.ltb_spec a b); simpl
               end
           end; lia.
  - rewrite (slider_next_iter slides slides s Hs).
    rewrite <- (Z.mul_1_l (Z.of_nat slides)) at 1.
    rewrite Z_mod_plus_full. apply Z.mod_small. exact Hs.
  - intros Hlast. unfold Slider.slider_onClick, Slider.showSlide. simpl.
    destruct (Z.leb_spec (Z.of_nat slides) (Slider.currentIndex s + 1)); [reflexivity | lia].
  - intros Hfirst. unfold Slider.slider_onClick, Slider.showSlide. simpl.
    destruct (Z.leb_spec (Z.of_nat slides) (Slider.currentIndex s - 1)); [lia |].
    destruct (Z.ltb_spec (Slider.currentIndex s - 1) 0); [reflexivity | lia].
Qed.

Lemma slider_cycles_witness :
  (0 <= Slider.currentIndex (Slider.mkSlider 2 None) < Z.of_nat 3)%Z
  /\ Slider.currentIndex
       (Nat.iter 3 (Slider.slider_onClick 3 Slider.ClickNext) (Slider.mkSlider 2 None))
     = 2%Z.
Proof.
  assert (H : (0 <= Slider.currentIndex (Slider.mkSlider 2 None) < Z.of_nat 3)%Z)
    by (simpl; lia).
  split; [exact H |].
  exact (proj1 (proj2 (proj2 (slider_cycles 3 (Slider.mkSlider 2 None) H)))).
Defined.

(** ** The login link *)

Lemma updateAuthUI_signed_out_hrefs (anchors : list AuthUI.Anchor) :
  map AuthUI.a_href (AuthUI.updateAuthUI false anchors) = map AuthUI.a_href anchors.
Proof.
  induction anchors as [| a rest IH]; [reflexivity |].
  simpl. unfold AuthUI.is_login_link.
  destruct (AuthUI.a_href a) as [href |] eqn:Hhref; simpl.
  - destruct (String.eqb_spec href "login.html") as [-> | _]; simpl; congruence.
  - congruence.
Qed.

Lemma updateAuthUI_no_login_link (isSignedIn : bool) (anchors : list AuthUI.Anchor) :
  count_login_links anchors = 0%nat ->
  AuthUI.updateAuthUI isSignedIn anchors = anchors.
Proof.
  unfold count_login_links.
  induction anchors as [| a rest IH]; [reflexivity |].
  simpl. destruct (AuthUI.is_login_link a); simpl; [discriminate |].
  intros H. rewrite (IH H). reflexivity.
Qed.

(** The login link does not come back: [updateAuthUI(true)] turns the first
    link to "login.html" into a "Logout" link whose href is "#", so it is
    no longer a login link; [updateAuthUI(false)] never changes an href;
    and on a page with at most one login link, [updateAuthUI(false)] after
    [updateAuthUI(true)] changes nothing, so the link keeps saying
    "Logout". *)
Theorem updateAuthUI_logout_sticks (anchors : list AuthUI.Anchor) :
  (count_login_links anchors <= 1)%nat ->
  count_login_links (AuthUI.updateAuthUI true anchors) = 0%nat
  /\ map AuthUI.a_href (AuthUI.updateAuthUI false anchors) = map AuthUI.a_href anchors
  /\ AuthUI.updateAuthUI false (AuthUI.updateAuthUI true anchors)
     = AuthUI.updateAuthUI true anchors.
Proof.
  intros Hone.
  assert (Hnone : count_login_links (AuthUI.updateAuthUI true anchors) = 0%nat).
  { revert Hone. unfold count_login_links.
    induction anchors as [| a rest IH]; [reflexivity |].
    simpl. destruct (AuthUI.is_login_link a) eqn:Ha; simpl.
    - intros H. lia.
    - rewrite Ha. exact IH. }
  split; [exact Hnone |]. split; [apply updateAuthUI_signed_out_hrefs |].
  apply updateAuthUI_no_login_link. exact Hnone.
Qed.

Lemma updateAuthUI_logout_sticks_witness :
  (count_login_links sample_nav <= 1)%nat
  /\ map AuthUI.a_text (AuthUI.updateAuthUI false (AuthUI.updateAuthUI true sample_nav))
     = ["Home"; "Logout"; "Order"].
Proof.
  assert (H : (count_login_links sample_nav <= 1)%nat) by (vm_compute; lia).
  split; [exact H |].
  rewrite (proj2 (proj2 (updateAuthUI_logout_sticks sample_nav H))). reflexivity.
Defined.

(** ** Sign-up and sign-in *)

(** None of the four sign-in functions rejects: each resolves to an object
    whose [success] is a boolean, carrying an [error] message when it is
    [false]; they show no alert and call no backend of the shop. *)
Theorem auth_calls_never_reject (provider : Auth.AuthProvider) (email password : string)
    (w : World) :
  Forall
    (fun call : M JsVal =>
       exists (r : gmap string JsVal) (b : bool) (w' : World),
         call w = (Normal (VObj r), w')
         /\ r !! "success" = Some (VBool b)
         /\ (b = false -> exists msg, r !! "error" = Some (VStr msg))
         /\ alerts w' = alerts w
         /\ requests w' = requests w)
    [Auth.signUp provider email password; Auth.signIn provider email password;
     Auth.signInWithGoogle provider; Auth.signOut provider].
Proof.
  repeat constructor.
  - unfold Auth.signUp, Auth.credential_call. unfold_monad.
    destruct (Auth.createUser_reply provider email password) as [c | e]; simpl.
    + destruct (get_prop c "user") as [u | e]; simpl;
        eexists _, _, _; (split; [reflexivity |]); simpl; repeat split; eauto; discriminate.
    + eexists _, _, _. split; [reflexivity |]. simpl. repeat split; eauto.
  - unfold Auth.signIn, Auth.credential_call. unfold_monad.
    destruct (Auth.signIn_reply provider email password) as [c | e]; simpl.
    + destruct (get_prop c "user") as [u | e]; simpl;
        eexists _, _, _; (split; [reflexivity |]); simpl; repeat split; eauto; discriminate.
    + eexists _, _, _. split; [reflexivity |]. simpl. repeat split; eauto.
  - unfold Auth.signInWithGoogle, Auth.credential_call. unfold_monad.
    destruct (Auth.popup_reply provider) as [c | e]; simpl.
    + destruct (get_prop c "user") as [u | e] eqn:Hu; simpl.
      * destruct (get_prop c "credential") as [cr | e]; simpl.
        -- destruct (get_prop cr "accessToken") as [t | e]; simpl.
           ++ eexists _, _, _. split; [reflexivity |]. simpl. repeat split; eauto; discriminate.
           ++ eexists _, _, _. split; [reflexivity |]. simpl. repeat split; eauto.
        -- eexists _, _, _. split; [reflexivity |]. simpl. repeat split; eauto.
      * destruct c; simpl in Hu; try discriminate; simpl;
          eexists _, _, _; (split; [reflexivity |]); simpl; repeat split; eauto.
    + eexists _, _, _. split; [reflexivity |]. simpl. repeat split; eauto.
  - unfold Auth.signOut. unfold_monad.
    destruct (Auth.signOut_reply provider) as [[] | e]; simpl;
      eexists _, _, _; (split; [reflexivity |]); simpl; repeat split; eauto; discriminate.
Qed.

(** [signInWithGoogle] reports failure when the popup resolves without a
    credential: the provider has signed the user in, yet the function
    reads [credential.accessToken], fails, and returns [success: false]. *)
Theorem signInWithGoogle_without_credential (provider : Auth.AuthProvider)
    (result : gmap string JsVal) (user : JsVal) (w : World) :
  Auth.popup_reply provider = Normal (VObj result) ->
  result !! "user" = Some user ->
  result !! "credential" = None \/ result !! "credential" = Some VNull ->
  exists (r : gmap string JsVal) (w' : World),
    Auth.signInWithGoogle provider w = (Normal (VObj r), w')
    /\ r !! "success" = Some (VBool false)
    /\ auth_currentUser w' = user.
Proof.
  intros Hpopup Huser Hcredential.
  unfold Auth.signInWithGoogle, Auth.credential_call. unfold_monad.
  rewrite Hpopup. simpl. rewrite Huser. simpl.
  destruct Hcredential as [-> | ->]; simpl;
    eexists _, _; (split; [reflexivity |]); simpl; split; reflexivity.
Qed.

Lemma signInWithGoogle_without_credential_witness :
  Auth.popup_reply popup_without_credential
  = Normal (VObj (list_to_map [("user", VObj {["email" := VStr "ada@example.org"]});
                               ("credential", VNull)]))
  /\ exists (r : gmap string JsVal) (w' : World),
       Auth.signInWithGoogle popup_without_credential fresh_page = (Normal (VObj r), w')
       /\ r !! "success" = Some (VBool false)
       /\ auth_currentUser w' = VObj {["email" := VStr "ada@example.org"]}.
Proof.
  split; [reflexivity |].
  exact (signInWithGoogle_without_credential popup_without_credential _ _ fresh_page
           eq_refl eq_refl (or_intror eq_refl)).
Defined.

(** ** The catalog and detail pages *)

Lemma includes_empty (s : string) : includes s "" = true.
Proof. destruct s; reflexivity. Qed.

(** Rendering the grid: it needs the grid element; an empty sequence gives
    the "No flavors found!" text and no card. *)
Lemma renderProducts_empty (host : Host) (p : Page) (html : string) :
  productGrid (p_world p) = Some html ->
  exists logs,
    Catalog.renderProducts host (VArr []) p
    = (Normal tt,
       mkPage (set_grid_cards [] (p_dom p))
         (set_console logs (set_productGrid (Some "<p>No flavors found!</p>") (p_world p)))).
Proof.
  intros Hgrid. destruct p as [d w]. simpl in Hgrid.
  unfold Catalog.renderProducts, Catalog.set_grid_html. unfold_page. unfold_monad.
  simpl. rewrite Hgrid. simpl. eexists. unfold_setters. simpl.
  destruct d; reflexivity.
Qed.

(** [initProductsPage] replaces the message of a failed catalog load:
    whenever it runs on a page that still has the catalog and the grid as
    a failed [loadProducts] left them, whatever else happened in between,
    the grid ends up showing "No flavors found!" and not the "could not
    load flavors" message, with no card, and the search listener is
    registered. *)
Theorem load_failure_message_overwritten (host : Host) (net : Backend) (w : World)
    (p : Page) (e : JsError) (html : string) :
  catalog_failure (fetch_reply net (length (requests w)) "products.json" None) = Some e ->
  productGrid w = Some html ->
  allProducts (p_world p) = allProducts (snd (loadProducts net w)) ->
  productGrid (p_world p) = productGrid (snd (loadProducts net w)) ->
  let p' := snd (Catalog.initProductsPage host p) in
  fst (Catalog.initProductsPage host p) = Normal tt
  /\ productGrid (p_world p') = Some "<p>No flavors found!</p>"
  /\ productGrid (p_world p')
     <> Some ("<p style=" +:+ quoted "color: var(--primary-color);"
              +:+ ">Could not load flavors. Please run this page through a web server.</p>")
  /\ grid_cards (p_dom p') = []
  /\ search_listener (p_dom p') = true.
Proof.
  intros Hfail Hgrid Hsame_catalog Hsame_grid p'. subst p'.
  assert (Hload : exists html1,
             allProducts (snd (loadProducts net w)) = VArr []
             /\ productGrid (snd (loadProducts net w)) = Some html1).
  { revert Hfail. unfold loadProducts, fetch. unfold_monad. unfold_setters.
    destruct (fetch_reply net (length (requests w)) "products.json" None)
      as [e0 | [] status [v | e0]]; simpl; intros Hfail; try discriminate;
      cbn -[includes could_not_load_flavors String.eqb pretty];
      destruct (String.eqb (location_protocol w) "file:"
                || includes _ "Failed to fetch");
      cbn -[includes could_not_load_flavors String.eqb pretty];
      rewrite ?Hgrid; eexists; repeat split; simpl; try reflexivity;
      rewrite ?Hgrid; reflexivity. }
  destruct Hload as (html1 & Hempty & Hgrid1).
  rewrite Hempty in Hsame_catalog. rewrite Hgrid1 in Hsame_grid.
  destruct p as [d w1]. simpl in *.
  unfold Catalog.initProductsPage. unfold_page. simpl.
  unfold_monad. simpl. rewrite Hsame_catalog.
  destruct (renderProducts_empty host (mkPage d w1) html1 Hsame_grid) as [logs Hrender].
  rewrite Hrender. simpl.
  repeat split. vm_compute. discriminate.
Qed.

Lemma load_failure_message_overwritten_witness :
  catalog_failure (fetch_reply server_error (length (requests fresh_page)) "products.json" None)
  = Some (mkError "HTTP error! status: 500")
  /\ productGrid fresh_page = Some ""
  /\ productGrid (snd (loadProducts server_error fresh_page))
     = Some ("<p style=" +:+ quoted "color: var(--primary-color);"
             +:+ ">Could not load flavors. Please run this page through a web server.</p>")
  /\ productGrid
       (p_world (snd (Catalog.initProductsPage test_host
                        (mkPage blank_dom (snd (loadProducts server_error fresh_page))))))
     = Some "<p>No flavors found!</p>".
Proof.
  split; [reflexivity |]. split; [reflexivity |]. split; [reflexivity |].
  exact (proj1 (proj2 (load_failure_message_overwritten test_host server_error fresh_page
                         (mkPage blank_dom (snd (loadProducts server_error fresh_page)))
                         _ "" eq_refl eq_refl eq_refl eq_refl))).
Defined.

Lemma filter_by_all (predicate : JsVal -> Completion bool) (l : list JsVal) :
  Forall (fun x => predicate x = Normal true) l ->
  Catalog.filter_by predicate l = Normal l.
Proof.
  induction 1 as [| x l Hx Hall IH]; [reflexivity |].
  simpl. rewrite Hx. simpl. rewrite IH. reflexivity.
Qed.

(** Clearing the search shows the whole catalog again: when the search
    bar's value lowercases to the empty string and every product has a
    string name, the listener renders exactly what [renderProducts] renders
    for all the products. *)
Theorem empty_search_shows_catalog (host : Host) (engine : Catalog.Engine) (p : Page)
    (value : string) (l : list JsVal) :
  Catalog.String_toLowerCase engine value = "" ->
  allProducts (p_world p) = VArr l ->
  Forall (fun product => exists name, get_prop product "name" = Normal (VStr name)) l ->
  Catalog.searchBar_onKeyup host engine value p = Catalog.renderProducts host (VArr l) p.
Proof.
  intros Hlower Hall Hnames. destruct p as [d w]. simpl in Hall.
  unfold Catalog.searchBar_onKeyup. unfold_page. unfold_monad. cbv beta iota zeta.
  cbn [p_world p_dom]. rewrite Hall, Hlower.
  rewrite filter_by_all; [reflexivity |].
  eapply Forall_impl; [exact Hnames |].
  intros product [name Hname]. unfold Catalog.matches_search, cbind.
  rewrite Hname, includes_empty. reflexivity.
Qed.

Lemma empty_search_shows_catalog_witness :
  Catalog.String_toLowerCase sample_engine "" = ""
  /\ allProducts (p_world catalog_page) = VArr [VObj pistachio; VObj vanilla]
  /\ map pc_buttons
       (grid_cards (p_dom (snd (Catalog.searchBar_onKeyup shop_host sample_engine ""
                                  catalog_page))))
     = [[mkOrderButton (Some "2") true]; [mkOrderButton (Some "1") true]].
Proof.
  split; [reflexivity |]. split; [reflexivity |].
  rewrite (empty_search_shows_catalog shop_host sample_engine catalog_page ""
             [VObj pistachio; VObj vanilla] eq_refl eq_refl).
  - vm_compute. reflexivity.
  - repeat constructor; eexists; reflexivity.
Defined.

Lemma find_by_id_first (host : Host) (productId : string) (before after : list JsVal)
    (product : gmap string JsVal) (id : JsVal) :
  Forall (fun other =>
            exists otherId,
              get_prop other "id" = Normal otherId
              /\ Catalog.loose_eq_str host otherId productId = false) before ->
  product !! "id" = Some id ->
  Catalog.loose_eq_str host id productId = true ->
  Catalog.find_by_id host productId (before ++ VObj product :: after) = Normal (VObj product).
Proof.
  intros Hbefore Hid Heq.
  induction Hbefore as [| other before (otherId & Hother & Hne) Hbefore IH]; simpl.
  - rewrite Hid. simpl. rewrite Heq. reflexivity.
  - rewrite Hother. simpl. rewrite Hne. exact IH.
Qed.

(** "View Details" opens the product clicked.  Take a card rendered from a
    catalog product and one of its order buttons, with its listener, whose
    [data-id] the parser read from the markup as the text of the product's
    id.  When that id equals ([==]) its own text and no catalog entry
    before the product has an id equal to it, a click on the button stores
    the id and goes to the detail page, and [initProductDetailPage] run
    there fills the page with that product's image, name, price,
    description and ingredients and registers the listeners, without alert
    or redirect. *)
Theorem view_details_opens_product (host : Host) (p : Page) (d0 : Dom)
    (before after : list JsVal) (product : gmap string JsVal) (id : JsVal) (price : float)
    (card : ProductCard) (button : OrderButton) :
  allProducts (p_world p) = VArr (before ++ VObj product :: after) ->
  Catalog.render_product host (VObj product) = Normal card ->
  In button (pc_buttons (Catalog.listen_card card)) ->
  product !! "id" = Some id ->
  data_id button = Some (ToString host id) ->
  product !! "price" = Some (VNum price) ->
  ToString host id <> "" ->
  Catalog.loose_eq_str host id (ToString host id) = true ->
  Forall (fun other =>
            exists otherId,
              get_prop other "id" = Normal otherId
              /\ Catalog.loose_eq_str host otherId (ToString host id) = false) before ->
  let clicked := snd (Catalog.orderBtn_onClick button p) in
  let opened := snd (Catalog.initProductDetailPage host (mkPage d0 (p_world clicked))) in
  location_href (p_world clicked) = "product-detail.html"
  /\ localStorage (p_world clicked) !! "selectedProductId" = Some (ToString host id)
  /\ fst (Catalog.initProductDetailPage host (mkPage d0 (p_world clicked))) = Normal tt
  /\ detail_product (p_dom opened) = Some (VObj product)
  /\ detail_fields (p_dom opened)
     = detail_fields d0
       ++ [("product-image", default VUndefined (product !! "image"));
           ("product-name", default VUndefined (product !! "name"));
           ("product-price", VStr ("$" +:+ toFixed host price));
           ("product-description", default VUndefined (product !! "description"));
           ("product-ingredients",
            VStr ("Ingredients: "
                  +:+ ToString host (default VUndefined (product !! "ingredients"))))]
  /\ p_world opened = p_world clicked.
Proof.
  intros Hall Hcard Hbutton Hid Hdata Hprice Hstr Heq Hbefore clicked opened.
  assert (Hlistening : ob_listening button = true).
  { unfold Catalog.listen_card in Hbutton. simpl in Hbutton.
    apply in_map_iff in Hbutton as (b0 & Hb0 & _). subst button. reflexivity. }
  assert (Hclicked : clicked
                     = mkPage (p_dom p)
                         (set_location_href "product-detail.html"
                            (set_localStorage
                               (<["selectedProductId" := ToString host id]>
                                  (localStorage (p_world p))) (p_world p)))).
  { subst clicked. unfold Catalog.orderBtn_onClick.
    unfold_page. unfold_monad. rewrite Hlistening, Hdata. reflexivity. }
  subst opened. rewrite Hclicked. simpl.
  split; [reflexivity |]. split; [apply lookup_insert_eq |].
  unfold Catalog.initProductDetailPage, Catalog.show_field. unfold_page. unfold_monad.
  simpl. rewrite lookup_insert_eq, (truthy_str_true _ Hstr).
  unfold_setters. cbn [p_world allProducts]. rewrite Hall.
  rewrite (find_by_id_first host (ToString host id) before after product id Hbefore Hid Heq).
  simpl. rewrite Hprice. simpl. rewrite <- !app_assoc. simpl.
  repeat split.
Qed.

Lemma view_details_opens_product_witness :
  allProducts (p_world catalog_page) = VArr ([VObj pistachio] ++ VObj vanilla :: [])
  /\ (exists card,
        Catalog.render_product shop_host (VObj vanilla) = Normal card
        /\ pc_buttons (Catalog.listen_card card) = [mkOrderButton (Some "1") true])
  /\ Catalog.loose_eq_str shop_host (VNum 1%float) "1" = true
  /\ Catalog.loose_eq_str shop_host (VNum 2%float) "1" = false
  /\ detail_product
       (p_dom (snd (Catalog.initProductDetailPage shop_host
                      (mkPage blank_dom
                         (p_world (snd (Catalog.orderBtn_onClick
                                          (mkOrderButton (Some "1") true) catalog_page)))))))
     = Some (VObj vanilla).
Proof.
  split; [reflexivity |].
  split; [eexists; split; [reflexivity | vm_compute; reflexivity] |].
  split; [reflexivity |]. split; [reflexivity |].
  refine (proj1 (proj2 (proj2 (proj2
            (view_details_opens_product shop_host catalog_page blank_dom [VObj pistachio] []
               vanilla (VNum 1%float) 4.5%float _ (mkOrderButton (Some "1") true)
               eq_refl eq_refl _ eq_refl eq_refl eq_refl _ eq_refl _))))).
  - vm_compute. left. reflexivity.
  - vm_compute. discriminate.
  - repeat constructor. exists (VNum 2%float). split; reflexivity.
Defined.

(** "Proceed to Order" hands the selection to the order page: when the
    engine's JSON text of the order item parses back to it, the click
    leaves the cart holding the product's id, name, price and image with
    the quantity parsed from the quantity input, and goes to the order
    page. *)
Theorem proceed_to_order_fills_cart (host : Host) (engine : Catalog.Engine) (p : Page)
    (product : gmap string JsVal) :
  detail_product (p_dom p) = Some (VObj product) ->
  let item : gmap string JsVal :=
    list_to_map [
      ("id", default VUndefined (product !! "id"));
      ("name", default VUndefined (product !! "name"));
      ("price", default VUndefined (product !! "price"));
      ("quantity", VNum (parseInt host (quantity_value (p_dom p))));
      ("image", default VUndefined (product !! "image"))] in
  Catalog.JSON_stringify engine (VObj item) <> "" ->
  JSON_parse host (Catalog.JSON_stringify engine (VObj item)) = Normal (VObj item) ->
  let p' := snd (Catalog.proceedToOrder_onClick host engine p) in
  fst (Catalog.proceedToOrder_onClick host engine p) = Normal tt
  /\ cart_holds host (p_world p') item
  /\ location_href (p_world p') = "order.html"
  /\ requests (p_world p') = requests (p_world p).
Proof.
  intros Hproduct item Hnonempty Hparse p'. subst p'.
  destruct p as [d w]. simpl in *.
  unfold Catalog.proceedToOrder_onClick, Catalog.orderItem_literal. unfold_page.
  unfold_monad. simpl. rewrite Hproduct. simpl.
  split; [reflexivity |]. split; [| split; reflexivity].
  exists (Catalog.JSON_stringify engine (VObj item)).
  split; [apply lookup_insert_eq |]. split; assumption.
Qed.

Lemma proceed_to_order_fills_cart_witness :
  detail_product (p_dom vanilla_detail_page) = Some (VObj vanilla)
  /\ cart_holds shop_host
       (p_world (snd (Catalog.proceedToOrder_onClick shop_host sample_engine
                        vanilla_detail_page)))
       cart_item
  /\ cart_item !! "quantity" = Some (VNum 3%float).
Proof.
  split; [reflexivity |].
  split; [| reflexivity].
  refine (proj1 (proj2 (proceed_to_order_fills_cart shop_host sample_engine
                          vanilla_detail_page vanilla eq_refl _ eq_refl))).
  vm_compute. discriminate.
Defined.
